(** * Teryx: a shallow embedding of [main.go] and its workflow properties

    Teryx is a small Go command-line tool that sequences calls to the
    [fossil], [scp] and [sftp] executables.  This development embeds the
    three workflows ([initCmd], [transferCmd], [cloneCmd]) together with the
    two process-runner helpers as functions in a trace monad, and models the
    parts of Go's standard library that the workflows call ([strings]
    with [unicode] and [unicode/utf8], [path/filepath], [net/url] with
    [strconv] and [net/netip], [os/exec], [os/user]) as far as the
    workflows reach into them.

    Go strings are byte sequences; they are modelled by Rocq's [string]
    (a list of 8-bit [ascii] characters), so a non-ASCII character of a
    message is the sequence of bytes of its UTF-8 encoding, as in Go. *)

From Stdlib Require Import String Ascii List Arith Bool ZArith Lia.
From Stdlib Require DecimalString.
Import ListNotations.

Open Scope list_scope.
Open Scope string_scope.

(** ** Bytes and slices *)

(** The double quote and the newline, built from their codes. *)
Definition dquote : string := String (ascii_of_nat 34) EmptyString.
Definition newline : string := String (ascii_of_nat 10) EmptyString.

(** [slice_to n s] is Go's [s[:n]] and [slice_from n s] is [s[n:]], for
    [n <= len(s)] (Go panics beyond; the library code below never goes
    there). *)
Fixpoint slice_to (n : nat) (s : string) : string :=
  match n, s with
  | S n', String c s' => String c (slice_to n' s')
  | _, _ => EmptyString
  end.

Fixpoint slice_from (n : nat) (s : string) : string :=
  match n, s with
  | S n', String _ s' => slice_from n' s'
  | _, _ => s
  end.

Definition len (s : string) : nat := String.length s.

(** ** Package [unicode/utf8]: runes are code points, as integers *)

Module utf8.

Definition RuneError : Z := 65533.
Definition RuneSelf : Z := 128.
Definition UTFMax : nat := 4.

(** A byte as an integer, and the byte [s[i]] (zero beyond the end, where
    the code below never reads). *)
Definition byte (c : ascii) : Z := Z.of_N (N_of_ascii c).

Definition byte_at (s : string) (i : nat) : Z :=
  match String.get i s with
  | Some c => byte c
  | None => 0%Z
  end.

(** The tables [first] and [acceptRanges]: for a leading byte of a
    multi-byte sequence, the size of the sequence and the range accepted
    for its second byte. *)
Definition first (b : Z) : option (nat * Z * Z) :=
  (if b <? 194 then None
   else if b <? 224 then Some (2%nat, 128, 191)
   else if b =? 224 then Some (3%nat, 160, 191)
   else if b =? 237 then Some (3%nat, 128, 159)
   else if b <? 240 then Some (3%nat, 128, 191)
   else if b =? 240 then Some (4%nat, 144, 191)
   else if b <? 244 then Some (4%nat, 128, 191)
   else if b =? 244 then Some (4%nat, 128, 143)
   else None)%Z.

Definition continuation (b : Z) : bool := ((128 <=? b) && (b <=? 191))%Z.

(** [func DecodeRuneInString(s string) (rune, int)]: an invalid encoding
    is [RuneError] of width 1. *)
Definition DecodeRuneInString (s : string) : Z * nat :=
  match s with
  | EmptyString => (RuneError, 0)
  | String c0 rest =>
      let s0 := byte c0 in
      if (s0 <? RuneSelf)%Z then (s0, 1)
      else
        match first s0 with
        | None => (RuneError, 1)
        | Some (sz, lo, hi) =>
            if (len s <? sz)%nat then (RuneError, 1)
            else
              let s1 := byte_at s 1 in
              if ((s1 <? lo) || (hi <? s1))%Z then (RuneError, 1)
              else if (sz <=? 2)%nat
              then (Z.lor (Z.shiftl (Z.land s0 31) 6) (Z.land s1 63), 2)
              else
                let s2 := byte_at s 2 in
                if negb (continuation s2) then (RuneError, 1)
                else if (sz <=? 3)%nat
                then (Z.lor (Z.lor (Z.shiftl (Z.land s0 15) 12)
                                   (Z.shiftl (Z.land s1 63) 6))
                            (Z.land s2 63), 3)
                else
                  let s3 := byte_at s 3 in
                  if negb (continuation s3) then (RuneError, 1)
                  else (Z.lor (Z.lor (Z.lor (Z.shiftl (Z.land s0 7) 18)
                                            (Z.shiftl (Z.land s1 63) 12))
                                     (Z.shiftl (Z.land s2 63) 6))
                              (Z.land s3 63), 4)
        end
  end.

(** [func RuneStart(b byte) bool]: not a continuation byte. *)
Definition RuneStart (b : Z) : bool := negb (Z.land b 192 =? 128)%Z.

(** The loop of [DecodeLastRuneInString] that steps back to the start of
    the last rune, no further than [lim]; the index is an integer because
    the loop may leave it at [lim - 1]. *)
Fixpoint scan_back (s : string) (start lim : Z) (fuel : nat) : Z :=
  match fuel with
  | O => start
  | S fuel' =>
      if (start <? lim)%Z then start
      else if RuneStart (byte_at s (Z.to_nat start)) then start
      else scan_back s (start - 1) lim fuel'
  end.

(** [func DecodeLastRuneInString(s string) (rune, int)]. *)
Definition DecodeLastRuneInString (s : string) : Z * nat :=
  let e := len s in
  if (e =? 0)%nat then (RuneError, 0)
  else
    let r := byte_at s (e - 1) in
    if (r <? RuneSelf)%Z then (r, 1)
    else
      let lim := Z.max (Z.of_nat e - Z.of_nat UTFMax) 0 in
      let start := scan_back s (Z.of_nat e - 2) lim (S UTFMax) in
      let start := Z.to_nat (if (start <? 0)%Z then 0%Z else start) in
      let '(r, size) := DecodeRuneInString (slice_from start s) in
      if negb (start + size =? e)%nat then (RuneError, 1) else (r, size).

(** [func ValidRune(r rune) bool]: in range and no surrogate half. *)
Definition MaxRune : Z := 1114111.

Definition ValidRune (r : Z) : bool :=
  (((0 <=? r) && (r <? 55296)) || ((57343 <? r) && (r <=? MaxRune)))%Z.

(** The conversion [byte(x)]. *)
Definition to_byte (x : Z) : ascii := ascii_of_N (Z.to_N (Z.land x 255)).

Definition encode3 (r : Z) : string :=
  String (to_byte (Z.lor 224 (Z.shiftr r 12)))
    (String (to_byte (Z.lor 128 (Z.land (Z.shiftr r 6) 63)))
       (String (to_byte (Z.lor 128 (Z.land r 63))) EmptyString)).

(** [func AppendRune(p []byte, r rune) []byte], as the bytes appended. *)
Definition AppendRune (r : Z) : string :=
  let i := (r mod 4294967296)%Z in
  (if i <=? 127 then String (to_byte r) EmptyString
   else if i <=? 2047
   then String (to_byte (Z.lor 192 (Z.shiftr r 6)))
          (String (to_byte (Z.lor 128 (Z.land r 63))) EmptyString)
   else if (MaxRune <? i) || ((55296 <=? i) && (i <=? 57343))
   then encode3 RuneError
   else if i <=? 65535 then encode3 r
   else String (to_byte (Z.lor 240 (Z.shiftr r 18)))
          (String (to_byte (Z.lor 128 (Z.land (Z.shiftr r 12) 63)))
             (String (to_byte (Z.lor 128 (Z.land (Z.shiftr r 6) 63)))
                (String (to_byte (Z.lor 128 (Z.land r 63))) EmptyString))))%Z.

End utf8.

(** ** Package [unicode] *)

Module unicode.

(** [func IsSpace(r rune) bool]: the Latin-1 cases, then the table
    [White_Space]. *)
Definition IsSpace (r : Z) : bool :=
  (if r <=? 255
   then ((9 <=? r) && (r <=? 13)) || (r =? 32) || (r =? 133) || (r =? 160)
   else (r =? 5760) || ((8192 <=? r) && (r <=? 8202)) || (r =? 8232) || (r =? 8233)
        || (r =? 8239) || (r =? 8287) || (r =? 12288))%Z.

End unicode.

(** ** Package [strings] *)

Module strings.

(** [func HasPrefix(s, prefix string) bool]:
    [len(s) >= len(prefix) && s[:len(prefix)] == prefix]. *)
Definition HasPrefix (s prefix : string) : bool :=
  (len prefix <=? len s)%nat && (slice_to (len prefix) s =? prefix).

(** [func HasSuffix(s, suffix string) bool]:
    [len(s) >= len(suffix) && s[len(s)-len(suffix):] == suffix]. *)
Definition HasSuffix (s suffix : string) : bool :=
  (len suffix <=? len s)%nat && (slice_from (len s - len suffix) s =? suffix).

(** [func TrimPrefix(s, prefix string) string]. *)
Definition TrimPrefix (s prefix : string) : string :=
  if HasPrefix s prefix then slice_from (len prefix) s else s.

(** [func TrimSuffix(s, suffix string) string]. *)
Definition TrimSuffix (s suffix : string) : string :=
  if HasSuffix s suffix then slice_to (len s - len suffix) s else s.

(** [func Index(s, substr string) int]: the index of the first instance
    of [substr] in [s]; Go's [-1] is [None]. *)
Fixpoint Index (s substr : string) : option nat :=
  if HasPrefix s substr then Some 0
  else match s with
       | EmptyString => None
       | String _ s' => option_map S (Index s' substr)
       end.

(** [func LastIndex(s, substr string) int]. *)
Fixpoint LastIndex (s substr : string) : option nat :=
  match s with
  | EmptyString => if HasPrefix s substr then Some 0 else None
  | String _ s' =>
      match LastIndex s' substr with
      | Some i => Some (S i)
      | None => if HasPrefix s substr then Some 0 else None
      end
  end.

(** [func Contains(s, substr string) bool]: [Index(s, substr) >= 0]. *)
Definition Contains (s substr : string) : bool :=
  match Index s substr with Some _ => true | None => false end.

(** [func Cut(s, sep string) (before, after string, found bool)]. *)
Definition Cut (s sep : string) : string * string * bool :=
  match Index s sep with
  | Some i => (slice_to i s, slice_from (i + len sep) s, true)
  | None => (s, EmptyString, false)
  end.

(** The loop of [genSplit]: at most [k] cuts, then the rest of [s]. *)
Fixpoint split_loop (k : nat) (s sep : string) : list string :=
  match k with
  | O => [s]
  | S k' =>
      match Index s sep with
      | None => [s]
      | Some m => slice_to m s :: split_loop k' (slice_from (m + len sep) s) sep
      end
  end.

(** [func Count(s, substr string) int] for a non-empty [substr]: the
    number of non-overlapping instances. *)
Definition Count (s substr : string) : nat :=
  List.length (split_loop (len s) s substr) - 1.

(** [explode] for an empty separator, byte by byte: Go cuts after each
    UTF-8 sequence, which is one byte for ASCII text.  The workflows never
    split on an empty separator. *)
Fixpoint explode (k : nat) (s : string) : list string :=
  match k, s with
  | _, EmptyString => []
  | O, _ => [s]
  | S k', String c s' =>
      match s' with
      | EmptyString => [s]
      | _ => String c EmptyString :: explode k' s'
      end
  end.

(** [func SplitN(s, sep string, n int) []string] is
    [genSplit(s, sep, 0, n)]: [n = 0] gives nil; [n < 0] all pieces;
    otherwise at most [n] pieces, the last one the unsplit remainder.
    [n] is clamped to [len(s)+1] before the slice is made. *)
Definition SplitN (s sep : string) (n : Z) : list string :=
  if (n =? 0)%Z then []
  else if sep =? EmptyString then
    (if (n <? 0)%Z then explode (len s) s else explode (Z.to_nat n - 1) s)
  else
    let n1 := if (n <? 0)%Z then Count s sep + 1 else Z.to_nat n in
    let n2 := if (len s + 1 <? n1)%nat then len s + 1 else n1 in
    split_loop (n2 - 1) s sep.

(** [func Join(elems []string, sep string) string]. *)
Fixpoint Join (elems : list string) (sep : string) : string :=
  match elems with
  | [] => EmptyString
  | [e] => e
  | e :: rest => e ++ sep ++ Join rest sep
  end.

(** ASCII lower-casing of one byte and of a string ([strings.ToLower] on
    ASCII input). *)
Definition lower_byte (c : ascii) : ascii :=
  let n := nat_of_ascii c in
  if ((65 <=? n) && (n <=? 90))%nat then ascii_of_nat (n + 32) else c.

Fixpoint ToLower (s : string) : string :=
  match s with
  | EmptyString => EmptyString
  | String c s' => String (lower_byte c) (ToLower s')
  end.

(** The table [asciiSpace]: tab, line feed, vertical tab, form feed,
    carriage return, space. *)
Definition is_space (c : ascii) : bool :=
  let n := nat_of_ascii c in
  (((9 <=? n) && (n <=? 13)) || (n =? 32))%nat.

(** [indexFunc(s, f, truth)]: the index of the first rune [r] of [s] with
    [f(r) == truth], ranging over the string as [for i, r := range s]
    does. *)
Fixpoint index_func_loop (fuel i : nat) (s : string) (f : Z -> bool) (truth : bool)
  : option nat :=
  match fuel with
  | O => None
  | S fuel' =>
      if (len s =? 0)%nat then None
      else
        let '(r, size) := utf8.DecodeRuneInString s in
        if Bool.eqb (f r) truth then Some i
        else index_func_loop fuel' (i + size) (slice_from size s) f truth
  end.

Definition indexFunc (s : string) (f : Z -> bool) (truth : bool) : option nat :=
  index_func_loop (len s) 0 s f truth.

(** [lastIndexFunc(s, f, truth)], stepping back rune by rune from [i]. *)
Fixpoint last_index_func_loop (fuel i : nat) (s : string) (f : Z -> bool) (truth : bool)
  : option nat :=
  match fuel with
  | O => None
  | S fuel' =>
      if (i =? 0)%nat then None
      else
        let '(r, size) := utf8.DecodeLastRuneInString (slice_to i s) in
        let i := i - size in
        if Bool.eqb (f r) truth then Some i
        else last_index_func_loop fuel' i s f truth
  end.

Definition lastIndexFunc (s : string) (f : Z -> bool) (truth : bool) : option nat :=
  last_index_func_loop (len s) (len s) s f truth.

(** [func TrimLeftFunc(s string, f func(rune) bool) string]. *)
Definition TrimLeftFunc (s : string) (f : Z -> bool) : string :=
  match indexFunc s f false with
  | None => EmptyString
  | Some i => slice_from i s
  end.

(** [func TrimRightFunc(s string, f func(rune) bool) string]. *)
Definition TrimRightFunc (s : string) (f : Z -> bool) : string :=
  match lastIndexFunc s f false with
  | Some i =>
      if (utf8.RuneSelf <=? utf8.byte_at s i)%Z
      then slice_to (i + snd (utf8.DecodeRuneInString (slice_from i s))) s
      else slice_to (i + 1) s
  | None => EmptyString
  end.

(** [func TrimFunc(s string, f func(rune) bool) string]. *)
Definition TrimFunc (s : string) (f : Z -> bool) : string :=
  TrimRightFunc (TrimLeftFunc s f) f.

(** The second loop of [TrimSpace], over [s] (which is [s[start:]]) down
    from [stop]. *)
Fixpoint trim_space_stop (s : string) (stop : nat) : string :=
  match stop with
  | O => EmptyString
  | S stop' =>
      match String.get stop' s with
      | Some c =>
          if (utf8.RuneSelf <=? utf8.byte c)%Z
          then TrimRightFunc (slice_to stop s) unicode.IsSpace
          else if is_space c then trim_space_stop s stop'
          else slice_to stop s
      | None => EmptyString
      end
  end.

(** The first loop of [TrimSpace], then the second. *)
Fixpoint trim_space_start (s : string) : string :=
  match s with
  | EmptyString => EmptyString
  | String c s' =>
      if (utf8.RuneSelf <=? utf8.byte c)%Z then TrimFunc s unicode.IsSpace
      else if is_space c then trim_space_start s'
      else trim_space_stop s (len s)
  end.

(** [func TrimSpace(s string) string]: the ASCII fast path at both ends,
    and the functions above from the first byte that is not ASCII. *)
Definition TrimSpace (s : string) : string := trim_space_start s.

End strings.


(** ** Package [path/filepath] (Unix: the separator is [/], no volume names) *)

Module filepath.

Definition IsPathSeparator (c : ascii) : bool := Ascii.eqb c "/".

(** The elements of a path: the byte runs between separators, empty ones
    included (["/a//b"] has the elements [""], ["a"], [""], ["b"]). *)
Fixpoint elements (path : string) : list string :=
  match path with
  | EmptyString => [EmptyString]
  | String c rest =>
      if IsPathSeparator c then EmptyString :: elements rest
      else match elements rest with
           | e :: es => String c e :: es
           | [] => [String c EmptyString]
           end
  end.

(** [rooted := os.IsPathSeparator(path[0])]. *)
Definition is_rooted (path : string) : bool :=
  match path with
  | String c _ => IsPathSeparator c
  | EmptyString => false
  end.

(** The state of [Clean]'s loop.  Go keeps a byte buffer [out] with write
    index [out.w] and an index [dotdot] below which [..] may not remove
    anything (the leading slash, or a leading [../..] prefix).  Here [out]
    is the list of the elements written so far, the last one first, and
    [dotdot] counts the elements that are protected, so that Go's test
    [out.w > dotdot] is [dotdot < length out]. *)
Record lazybuf : Type := mkbuf { out : list string; dotdot : nat }.

(** One turn of the loop of [Clean], on the next element of the path. *)
Definition clean_step (rooted : bool) (b : lazybuf) (e : string) : lazybuf :=
  if e =? EmptyString then b                     (* empty path element *)
  else if e =? "." then b                         (* . element *)
  else if e =? ".." then                          (* .. element *)
    if (dotdot b <? List.length (out b))%nat
    then mkbuf (tl (out b)) (dotdot b)            (* can backtrack *)
    else if rooted then b
    else mkbuf (".." :: out b) (List.length (".." :: out b))
  else mkbuf (e :: out b) (dotdot b).             (* real path element *)

Definition clean_loop (rooted : bool) (es : list string) (b : lazybuf) : lazybuf :=
  fold_left (clean_step rooted) es b.

(** The buffer as a string: the leading slash of a rooted path, the
    elements joined by slashes, and ["."] for an empty result. *)
Definition render (rooted : bool) (b : lazybuf) : string :=
  if rooted then "/" ++ strings.Join (rev (out b)) "/"
  else match out b with
       | [] => "."
       | _ => strings.Join (rev (out b)) "/"
       end.

(** [func Clean(path string) string]. *)
Definition Clean (path : string) : string :=
  if path =? EmptyString then "."
  else render (is_rooted path)
         (clean_loop (is_rooted path) (elements path) (mkbuf [] 0)).

(** [func Join(elem ...string) string]: the elements from the first
    non-empty one on, joined by slashes and cleaned; [""] when all are
    empty. *)
Fixpoint Join (elem : list string) : string :=
  match elem with
  | [] => EmptyString
  | e :: rest =>
      if e =? EmptyString then Join rest
      else Clean (strings.Join elem "/")
  end.

(** [func Dir(path string) string]: [Clean] of the path up to and including
    its last separator. *)
Definition Dir (path : string) : string :=
  match strings.LastIndex path "/" with
  | Some i => Clean (slice_to (i + 1) path)
  | None => Clean EmptyString
  end.

(** The loop of [Base] that strips trailing slashes. *)
Fixpoint strip_trailing_slashes (path : string) : string :=
  match path with
  | EmptyString => EmptyString
  | String c rest =>
      match strip_trailing_slashes rest with
      | EmptyString => if IsPathSeparator c then EmptyString else String c EmptyString
      | t => String c t
      end
  end.

(** [func Base(path string) string]: the last element of the path. *)
Definition Base (path : string) : string :=
  if path =? EmptyString then "."
  else
    let path1 := strip_trailing_slashes path in
    let path2 := match strings.LastIndex path1 "/" with
                 | Some i => slice_from (i + 1) path1
                 | None => path1
                 end in
    if path2 =? EmptyString then "/" else path2.

End filepath.

(** ** Go values shared by the packages below *)

(** A Go [error] value, by its message; [None] is [nil]. *)
Definition error : Type := option string.

(** A value or an error, for functions that return [(T, error)] and whose
    callers read the value only when the error is [nil]. *)
Inductive result (A : Type) : Type :=
| Ok (a : A)
| Failed (msg : string).
Arguments Ok {A} a.
Arguments Failed {A} msg.

(** ** Package [strconv]: quoting, as [%q] formats a string *)

Module strconv.

Definition backslash : string := String (ascii_of_nat 92) EmptyString.

(** The hexadecimal digit of [n < 16], in lower or in upper case. *)
Definition hex_digit (digits : string) (n : Z) : string :=
  match String.get (Z.to_nat n) digits with
  | Some c => String c EmptyString
  | None => EmptyString
  end.

Definition lowerhex (n : Z) : string := hex_digit "0123456789abcdef" n.
Definition upperhex (n : Z) : string := hex_digit "0123456789ABCDEF" n.

(** The [k] lowest hexadecimal digits of [r], the highest first. *)
Fixpoint hex (k : nat) (r : Z) : string :=
  match k with
  | O => EmptyString
  | S k' => hex k' (Z.shiftr r 4) ++ lowerhex (Z.land r 15)
  end.

(** [func IsPrint(r rune) bool].  The Latin-1 range is the code's; above
    it the tables of the package are not reproduced, and a rune is taken
    to be printable. *)
Definition IsPrint (r : Z) : bool :=
  (if r <=? 255
   then ((32 <=? r) && (r <? 127)) || ((161 <=? r) && negb (r =? 173))
   else true)%Z.

(** [appendEscapedRune] for the double quote, neither ASCII-only nor
    graphic-only. *)
Definition appendEscapedRune (r : Z) : string :=
  (if (r =? 34) || (r =? 92)
   then backslash ++ String (ascii_of_N (Z.to_N r)) EmptyString
   else if IsPrint r then utf8.AppendRune r
   else if r =? 7 then backslash ++ "a"
   else if r =? 8 then backslash ++ "b"
   else if r =? 12 then backslash ++ "f"
   else if r =? 10 then backslash ++ "n"
   else if r =? 13 then backslash ++ "r"
   else if r =? 9 then backslash ++ "t"
   else if r =? 11 then backslash ++ "v"
   else if (r <? 32) || (r =? 127) then backslash ++ "x" ++ hex 2 r
   else if negb (utf8.ValidRune r) then backslash ++ "u" ++ hex 4 utf8.RuneError
   else if r <? 65536 then backslash ++ "u" ++ hex 4 r
   else backslash ++ "U" ++ hex 8 r)%Z.

(** The loop of [appendQuotedWith]: an invalid byte is written as [\x]
    and two digits, anything else as [appendEscapedRune] writes it. *)
Fixpoint quote_loop (fuel : nat) (s : string) : string :=
  match fuel, s with
  | S fuel', String c _ =>
      let '(r, width) :=
        if (utf8.byte c <? utf8.RuneSelf)%Z then (utf8.byte c, 1)
        else utf8.DecodeRuneInString s in
      (if (width =? 1)%nat && (r =? utf8.RuneError)%Z
       then backslash ++ "x" ++ hex 2 (utf8.byte c)
       else appendEscapedRune r)
      ++ quote_loop fuel' (slice_from width s)
  | _, _ => EmptyString
  end.

(** [func Quote(s string) string]. *)
Definition Quote (s : string) : string :=
  dquote ++ quote_loop (len s) s ++ dquote.

End strconv.

(** ** Package [net/netip]: whether a text is an IP address *)

Module netip.

Definition is_digit (c : ascii) : bool :=
  ((48 <=? nat_of_ascii c) && (nat_of_ascii c <=? 57))%nat.

(** The value of a hexadecimal digit, if [c] is one. *)
Definition hex_value (c : ascii) : option nat :=
  let n := nat_of_ascii c in
  if ((48 <=? n) && (n <=? 57))%nat then Some (n - 48)
  else if ((97 <=? n) && (n <=? 102))%nat then Some (n - 97 + 10)
  else if ((65 <=? n) && (n <=? 70))%nat then Some (n - 65 + 10)
  else None.

(** The method [Error()] of [parseAddrError]. *)
Definition parseAddrError (input msg at_ : string) : string :=
  "ParseAddr(" ++ strconv.Quote input ++ "): " ++ msg
  ++ (if at_ =? EmptyString then EmptyString
      else " (at " ++ strconv.Quote at_ ++ ")").

(** The loop of [parseIPv4Fields] over [s = in[off:end]], at [rest];
    [i0] says that [rest] is all of [s], [prev] is the byte before.  The
    result is the error, if any; the octets are not kept. *)
Fixpoint ipv4_loop (input rest : string) (i0 : bool) (prev : ascii)
  (val pos digLen : nat) : option string :=
  match rest with
  | EmptyString =>
      if (pos <? 3)%nat
      then Some (parseAddrError input "IPv4 address too short" EmptyString)
      else None
  | String c rest' =>
      if is_digit c then
        if (digLen =? 1)%nat && (val =? 0)%nat
        then Some (parseAddrError input "IPv4 field has octet with leading zero"
                                  EmptyString)
        else
          let val' := val * 10 + (nat_of_ascii c - 48) in
          if (255 <? val')%nat
          then Some (parseAddrError input "IPv4 field has value >255" EmptyString)
          else ipv4_loop input rest' false c val' pos (S digLen)
      else if Ascii.eqb c "." then
        if i0 || (rest' =? EmptyString) || Ascii.eqb prev "."
        then Some (parseAddrError input "IPv4 field must have at least one digit"
                                  rest)
        else if (pos =? 3)%nat
        then Some (parseAddrError input "IPv4 address too long" EmptyString)
        else ipv4_loop input rest' false c 0 (S pos) 0
      else Some (parseAddrError input "unexpected character" rest)
  end.

Definition parseIPv4Fields (input s : string) : option string :=
  ipv4_loop input s true "0" 0 0 0.

(** The inner loop of [parseIPv6] over one group of hexadecimal digits:
    the number of digits read and the text after them. *)
Fixpoint hex_group (input s rest : string) (off : nat) (acc : Z)
  : result (nat * string) :=
  match rest with
  | EmptyString => Ok (off, rest)
  | String c rest' =>
      match hex_value c with
      | None => Ok (off, rest)
      | Some d =>
          if (3 <? off)%nat
          then Failed (parseAddrError input "each group must have 4 or less digits" s)
          else if (65535 <? acc * 16 + Z.of_nat d)%Z
          then Failed (parseAddrError input "IPv6 field has value >=2^16" s)
          else hex_group input s rest' (S off) (acc * 16 + Z.of_nat d)%Z
      end
  end.

(** The outer loop of [parseIPv6], while [i < 16]: the text left over,
    the number of bytes filled, and whether an ellipsis was seen. *)
Fixpoint ipv6_loop (fuel : nat) (input s : string) (i : nat) (ellipsis : bool)
  : result (string * nat * bool) :=
  match fuel with
  | O => Ok (s, i, ellipsis)
  | S fuel' =>
      if negb (i <? 16)%nat then Ok (s, i, ellipsis)
      else
        match hex_group input s s 0 0%Z with
        | Failed m => Failed m
        | Ok (off, rest) =>
            if (off =? 0)%nat
            then Failed (parseAddrError input
                   "each colon-separated field must have at least one digit" s)
            else
              match rest with
              | EmptyString => Ok (EmptyString, i + 2, ellipsis)
              | String c rest' =>
                  if Ascii.eqb c "." then
                    if negb ellipsis && negb (i =? 12)%nat
                    then Failed (parseAddrError input
                           "embedded IPv4 address must replace the final 2 fields of the address" s)
                    else if (16 <? i + 4)%nat
                    then Failed (parseAddrError input
                           "too many hex fields to fit an embedded IPv4 at the end of the address" s)
                    else match parseIPv4Fields input s with
                         | Some m => Failed m
                         | None => Ok (EmptyString, i + 4, ellipsis)
                         end
                  else if negb (Ascii.eqb c ":")
                  then Failed (parseAddrError input
                         "unexpected character, want colon" rest)
                  else
                    match rest' with
                    | EmptyString =>
                        Failed (parseAddrError input
                          "colon must be followed by more characters" rest)
                    | String c' rest'' =>
                        if Ascii.eqb c' ":" then
                          if ellipsis
                          then Failed (parseAddrError input
                                 "multiple :: in address" rest')
                          else if rest'' =? EmptyString
                          then Ok (EmptyString, i + 2, true)
                          else ipv6_loop fuel' input rest'' (i + 2) true
                        else ipv6_loop fuel' input rest' (i + 2) ellipsis
                    end
              end
        end
  end.

(** [parseIPv6], as the error if any: the zone after [%] must not be
    empty; the groups must fill sixteen bytes, with the ellipsis standing
    for at least one group. *)
Definition parseIPv6 (input : string) : option string :=
  let '(s, zone, found) := strings.Cut input "%" in
  if found && (zone =? EmptyString)
  then Some (parseAddrError input "zone must be a non-empty string" EmptyString)
  else
    let lead := strings.HasPrefix s "::" in
    let s := if lead then slice_from 2 s else s in
    if lead && (s =? EmptyString) then None
    else
      match ipv6_loop 9 input s 0 lead with
      | Failed m => Some m
      | Ok (s', i, ellipsis) =>
          if negb (s' =? EmptyString)
          then Some (parseAddrError input "trailing garbage after address" s')
          else if (i <? 16)%nat
          then (if ellipsis then None
                else Some (parseAddrError input "address string too short"
                                          EmptyString))
          else if ellipsis
          then Some (parseAddrError input
                 "the :: must expand to at least one field of zeros" EmptyString)
          else None
      end.

(** The loop of [ParseAddr]: the first of [.], [:] and [%] decides. *)
Fixpoint parse_loop (input rest : string) : result bool :=
  match rest with
  | EmptyString => Failed (parseAddrError input "unable to parse IP" EmptyString)
  | String c rest' =>
      if Ascii.eqb c "." then
        match parseIPv4Fields input input with
        | Some m => Failed m
        | None => Ok true
        end
      else if Ascii.eqb c ":" then
        match parseIPv6 input with
        | Some m => Failed m
        | None => Ok false
        end
      else if Ascii.eqb c "%"
      then Failed (parseAddrError input "missing IPv6 address" EmptyString)
      else parse_loop input rest'
  end.

(** [func ParseAddr(s string) (Addr, error)]; of the address, only what
    [Is4] answers is kept. *)
Definition ParseAddr (s : string) : result bool := parse_loop s s.

End netip.

(** ** Package [net/url]

    [Parse] follows the structure of Go's parser: fragment, scheme, query,
    opaque form, authority (user information and host), percent-decoded
    path and fragment with their raw forms.  An error is the message its
    method [Error()] gives.  The host follows the parser of Go 1.26: a port
    after the first colon, and between square brackets an IPv6 address.
    The debugging setting that brings back the older treatment of colons
    is not modelled. *)

Module url.

Record Userinfo : Type := mkUserinfo {
  username : string;
  password : string;
  passwordSet : bool
}.

Record URL : Type := mkURL {
  Scheme : string;
  Opaque : string;
  User : option Userinfo;
  Host : string;
  Path : string;
  RawPath : string;
  OmitHost : bool;
  ForceQuery : bool;
  RawQuery : string;
  Fragment : string;
  RawFragment : string
}.

Definition empty_URL : URL :=
  mkURL EmptyString EmptyString None EmptyString EmptyString EmptyString false false
        EmptyString EmptyString EmptyString.

(** [func User(username string)], a [Userinfo] with no password. *)
Definition UserOf (name : string) : Userinfo := mkUserinfo name EmptyString false.

Definition set_User (u : URL) (ui : Userinfo) : URL :=
  mkURL (Scheme u) (Opaque u) (Some ui) (Host u) (Path u) (RawPath u) (OmitHost u)
        (ForceQuery u) (RawQuery u) (Fragment u) (RawFragment u).

Definition byte_in (lo hi : nat) (c : ascii) : bool :=
  ((lo <=? nat_of_ascii c) && (nat_of_ascii c <=? hi))%nat.

Definition is_alpha (c : ascii) : bool := byte_in 97 122 c || byte_in 65 90 c.
Definition is_digit (c : ascii) : bool := byte_in 48 57 c.
Definition is_one_of (set : string) (c : ascii) : bool :=
  existsb (Ascii.eqb c) (list_ascii_of_string set).

(** The method [Error()] of [*url.Error] for the operation [parse]. *)
Definition parse_error (rawURL cause : string) : string :=
  "parse " ++ strconv.Quote rawURL ++ ": " ++ cause.

(** The messages of [EscapeError] and [InvalidHostError]. *)
Definition EscapeError (s : string) : string :=
  "invalid URL escape " ++ strconv.Quote s.

Definition InvalidHostError (s : string) : string :=
  "invalid character " ++ strconv.Quote s ++ " in host name".

(** [stringContainsCTLByte]: a byte below [0x20] or [0x7f]. *)
Fixpoint stringContainsCTLByte (s : string) : bool :=
  match s with
  | EmptyString => false
  | String c s' =>
      (nat_of_ascii c <? 32)%nat || (nat_of_ascii c =? 127)%nat
      || stringContainsCTLByte s'
  end.

(** The loop of [getScheme], at byte [i] of [rawURL]; [rest] is
    [rawURL[i:]]. *)
Fixpoint scheme_loop (rawURL : string) (i : nat) (rest : string)
  : result (string * string) :=
  match rest with
  | EmptyString => Ok (EmptyString, rawURL)
  | String c rest' =>
      if is_alpha c then scheme_loop rawURL (S i) rest'
      else if is_digit c || is_one_of "+-." c then
        (if (i =? 0)%nat then Ok (EmptyString, rawURL)
         else scheme_loop rawURL (S i) rest')
      else if Ascii.eqb c ":" then
        (if (i =? 0)%nat then Failed "missing protocol scheme"
         else Ok (slice_to i rawURL, slice_from (i + 1) rawURL))
      else Ok (EmptyString, rawURL)
  end.

Definition getScheme (rawURL : string) : result (string * string) :=
  scheme_loop rawURL 0 rawURL.

Definition ishex (c : ascii) : bool :=
  is_digit c || byte_in 97 102 c || byte_in 65 70 c.

Definition unhex (c : ascii) : nat :=
  let n := nat_of_ascii c in
  if is_digit c then n - 48
  else if byte_in 97 102 c then n - 97 + 10
  else if byte_in 65 70 c then n - 65 + 10
  else 0.

Inductive encoding : Type :=
| encodePath
| encodeHost
| encodeZone
| encodeUserPassword
| encodeFragment.

(** [func shouldEscape(c byte, mode encoding) bool], for the modes above:
    letters and digits stand; in a host, so do the sub-delimiters, the
    colon, the brackets, the angle brackets and the double quote; then
    the marks; a reserved byte by the mode; in a fragment [!()*]. *)
Definition shouldEscape (c : ascii) (mode : encoding) : bool :=
  if is_alpha c || is_digit c then false
  else if match mode with
          | encodeHost | encodeZone =>
              is_one_of "!$&'()*+,;=:[]<>" c || Ascii.eqb c (ascii_of_nat 34)
          | _ => false
          end
  then false
  else if is_one_of "-_.~" c then false
  else if is_one_of "$&+,/:;=?@" c then
    match mode with
    | encodePath => Ascii.eqb c "?"
    | encodeUserPassword => is_one_of "@/?:" c
    | encodeFragment => false
    | encodeHost | encodeZone => true
    end
  else if match mode with encodeFragment => is_one_of "!()*" c | _ => false end
  then false
  else true.

(** [func escape(s string, mode encoding) string], for the modes above:
    each byte to escape becomes [%] and two upper-case digits. *)
Fixpoint escape (s : string) (mode : encoding) : string :=
  match s with
  | EmptyString => EmptyString
  | String c s' =>
      (if shouldEscape c mode
       then "%" ++ strconv.upperhex (Z.shiftr (utf8.byte c) 4)
                ++ strconv.upperhex (Z.land (utf8.byte c) 15)
       else String c EmptyString)
      ++ escape s' mode
  end.

(** [unescape]: percent-decoding.  A [%] needs two hexadecimal digits; in
    a host it may only encode a non-ASCII byte or [%25], in a zone only a
    byte that a host may hold, a space or [%25]; a host or a zone holds no
    ASCII byte that would have to be escaped.  The first offence, from the
    left, is the error. *)
Fixpoint unescape (s : string) (mode : encoding) : result string :=
  match s with
  | EmptyString => Ok EmptyString
  | String c s' =>
      if Ascii.eqb c "%" then
        match s' with
        | String h1 (String h2 s'') =>
            let v := ascii_of_nat (16 * unhex h1 + unhex h2) in
            if negb (ishex h1 && ishex h2) then Failed (EscapeError (slice_to 3 s))
            else if match mode with
                    | encodeHost =>
                        (unhex h1 <? 8)%nat && negb (slice_to 3 s =? "%25")
                    | encodeZone =>
                        negb (slice_to 3 s =? "%25") && negb (Ascii.eqb v " ")
                        && shouldEscape v encodeHost
                    | _ => false
                    end
            then Failed (EscapeError (slice_to 3 s))
            else match unescape s'' mode with
                 | Ok t => Ok (String v t)
                 | Failed m => Failed m
                 end
        | _ => Failed (EscapeError (slice_to 3 s))
        end
      else if match mode with
              | encodeHost | encodeZone =>
                  (nat_of_ascii c <? 128)%nat && shouldEscape c encodeHost
              | _ => false
              end
      then Failed (InvalidHostError (String c EmptyString))
      else match unescape s' mode with
           | Ok t => Ok (String c t)
           | Failed m => Failed m
           end
  end.

(** [validOptionalPort]: empty, or a colon followed by digits only. *)
Definition validOptionalPort (port : string) : bool :=
  match port with
  | EmptyString => true
  | String c digits =>
      Ascii.eqb c ":" && forallb is_digit (list_ascii_of_string digits)
  end.

(** [validUserinfo]. *)
Definition validUserinfo (s : string) : bool :=
  forallb (fun c => is_alpha c || is_digit c || is_one_of "-._:~!$&'()*+,;=%@" c)
          (list_ascii_of_string s).

Definition invalid_port (colonPort : string) : string :=
  "invalid port " ++ strconv.Quote colonPort ++ " after host".

(** [parseHost]: [host[:port]].  With a square bracket, the host is an IP
    literal: the port comes after the last closing bracket, the text
    between the brackets is decoded, up to [%25] as a host and from there
    as a zone, and must be an IPv6 address.  Without one, the port comes
    after the first colon. *)
Definition parseHost (host : string) : result string :=
  match strings.LastIndex host "[" with
  | Some openBracketIdx =>
      match strings.LastIndex host "]" with
      | None => Failed "missing ']' in host"
      | Some closeBracketIdx =>
          let colonPort := slice_from (closeBracketIdx + 1) host in
          if negb (validOptionalPort colonPort)
          then Failed (invalid_port colonPort)
          else
            match unescape colonPort encodeHost with
            | Failed m => Failed m
            | Ok unescapedColonPort =>
                let hostname :=
                  slice_to (closeBracketIdx - (openBracketIdx + 1))
                           (slice_from (openBracketIdx + 1) host) in
                match
                  match strings.Index hostname "%25" with
                  | Some zoneIdx =>
                      match unescape (slice_to zoneIdx hostname) encodeHost with
                      | Failed m => Failed m
                      | Ok hostPart =>
                          match unescape (slice_from zoneIdx hostname) encodeZone with
                          | Failed m => Failed m
                          | Ok zonePart => Ok (hostPart ++ zonePart)
                          end
                      end
                  | None => unescape hostname encodeHost
                  end
                with
                | Failed m => Failed m
                | Ok unescapedHostname =>
                    match netip.ParseAddr unescapedHostname with
                    | Failed m => Failed ("invalid host: " ++ m)
                    | Ok is4 =>
                        if is4 then Failed "invalid IP-literal"
                        else Ok ("[" ++ unescapedHostname ++ "]"
                                 ++ unescapedColonPort)
                    end
                end
            end
      end
  | None =>
      match strings.Index host ":" with
      | Some i =>
          if validOptionalPort (slice_from i host)
          then unescape host encodeHost
          else Failed (invalid_port (slice_from i host))
      | None => unescape host encodeHost
      end
  end.

(** [parseAuthority]: the user information before the last [@], the host
    after it. *)
Definition parseAuthority (authority : string) : result (option Userinfo * string) :=
  let i := strings.LastIndex authority "@" in
  match parseHost (match i with
                   | None => authority
                   | Some k => slice_from (k + 1) authority
                   end) with
  | Failed m => Failed m
  | Ok host =>
      match i with
      | None => Ok (None, host)
      | Some k =>
          let userinfo := slice_to k authority in
          if negb (validUserinfo userinfo) then Failed "net/url: invalid userinfo"
          else if negb (strings.Contains userinfo ":") then
            match unescape userinfo encodeUserPassword with
            | Failed m => Failed m
            | Ok name => Ok (Some (UserOf name), host)
            end
          else
            let '(name, pass, _) := strings.Cut userinfo ":" in
            match unescape name encodeUserPassword with
            | Failed m => Failed m
            | Ok name' =>
                match unescape pass encodeUserPassword with
                | Failed m => Failed m
                | Ok pass' => Ok (Some (mkUserinfo name' pass' true), host)
                end
            end
      end
  end.

(** [setPath] and [setFragment]: the decoded text, and the raw text when
    the default escaping of the decoded text is not the text given. *)
Definition setPath (p : string) : result (string * string) :=
  match unescape p encodePath with
  | Failed m => Failed m
  | Ok path => Ok (path, if escape path encodePath =? p then EmptyString else p)
  end.

Definition setFragment (f : string) : result (string * string) :=
  match unescape f encodeFragment with
  | Failed m => Failed m
  | Ok frag => Ok (frag, if escape frag encodeFragment =? f then EmptyString else f)
  end.

(** [parse(rawURL, viaRequest = false)]. *)
Definition parse (rawURL : string) : result URL :=
  if stringContainsCTLByte rawURL
  then Failed "net/url: invalid control character in URL"
  else if rawURL =? "*"
  then Ok (mkURL EmptyString EmptyString None EmptyString "*" EmptyString false false
                 EmptyString EmptyString EmptyString)
  else
    match getScheme rawURL with
    | Failed m => Failed m
    | Ok (scheme0, rest0) =>
        let scheme := strings.ToLower scheme0 in
        let force :=
          strings.HasSuffix rest0 "?" && (strings.Count rest0 "?" =? 1)%nat in
        let '(rest1, query) :=
          if force then (slice_to (len rest0 - 1) rest0, EmptyString)
          else let '(b, a, _) := strings.Cut rest0 "?" in (b, a) in
        if negb (strings.HasPrefix rest1 "/") && negb (scheme =? EmptyString)
        then Ok (mkURL scheme rest1 None EmptyString EmptyString EmptyString false force
                       query EmptyString EmptyString)
        else if negb (strings.HasPrefix rest1 "/")
                && strings.Contains (fst (fst (strings.Cut rest1 "/"))) ":"
        then Failed "first path segment in URL cannot contain colon"
        else if (negb (scheme =? EmptyString)
                 || negb (strings.HasPrefix rest1 "///"))
                && strings.HasPrefix rest1 "//"
        then
          let authority0 := slice_from 2 rest1 in
          let '(authority, rest2) :=
            match strings.Index authority0 "/" with
            | Some i => (slice_to i authority0, slice_from i authority0)
            | None => (authority0, EmptyString)
            end in
          match parseAuthority authority with
          | Failed m => Failed m
          | Ok (user, host) =>
              match setPath rest2 with
              | Failed m => Failed m
              | Ok (path, rawPath) =>
                  Ok (mkURL scheme EmptyString user host path rawPath false force
                            query EmptyString EmptyString)
              end
          end
        else
          match setPath rest1 with
          | Failed m => Failed m
          | Ok (path, rawPath) =>
              Ok (mkURL scheme EmptyString None EmptyString path rawPath
                        (negb (scheme =? EmptyString)
                         && strings.HasPrefix rest1 "/")
                        force query EmptyString EmptyString)
          end
    end.

(** [func Parse(rawURL string)], returning the URL or an error: the
    fragment is cut off at the first [#], the rest parsed, the decoded
    fragment set.  An error names the text that did not parse. *)
Definition Parse (rawURL : string) : result URL :=
  let '(u, frag, _) := strings.Cut rawURL "#" in
  match parse u with
  | Failed m => Failed (parse_error u m)
  | Ok parsed =>
      if frag =? EmptyString then Ok parsed
      else match setFragment frag with
           | Failed m => Failed (parse_error rawURL m)
           | Ok (f, rawFragment) =>
               Ok (mkURL (Scheme parsed) (Opaque parsed) (User parsed)
                         (Host parsed) (Path parsed) (RawPath parsed)
                         (OmitHost parsed) (ForceQuery parsed) (RawQuery parsed)
                         f rawFragment)
           end
  end.

(** [splitHostPort]: a valid port after the last colon is cut off, and the
    square brackets of an IPv6 literal are removed. *)
Definition splitHostPort (hostPort : string) : string * string :=
  let '(host, port) :=
    match strings.LastIndex hostPort ":" with
    | Some colon =>
        if validOptionalPort (slice_from colon hostPort)
        then (slice_to colon hostPort, slice_from (colon + 1) hostPort)
        else (hostPort, EmptyString)
    | None => (hostPort, EmptyString)
    end in
  if strings.HasPrefix host "[" && strings.HasSuffix host "]"
  then (slice_to (len host - 2) (slice_from 1 host), port)
  else (host, port).

(** The method [Hostname()] of a URL. *)
Definition Hostname (u : URL) : string := fst (splitHostPort (Host u)).

End url.

(** ** Package [os/exec]: commands as values *)

Module exec.

(** What a standard stream of a child process is connected to: the stream
    of the parent ([os.Stdin], [os.Stdout], [os.Stderr]), nothing ([nil]),
    a reader over a string, or a buffer that captures the output. *)
Inductive stdio : Type :=
| Inherit
| Unset
| Reader (text : string)
| Buffer.

Record Cmd : Type := mkCmd {
  Path : string;
  Args : list string;
  Dir : string;
  Stdin : stdio;
  Stdout : stdio;
  Stderr : stdio;
  Err : error
}.

Definition set_Dir (c : Cmd) (d : string) : Cmd :=
  mkCmd (Path c) (Args c) d (Stdin c) (Stdout c) (Stderr c) (Err c).

Definition set_stdio (c : Cmd) (i o e : stdio) : Cmd :=
  mkCmd (Path c) (Args c) (Dir c) i o e (Err c).

(** [func Command(name string, arg ...string) *Cmd], given the outcome of
    [LookPath]: a name without a separator is resolved along the search
    path, and a failed lookup is kept in the command's [Err]. *)
Definition Command (LookPath : string -> result string)
  (name : string) (arg : list string) : Cmd :=
  let cmd := mkCmd name (name :: arg) EmptyString Unset Unset Unset None in
  if filepath.Base name =? name then
    match LookPath name with
    | Ok lp =>
        if lp =? EmptyString then cmd
        else mkCmd lp (name :: arg) EmptyString Unset Unset Unset None
    | Failed e =>
        mkCmd name (name :: arg) EmptyString Unset Unset Unset (Some e)
    end
  else cmd.

(** The method [String()]: the resolved path followed by the arguments,
    or the arguments as given when the lookup failed. *)
Definition String (c : Cmd) : string :=
  match Err c with
  | Some _ => strings.Join (Args c) " "
  | None => fold_left (fun b a => b ++ " " ++ a) (tl (Args c)) (Path c)
  end.

End exec.

(** ** Package [os/user] *)

Module user.

Record User : Type := mkUser {
  Uid : string;
  Gid : string;
  Username : string;
  Name : string;
  HomeDir : string
}.

End user.

(** ** The environment of one invocation and the trace it leaves

    Everything outside the process is an oracle of the environment: the
    search path, the child processes, the file system, the user database.
    An oracle sees the events so far, so its answer may depend on anything
    that happened before.  Each interaction is recorded, with the answer it
    got, in the trace.

    Every oracle answers: a child process is taken to exit, and [child]
    gives what it wrote to a capturing buffer and the error that waiting
    for it returned.  A run in which a child never exits, and the workflow
    waits for ever, has no trace here; what is proved of a run is proved
    of the runs whose children exit. *)

Inductive event : Type :=
| EvStdout (text : string)
    (* text written to standard output by [fmt.Printf] or [fmt.Println] *)
| EvRun (c : exec.Cmd) (captured : string) (err : error)
    (* [c.Run()] or [c.Output()]: the command, what it wrote to a capturing
       buffer, and the error returned *)
| EvMkdirAll (path : string) (perm : nat) (err : error)
| EvUserCurrent (r : result user.User)
| EvGetwd (dir : string) (err : error).

Record Env : Type := mkEnv {
  LookPath : string -> result string;
  child : list event -> exec.Cmd -> string * error;
  MkdirAll : list event -> string -> nat -> error;
  Current : list event -> result user.User;
  Getwd : list event -> string * error
}.

(** How a run ends: the workflow function returns; [log.Fatal] prints its
    message on standard error and exits with status 1; or a run-time panic
    stops the program. *)
Inductive outcome (A : Type) : Type :=
| Done (a : A)
| Exit (status : nat) (msg : string)
| Panic (msg : string).
Arguments Done {A} a.
Arguments Exit {A} status msg.
Arguments Panic {A} msg.

(** The monad of the workflows: read the environment, extend the trace,
    and stop early on a fatal exit or a panic. *)
Definition M (A : Type) : Type := Env -> list event -> outcome A * list event.

Definition ret {A : Type} (a : A) : M A := fun _ tr => (Done a, tr).

Definition bind {A B : Type} (m : M A) (k : A -> M B) : M B :=
  fun env tr =>
    match m env tr with
    | (Done a, tr') => k a env tr'
    | (Exit st msg, tr') => (Exit st msg, tr')
    | (Panic msg, tr') => (Panic msg, tr')
    end.

Declare Scope go_scope.
Delimit Scope go_scope with go.
Notation "x <- m ;; k" := (bind m (fun x => k))
  (at level 61, m at next level, right associativity) : go_scope.
Notation "m ;; k" := (bind m (fun _ => k))
  (at level 61, right associativity) : go_scope.
Open Scope go_scope.

(** A whole run, from the empty trace. *)
Definition run {A : Type} (m : M A) (env : Env) : outcome A * list event :=
  m env [].

Definition emit (e : event) : M unit := fun _ tr => (Done tt, (tr ++ [e])%list).

(** [fmt.Printf] with the format already expanded, and [fmt.Println]. *)
Definition Printf (text : string) : M unit := emit (EvStdout text).
Definition Println (text : string) : M unit := emit (EvStdout (text ++ newline)).

(** [log.Fatal] and [log.Fatalf]: the message, then [os.Exit(1)]. *)
Definition log_Fatal {A : Type} (msg : string) : M A :=
  fun _ tr => (Exit 1 msg, tr).

(** The message of the run-time panic for [xs[i]] with [len(xs) = n <= i]. *)
Definition index_out_of_range (i n : nat) : string :=
  "runtime error: index out of range ["
  ++ DecimalString.NilZero.string_of_uint (Nat.to_uint i) ++ "] with length "
  ++ DecimalString.NilZero.string_of_uint (Nat.to_uint n).

(** [xs[i]]: indexing a slice panics when the index is out of range. *)
Definition at_index (xs : list string) (i : nat) : M string :=
  fun _ tr =>
    match nth_error xs i with
    | Some x => (Done x, tr)
    | None => (Panic (index_out_of_range i (List.length xs)), tr)
    end.

(** [exec.Command] in the environment's search path. *)
Definition exec_Command (name : string) (arg : list string) : M exec.Cmd :=
  fun env tr => (Done (exec.Command (LookPath env) name arg), tr).

(** Starting a command and waiting for it, as [c.Run()] does: a command
    whose lookup failed returns that error without starting a process;
    otherwise the child runs to its end.  The attempt is recorded in both
    cases. *)
Definition answer (env : Env) (tr : list event) (c : exec.Cmd) : string * error :=
  match exec.Err c with
  | Some e => (EmptyString, Some e)
  | None => child env tr c
  end.

Definition start (c : exec.Cmd) : M (string * error) :=
  fun env tr =>
    let '(captured, err) := answer env tr c in
    (Done (captured, err), (tr ++ [EvRun c captured err])%list).

(** [func (c *Cmd) Run() error]. *)
Definition cmd_Run (c : exec.Cmd) : M error :=
  r <- start c ;; ret (snd r).

(** [func (c *Cmd) Output() ([]byte, error)]: an error when [Stdout] is
    already set; otherwise standard output goes to a buffer, standard
    error too when it is not set, and the command is run. *)
Definition cmd_Output (c : exec.Cmd) : M (string * error) :=
  match exec.Stdout c with
  | exec.Unset =>
      let stderr := match exec.Stderr c with
                    | exec.Unset => exec.Buffer
                    | e => e
                    end in
      start (exec.set_stdio c (exec.Stdin c) exec.Buffer stderr)
  | _ => ret (EmptyString, Some "exec: Stdout already set")
  end.

Definition os_MkdirAll (path : string) (perm : nat) : M error :=
  fun env tr =>
    let err := MkdirAll env tr path perm in
    (Done err, (tr ++ [EvMkdirAll path perm err])%list).

Definition user_Current : M (result user.User) :=
  fun env tr =>
    let r := Current env tr in (Done r, (tr ++ [EvUserCurrent r])%list).

Definition os_Getwd : M (string * error) :=
  fun env tr =>
    let r := Getwd env tr in (Done r, (tr ++ [EvGetwd (fst r) (snd r)])%list).

(** The permission bits [0755]. *)
Definition perm_0755 : nat := 7 * 64 + 5 * 8 + 5.

(** ** Command-line flags ([pflag], through [cobra])

    A flag is defined with a name, a shorthand and a default; an invocation
    gives some flags a value.  [GetString] is the value given, or else the
    default; the error for an undefined flag is dropped by every caller. *)

Record Flag : Type := mkFlag {
  flag_name : string;
  flag_shorthand : string;
  flag_default : string
}.

Definition Values : Type := string -> option string.

Definition GetString (defined : list Flag) (given : Values) (name : string) : string :=
  match find (fun f => flag_name f =? name) defined with
  | None => EmptyString
  | Some f =>
      match given name with
      | Some v => v
      | None => flag_default f
      end
  end.

(** The flags that [main] attaches to [initCmd] and to [transferCmd]. *)
Definition initFlags : list Flag :=
  [ mkFlag "password" "p" EmptyString; mkFlag "user" "u" EmptyString ].

Definition transferFlags : list Flag :=
  [ mkFlag "destination" "d" EmptyString; mkFlag "remote-user" "r" "www-data" ].

Definition no_flags : Values := fun _ => None.

Definition with_flag (name value : string) (given : Values) : Values :=
  fun n => if n =? name then Some value else given n.

(** ** The process runner of [main.go] *)

(** [func executeCommand(workingDir string, commandName string, args ...string) error]:
    runs the command attached to the terminal, in [workingDir] when that is
    not empty, after echoing it. *)
Definition executeCommand (workingDir commandName : string) (args : list string)
  : M error :=
  cmd <- exec_Command commandName args ;;
  let cmd := if negb (workingDir =? EmptyString)
             then exec.set_Dir cmd workingDir else cmd in
  let cmd := exec.set_stdio cmd exec.Inherit exec.Inherit exec.Inherit in
  Printf ("▶️  Executing: " ++ exec.String cmd ++ newline) ;;
  err <- cmd_Run cmd ;;
  match err with
  | Some e => ret (Some ("❌ command failed: " ++ e))
  | None => ret None
  end.

(** [func executeCommandWithOutput(commandName string, args ...string) (string, error)]:
    captures the standard output of the command and trims it. *)
Definition executeCommandWithOutput (commandName : string) (args : list string)
  : M (string * error) :=
  cmd <- exec_Command commandName args ;;
  Printf ("▶️  Executing: " ++ exec.String cmd ++ newline) ;;
  r <- cmd_Output cmd ;;
  match snd r with
  | Some e => ret (EmptyString, Some ("❌ command failed: " ++ e))
  | None => ret (strings.TrimSpace (fst r), None)
  end.

(** ** [initCmd]: the [Run] function of [teryx init <repository-name>]

    [cobra.ExactArgs(1)] lets [Run] be reached with exactly one positional
    argument. *)

(** Lines 103-107: [.fossil] is appended to the name when it is not there. *)
Definition init_repoName (repoArg : string) : M string :=
  if negb (strings.HasSuffix repoArg ".fossil") then
    let repoName := repoArg ++ ".fossil" in
    Printf ("ℹ️  Appending .fossil extension. Repository file will be: "
            ++ repoName ++ newline) ;;
    ret repoName
  else ret repoArg.

(** Lines 110-117: the user name of the [--user] flag, or else the trimmed
    output of [whoami]. *)
Definition init_username (username : string) : M string :=
  if username =? EmptyString then
    r <- executeCommandWithOutput "whoami" [] ;;
    match snd r with
    | Some e => log_Fatal ("❌ Failed to get current user with 'whoami': " ++ e)
    | None =>
        Printf ("ℹ️  No --user specified. Defaulting to current user: "
                ++ fst r ++ newline) ;;
        ret (fst r)
    end
  else ret username.

Definition initCmd_Run (flags : Values) (args : list string) : M unit :=
  repoArg <- at_index args 0 ;;
  let password := GetString initFlags flags "password" in
  let username := GetString initFlags flags "user" in
  (if password =? EmptyString
   then log_Fatal "❌ --password flag is required." else ret tt) ;;
  repoName <- init_repoName repoArg ;;
  username <- init_username username ;;
  Printf ("🚀 Initializing new repository '" ++ repoName ++ "' for user '"
          ++ username ++ "'..." ++ newline) ;;
  err <- executeCommand EmptyString "fossil" ["new"; repoName] ;;
  match err with
  | Some e => log_Fatal ("❌ Failed to create new repository: " ++ e)
  | None => ret tt
  end ;;
  let checkoutDirName := strings.TrimSuffix repoName ".fossil" in
  err <- os_MkdirAll checkoutDirName perm_0755 ;;
  match err with
  | Some e => log_Fatal ("❌ Failed to create checkout directory: " ++ e)
  | None => ret tt
  end ;;
  let repoFilePath := filepath.Join [".."; repoName] in
  err <- executeCommand checkoutDirName "fossil" ["open"; repoFilePath] ;;
  match err with
  | Some e => log_Fatal ("❌ Failed to open repository: " ++ e)
  | None => ret tt
  end ;;
  err <- executeCommand checkoutDirName "fossil"
           ["user"; "password"; username; password] ;;
  match err with
  | Some e => log_Fatal ("❌ Failed to set user password: " ++ e)
  | None => ret tt
  end ;;
  err <- executeCommand checkoutDirName "fossil" ["user"; "default"; username] ;;
  match err with
  | Some e => log_Fatal ("❌ Failed to set default user: " ++ e)
  | None => ret tt
  end ;;
  cwd <- os_Getwd ;;
  Printf ("✅ Success! Repository initialized and opened in: "
          ++ filepath.Join [fst cwd; checkoutDirName] ++ newline).

(** ** [transferCmd]: the [Run] function of [teryx transfer <repository-name>] *)

Definition rule : string :=
  "-----------------------------------------------------------------".

(** Lines 179-200: the fallback, entered with the error of [scp]. *)
Definition transfer_fallback (repoName destination e : string) : M unit :=
  Printf ("⚠️ scp failed: " ++ e ++ newline) ;;
  Println "ℹ️ Falling back to sftp..." ;;
  let parts := strings.SplitN destination ":" 2 in
  (if negb (List.length parts =? 2)%nat
   then log_Fatal "❌ Invalid destination format. Expected user@host:path"
   else ret tt) ;;
  userHost <- at_index parts 0 ;;
  remotePath <- at_index parts 1 ;;
  let sftpCommand := "put " ++ repoName ++ " " ++ remotePath in
  sftpCmd <- exec_Command "sftp" [userHost] ;;
  let sftpCmd :=
    exec.set_stdio sftpCmd (exec.Reader sftpCommand) exec.Inherit exec.Inherit in
  Printf ("▶️  Executing: echo " ++ dquote ++ sftpCommand ++ dquote ++ " | "
          ++ exec.String sftpCmd ++ newline) ;;
  err <- cmd_Run sftpCmd ;;
  match err with
  | Some e2 => log_Fatal ("❌ sftp fallback also failed: " ++ e2)
  | None => ret tt
  end.

(** Line 217: the command the user is told to run on the server. *)
Definition remediation (userHost remoteUser remotePath : string) : string :=
  "ssh -t " ++ userHost ++ " " ++ dquote ++ "sudo chown " ++ remoteUser ++ ":"
  ++ remoteUser ++ " " ++ remotePath ++ " && sudo chmod 664 " ++ remotePath
  ++ dquote ++ newline.

Definition transferCmd_Run (flags : Values) (args : list string) : M unit :=
  repoName <- at_index args 0 ;;
  let destination := GetString transferFlags flags "destination" in
  let remoteUser := GetString transferFlags flags "remote-user" in
  (if destination =? EmptyString
   then log_Fatal "❌ --destination flag is required." else ret tt) ;;
  Printf ("🚀 Attempting to transfer '" ++ repoName ++ "' to '" ++ destination
          ++ "' via scp..." ++ newline) ;;
  err <- executeCommand EmptyString "scp" [repoName; destination] ;;
  match err with
  | Some e => transfer_fallback repoName destination e
  | None => ret tt
  end ;;
  Println "✅ Success! Repository transferred." ;;
  Println rule ;;
  Println "⚠️ IMPORTANT: Post-transfer steps required on the server!" ;;
  Println "To allow the web server to write to the repository, you must update its permissions." ;;
  Println "Log into your server and run a command like the one below." ;;
  Printf ("You may need to replace '" ++ remoteUser
          ++ "' with your server's actual web user/group (e.g., 'apache', 'nginx')."
          ++ newline) ;;
  Println EmptyString ;;
  let parts := strings.SplitN destination ":" 2 in
  userHost <- at_index parts 0 ;;
  part1 <- at_index parts 1 ;;
  let remotePath := filepath.Join [part1; repoName] in
  Printf (remediation userHost remoteUser remotePath) ;;
  Println rule.

(** ** [cloneCmd]: the [Run] function of [teryx clone <fossil-url>]

    [url.Parse] and the method [String()] of a URL are parameters of the
    workflow: [url_Parse] is instantiated with the model [url.Parse] where a
    property needs the parse of a given string, and [URL_String], which
    rebuilds and re-escapes the URL with the user name in it, stays
    abstract. *)

Section Clone.

Variable url_Parse : string -> result url.URL.
Variable URL_String : url.URL -> string.

Definition cloneCmd_Run (args : list string) : M unit :=
  fossilURL <- at_index args 0 ;;
  let cleanURL := strings.TrimSuffix fossilURL "/home" in
  Printf ("🚀 Cloning from '" ++ cleanURL ++ "'..." ++ newline) ;;
  match url_Parse cleanURL with
  | Failed e => log_Fatal ("❌ Invalid URL: " ++ e)
  | Ok parsedURL =>
      cu <- user_Current ;;
      match cu with
      | Failed e => log_Fatal ("❌ Could not get current user: " ++ e)
      | Ok currentUser =>
          let homeDir := user.HomeDir currentUser in
          let username := user.Username currentUser in
          let hostname := url.Hostname parsedURL in
          let urlPath := strings.TrimPrefix (url.Path parsedURL) "/" in
          let targetDir :=
            filepath.Join [homeDir; "fossils"; hostname; filepath.Dir urlPath] in
          Printf ("ℹ️  Local target directory will be: " ++ targetDir ++ newline) ;;
          err <- os_MkdirAll targetDir perm_0755 ;;
          match err with
          | Some e => log_Fatal ("❌ Failed to create target directory: " ++ e)
          | None => ret tt
          end ;;
          let parsedURL := url.set_User parsedURL (url.UserOf username) in
          let authURL := URL_String parsedURL in
          let repoBaseName := strings.TrimSuffix (filepath.Base urlPath) ".fossil" in
          let fossilFileName := repoBaseName ++ ".fossil" in
          err <- executeCommand targetDir "fossil" ["clone"; authURL; fossilFileName] ;;
          match err with
          | Some e => log_Fatal ("❌ Failed to clone repository: " ++ e)
          | None => ret tt
          end ;;
          let checkoutDir := filepath.Join [targetDir; repoBaseName] in
          err <- os_MkdirAll checkoutDir perm_0755 ;;
          match err with
          | Some e => log_Fatal ("❌ Failed to create checkout directory: " ++ e)
          | None => ret tt
          end ;;
          let repoFilePath := filepath.Join [".."; fossilFileName] in
          err <- executeCommand checkoutDir "fossil" ["open"; repoFilePath] ;;
          match err with
          | Some e =>
              log_Fatal ("❌ Failed to open repository in checkout directory: " ++ e)
          | None => ret tt
          end ;;
          Printf ("✅ Success! Repo cloned and opened in: " ++ checkoutDir ++ newline)
      end
  end.

End Clone.

(** * Properties *)

(** ** Readings of a trace *)

(** The program name a command was made with ([Args[0]]). *)
Definition program (c : exec.Cmd) : string := hd EmptyString (exec.Args c).

(** The event is an attempt to run [prog]. *)
Definition is_run_of (prog : string) (e : event) : bool :=
  match e with
  | EvRun c _ _ => program c =? prog
  | _ => false
  end.

(** The event is a run that returned an error, or one that returned [nil]. *)
Definition run_failed (e : event) : bool :=
  match e with
  | EvRun _ _ (Some _) => true
  | _ => false
  end.

Definition run_succeeded (e : event) : bool :=
  match e with
  | EvRun _ _ None => true
  | _ => false
  end.

(** Every invocation of an external command, in order. *)
Definition external_calls (tr : list event) : list exec.Cmd :=
  flat_map (fun e => match e with EvRun c _ _ => [c] | _ => [] end) tr.

(** The attempts to run [prog]. *)
Definition attempts (prog : string) (tr : list event) : list event :=
  filter (is_run_of prog) tr.

(** The primary delivery ([scp]) was attempted and failed, or succeeded. *)
Definition primary_failed (tr : list event) : bool :=
  existsb (fun e => is_run_of "scp" e && run_failed e) tr.

Definition primary_succeeded (tr : list event) : bool :=
  existsb (fun e => is_run_of "scp" e && run_succeeded e) tr.

(** One of the two delivery mechanisms ran and succeeded. *)
Definition delivered (tr : list event) : bool :=
  existsb (fun e => (is_run_of "scp" e || is_run_of "sftp" e) && run_succeeded e) tr.

(** The directories created, and the directory and arguments of each
    command run, in order. *)
Definition mkdirs (tr : list event) : list string :=
  flat_map (fun e => match e with EvMkdirAll p _ _ => [p] | _ => [] end) tr.

Definition commands (tr : list event) : list (string * list string) :=
  map (fun c => (exec.Dir c, exec.Args c)) (external_calls tr).

(** The commands run with the program [prog], with their directories. *)
Definition commands_of (prog : string) (tr : list event) : list (string * list string) :=
  filter (fun p => hd EmptyString (snd p) =? prog) (commands tr).

(** [xs] is an initial part of [ys]. *)
Definition prefix_of {A : Type} (xs ys : list A) : Prop :=
  exists rest, ys = (xs ++ rest)%list.

(** A string ends in exactly one copy of [suffix]. *)
Definition ends_in_exactly_one (suffix s : string) : bool :=
  strings.HasSuffix s suffix
  && negb (strings.HasSuffix (strings.TrimSuffix s suffix) suffix).

(** A plain file name: one path element that is not empty, [.] or [..]. *)
Definition plain_name (f : string) : bool :=
  negb (strings.Contains f "/") && negb (f =? EmptyString)
  && negb (f =? ".") && negb (f =? "..").

(** ** Environments for the examples *)

(** Every lookup, process, directory creation and query succeeds. *)
Definition alice : user.User :=
  user.mkUser "1000" "1000" "alice" "Alice" "/home/alice".

Definition env_ok : Env :=
  mkEnv (fun name => Ok ("/usr/bin/" ++ name))
        (fun _ c => if program c =? "whoami"
                    then ("alice" ++ newline, None) else (EmptyString, None))
        (fun _ _ _ => None)
        (fun _ => Ok alice)
        (fun _ => ("/work", None)).

(** As [env_ok], but [scp] exits with an error. *)
Definition env_scp_fails : Env :=
  mkEnv (LookPath env_ok)
        (fun _ c => if program c =? "scp"
                    then (EmptyString, Some "exit status 1") else (EmptyString, None))
        (MkdirAll env_ok) (Current env_ok) (Getwd env_ok).

(** As [env_ok], but every process exits with an error. *)
Definition env_all_fail : Env :=
  mkEnv (LookPath env_ok)
        (fun _ _ => (EmptyString, Some "exit status 1"))
        (MkdirAll env_ok) (Current env_ok) (Getwd env_ok).

(** Flag values for the examples. *)
Definition to_alice : Values :=
  with_flag "destination" "alice@example.com:/srv/fossil" no_flags.

Definition to_backup : Values := with_flag "destination" "backup" no_flags.

(** A rendering of URLs for the examples: scheme, user, host and path. *)
Definition simple_URL_String (u : url.URL) : string :=
  url.Scheme u ++ "://"
  ++ match url.User u with
     | Some ui => url.username ui ++ "@"
     | None => EmptyString
     end
  ++ url.Host u ++ url.Path u.

(** ** The runs in closed form

    What [executeCommand] and the three workflows do, written out as
    functions of the environment's answers; the lemmas [executeCommand_eq],
    [initCmd_Run_eq], [transferCmd_Run_eq] and [cloneCmd_Run_eq] below show
    that the monadic code computes exactly these. *)

(** The command [executeCommand] builds, and the line it echoes. *)
Definition terminal_cmd (env : Env) (dir name : string) (args : list string)
  : exec.Cmd :=
  let cmd := exec.Command (LookPath env) name args in
  exec.set_stdio
    (if negb (dir =? EmptyString) then exec.set_Dir cmd dir else cmd)
    exec.Inherit exec.Inherit exec.Inherit.

Definition echo (c : exec.Cmd) : event :=
  EvStdout ("▶️  Executing: " ++ exec.String c ++ newline).

Definition command_failed (err : error) : error :=
  match err with
  | Some e => Some ("❌ command failed: " ++ e)
  | None => None
  end.

(** The [sftp] command of the fallback and the line echoed for it. *)
Definition sftp_cmd (env : Env) (userHost sftpCommand : string) : exec.Cmd :=
  exec.set_stdio (exec.Command (LookPath env) "sftp" [userHost])
    (exec.Reader sftpCommand) exec.Inherit exec.Inherit.

Definition sftp_echo (sftpCommand : string) (c : exec.Cmd) : event :=
  EvStdout ("▶️  Executing: echo " ++ dquote ++ sftpCommand ++ dquote ++ " | "
            ++ exec.String c ++ newline).

(** The lines printed on success before the remediation command. *)
Definition success_banner (remoteUser : string) : list event :=
  [ EvStdout ("✅ Success! Repository transferred." ++ newline);
    EvStdout (rule ++ newline);
    EvStdout ("⚠️ IMPORTANT: Post-transfer steps required on the server!" ++ newline);
    EvStdout ("To allow the web server to write to the repository, you must update its permissions." ++ newline);
    EvStdout ("Log into your server and run a command like the one below." ++ newline);
    EvStdout ("You may need to replace '" ++ remoteUser
              ++ "' with your server's actual web user/group (e.g., 'apache', 'nginx')."
              ++ newline);
    EvStdout (EmptyString ++ newline) ].

(** Lines 203-218, from the trace [tr] of a delivery that succeeded. *)
Definition transfer_success (repoName destination remoteUser : string)
  (tr : list event) : outcome unit * list event :=
  match strings.SplitN destination ":" 2 with
  | userHost :: part1 :: _ =>
      (Done tt,
       (tr ++ success_banner remoteUser
           ++ [ EvStdout (remediation userHost remoteUser
                            (filepath.Join [part1; repoName]));
                EvStdout (rule ++ newline) ])%list)
  | parts =>
      (Panic (index_out_of_range (List.length parts) (List.length parts)),
       (tr ++ success_banner remoteUser)%list)
  end.

(** The whole Transfer Workflow. *)
Definition transfer_summary (given : Values) (repoName : string) (env : Env)
  : outcome unit * list event :=
  let destination := GetString transferFlags given "destination" in
  let remoteUser := GetString transferFlags given "remote-user" in
  if destination =? EmptyString
  then (Exit 1 "❌ --destination flag is required.", [])
  else
    let scp := terminal_cmd env EmptyString "scp" [repoName; destination] in
    let tr1 :=
      [ EvStdout ("🚀 Attempting to transfer '" ++ repoName ++ "' to '"
                  ++ destination ++ "' via scp..." ++ newline);
        echo scp ] in
    let '(out1, err1) := answer env tr1 scp in
    let tr2 := (tr1 ++ [EvRun scp out1 err1])%list in
    match err1 with
    | None => transfer_success repoName destination remoteUser tr2
    | Some e =>
        let tr3 :=
          (tr2 ++ [ EvStdout ("⚠️ scp failed: " ++ "❌ command failed: " ++ e
                              ++ newline);
                    EvStdout ("ℹ️ Falling back to sftp..." ++ newline) ])%list in
        match strings.SplitN destination ":" 2 with
        | [userHost; remotePath] =>
            let sftpCommand := "put " ++ repoName ++ " " ++ remotePath in
            let sftp := sftp_cmd env userHost sftpCommand in
            let tr4 := (tr3 ++ [sftp_echo sftpCommand sftp])%list in
            let '(out2, err2) := answer env tr4 sftp in
            let tr5 := (tr4 ++ [EvRun sftp out2 err2])%list in
            match err2 with
            | Some e2 => (Exit 1 ("❌ sftp fallback also failed: " ++ e2), tr5)
            | None => transfer_success repoName destination remoteUser tr5
            end
        | _ =>
            (Exit 1 "❌ Invalid destination format. Expected user@host:path", tr3)
        end
    end.

(** The repository name after normalization. *)
Definition normalized_name (repoArg : string) : string :=
  if strings.HasSuffix repoArg ".fossil" then repoArg else repoArg ++ ".fossil".

(** The [whoami] command as [Output] runs it: both output streams go to
    buffers. *)
Definition whoami_cmd (env : Env) : exec.Cmd :=
  let cmd := exec.Command (LookPath env) "whoami" [] in
  exec.set_stdio cmd (exec.Stdin cmd) exec.Buffer exec.Buffer.

(** Lines 119-153 of the Init Workflow, from the trace [tr], with the
    repository name and the user name resolved. *)
Definition init_steps (repoName username password : string) (env : Env)
  (tr : list event) : outcome unit * list event :=
  let checkoutDirName := strings.TrimSuffix repoName ".fossil" in
  let tr0 :=
    (tr ++ [EvStdout ("🚀 Initializing new repository '" ++ repoName
                      ++ "' for user '" ++ username ++ "'..." ++ newline)])%list in
  let c1 := terminal_cmd env EmptyString "fossil" ["new"; repoName] in
  let '(out1, err1) := answer env (tr0 ++ [echo c1])%list c1 in
  let tr1 := (tr0 ++ [echo c1; EvRun c1 out1 err1])%list in
  match err1 with
  | Some e =>
      (Exit 1 ("❌ Failed to create new repository: " ++ "❌ command failed: " ++ e), tr1)
  | None =>
      let err := MkdirAll env tr1 checkoutDirName perm_0755 in
      let tr2 := (tr1 ++ [EvMkdirAll checkoutDirName perm_0755 err])%list in
      match err with
      | Some e => (Exit 1 ("❌ Failed to create checkout directory: " ++ e), tr2)
      | None =>
          let c2 := terminal_cmd env checkoutDirName "fossil"
                      ["open"; filepath.Join [".."; repoName]] in
          let '(out2, err2) := answer env (tr2 ++ [echo c2])%list c2 in
          let tr3 := (tr2 ++ [echo c2; EvRun c2 out2 err2])%list in
          match err2 with
          | Some e =>
              (Exit 1 ("❌ Failed to open repository: " ++ "❌ command failed: " ++ e), tr3)
          | None =>
              let c3 := terminal_cmd env checkoutDirName "fossil"
                          ["user"; "password"; username; password] in
              let '(out3, err3) := answer env (tr3 ++ [echo c3])%list c3 in
              let tr4 := (tr3 ++ [echo c3; EvRun c3 out3 err3])%list in
              match err3 with
              | Some e =>
                  (Exit 1 ("❌ Failed to set user password: "
                           ++ "❌ command failed: " ++ e), tr4)
              | None =>
                  let c4 := terminal_cmd env checkoutDirName "fossil"
                              ["user"; "default"; username] in
                  let '(out4, err4) := answer env (tr4 ++ [echo c4])%list c4 in
                  let tr5 := (tr4 ++ [echo c4; EvRun c4 out4 err4])%list in
                  match err4 with
                  | Some e =>
                      (Exit 1 ("❌ Failed to set default user: "
                               ++ "❌ command failed: " ++ e), tr5)
                  | None =>
                      let cwd := Getwd env tr5 in
                      (Done tt,
                       (tr5 ++ [ EvGetwd (fst cwd) (snd cwd);
                                 EvStdout
                                   ("✅ Success! Repository initialized and opened in: "
                                    ++ filepath.Join [fst cwd; checkoutDirName]
                                    ++ newline) ])%list)
                  end
              end
          end
      end
  end.

(** The whole Init Workflow. *)
Definition init_summary (given : Values) (repoArg : string) (env : Env)
  : outcome unit * list event :=
  let password := GetString initFlags given "password" in
  let username := GetString initFlags given "user" in
  if password =? EmptyString
  then (Exit 1 "❌ --password flag is required.", [])
  else
    let repoName := normalized_name repoArg in
    let tr0 :=
      if strings.HasSuffix repoArg ".fossil" then []
      else [EvStdout ("ℹ️  Appending .fossil extension. Repository file will be: "
                      ++ repoName ++ newline)] in
    if username =? EmptyString then
      let c := whoami_cmd env in
      let '(out0, err0) :=
        answer env (tr0 ++ [echo (exec.Command (LookPath env) "whoami" [])])%list c in
      let tr1 :=
        (tr0 ++ [ echo (exec.Command (LookPath env) "whoami" []);
                  EvRun c out0 err0 ])%list in
      match err0 with
      | Some e =>
          (Exit 1 ("❌ Failed to get current user with 'whoami': "
                   ++ "❌ command failed: " ++ e), tr1)
      | None =>
          let name := strings.TrimSpace out0 in
          init_steps repoName name password env
            (tr1 ++ [EvStdout ("ℹ️  No --user specified. Defaulting to current user: "
                               ++ name ++ newline)])%list
      end
    else init_steps repoName username password env tr0.

(** The [fossil] commands the Init Workflow plans, each with the directory
    it runs in. *)
Definition init_plan (repoName username password : string) : list (string * list string) :=
  let dir := strings.TrimSuffix repoName ".fossil" in
  [ (EmptyString, ["fossil"; "new"; repoName]);
    (dir, ["fossil"; "open"; filepath.Join [".."; repoName]]);
    (dir, ["fossil"; "user"; "password"; username; password]);
    (dir, ["fossil"; "user"; "default"; username]) ].

(** The values the Clone Workflow derives from the parsed URL and the
    current user (lines 251-253, 265-266 and 274), and its run in closed
    form. *)

Definition clone_urlPath (u : url.URL) : string :=
  strings.TrimPrefix (url.Path u) "/".

Definition clone_targetDir (u : url.URL) (usr : user.User) : string :=
  filepath.Join [ user.HomeDir usr; "fossils"; url.Hostname u;
                  filepath.Dir (clone_urlPath u) ].

Definition clone_repoBaseName (u : url.URL) : string :=
  strings.TrimSuffix (filepath.Base (clone_urlPath u)) ".fossil".

Definition clone_fossilFileName (u : url.URL) : string :=
  clone_repoBaseName u ++ ".fossil".

Definition clone_checkoutDir (u : url.URL) (usr : user.User) : string :=
  filepath.Join [clone_targetDir u usr; clone_repoBaseName u].

Definition clone_summary (url_Parse : string -> result url.URL)
  (URL_String : url.URL -> string) (fossilURL : string) (env : Env)
  : outcome unit * list event :=
  let cleanURL := strings.TrimSuffix fossilURL "/home" in
  let tr0 := [EvStdout ("🚀 Cloning from '" ++ cleanURL ++ "'..." ++ newline)] in
  match url_Parse cleanURL with
  | Failed e => (Exit 1 ("❌ Invalid URL: " ++ e), tr0)
  | Ok u =>
      let cu := Current env tr0 in
      let tr1 := (tr0 ++ [EvUserCurrent cu])%list in
      match cu with
      | Failed e => (Exit 1 ("❌ Could not get current user: " ++ e), tr1)
      | Ok usr =>
          let targetDir := clone_targetDir u usr in
          let checkoutDir := clone_checkoutDir u usr in
          let fossilFileName := clone_fossilFileName u in
          let authURL :=
            URL_String (url.set_User u (url.UserOf (user.Username usr))) in
          let tr2 :=
            (tr1 ++ [EvStdout ("ℹ️  Local target directory will be: "
                               ++ targetDir ++ newline)])%list in
          let made1 := MkdirAll env tr2 targetDir perm_0755 in
          let tr3 := (tr2 ++ [EvMkdirAll targetDir perm_0755 made1])%list in
          match made1 with
          | Some e => (Exit 1 ("❌ Failed to create target directory: " ++ e), tr3)
          | None =>
              let c1 := terminal_cmd env targetDir "fossil"
                          ["clone"; authURL; fossilFileName] in
              let '(out1, err1) := answer env (tr3 ++ [echo c1])%list c1 in
              let tr4 := (tr3 ++ [echo c1; EvRun c1 out1 err1])%list in
              match err1 with
              | Some e =>
                  (Exit 1 ("❌ Failed to clone repository: "
                           ++ "❌ command failed: " ++ e), tr4)
              | None =>
                  let made2 := MkdirAll env tr4 checkoutDir perm_0755 in
                  let tr5 := (tr4 ++ [EvMkdirAll checkoutDir perm_0755 made2])%list in
                  match made2 with
                  | Some e =>
                      (Exit 1 ("❌ Failed to create checkout directory: " ++ e), tr5)
                  | None =>
                      let c2 := terminal_cmd env checkoutDir "fossil"
                                  ["open"; filepath.Join [".."; fossilFileName]] in
                      let '(out2, err2) := answer env (tr5 ++ [echo c2])%list c2 in
                      let tr6 :=
                        (tr5 ++ [echo c2; EvRun c2 out2 err2])%list in
                      match err2 with
                      | Some e =>
                          (Exit 1 ("❌ Failed to open repository in checkout directory: "
                                   ++ "❌ command failed: " ++ e), tr6)
                      | None =>
                          (Done tt,
                           (tr6 ++ [EvStdout ("✅ Success! Repo cloned and opened in: "
                                              ++ checkoutDir ++ newline)])%list)
                      end
                  end
              end
          end
      end
  end.

(** The directories and commands the Clone Workflow plans, given where it
    clones to, the file it clones into and where it opens the checkout. *)
Definition clone_plan_dirs (targetDir checkoutDir : string) : list string :=
  [targetDir; checkoutDir].

Definition clone_plan_commands (targetDir checkoutDir authURL fossilFileName : string)
  : list (string * list string) :=
  [ (targetDir, ["fossil"; "clone"; authURL; fossilFileName]);
    (checkoutDir, ["fossil"; "open"; filepath.Join [".."; fossilFileName]]) ].

(** ** Path elements and the invariant of [Clean]'s buffer *)

(** No byte of [s] is a separator. *)
Fixpoint sep_free (s : string) : bool :=
  match s with
  | EmptyString => true
  | String c s' => negb (filepath.IsPathSeparator c) && sep_free s'
  end.

(** A real path element: what the default case of [Clean]'s loop copies. *)
Definition real_element (e : string) : bool :=
  sep_free e && negb (e =? EmptyString) && negb (e =? ".") && negb (e =? "..").

(** The buffer holds, in the order written, [dotdot] elements [..] and
    then real elements only; a rooted path keeps no [..] at all. *)
Definition buf_ok (rooted : bool) (b : filepath.lazybuf) : Prop :=
  exists reals,
    Forall (fun e => real_element e = true) reals
    /\ rev (filepath.out b) = (repeat ".." (filepath.dotdot b) ++ reals)%list
    /\ (rooted = true -> filepath.dotdot b = 0).

(** Some element of the list is not empty. *)
Definition some_nonempty (l : list string) : bool :=
  existsb (fun e => negb (e =? EmptyString)) l.

(** ** Further readings of strings and traces *)

(** The last byte of a string, if any. *)
Fixpoint last_byte (s : string) : option ascii :=
  match s with
  | EmptyString => None
  | String c EmptyString => Some c
  | String _ s' => last_byte s'
  end.

(** An environment without [fossil] on the search path. *)
Definition env_no_fossil : Env :=
  mkEnv (fun name =>
           if name =? "fossil"
           then Failed ("exec: " ++ dquote ++ name ++ dquote
                        ++ ": executable file not found in $PATH")
           else Ok ("/usr/bin/" ++ name))
        (child env_ok) (MkdirAll env_ok) (Current env_ok) (Getwd env_ok).

(** A call to the outside whose error the workflows check returned one
    (the error of [os.Getwd] is dropped by its only caller). *)
Definition call_failed (e : event) : bool :=
  match e with
  | EvRun _ _ (Some _) => true
  | EvMkdirAll _ _ (Some _) => true
  | EvUserCurrent (Failed _) => true
  | _ => false
  end.

(** No checked call in the trace returned an error. *)
Definition all_calls_succeeded (tr : list event) : bool :=
  forallb (fun e => negb (call_failed e)) tr.

(** A call that the workflows make and check: a directory creation, or a
    command with its working directory and its arguments. *)
Inductive call : Type :=
| CallMkdirAll (path : string)
| CallRun (dir : string) (args : list string).

(** The checked calls of a trace, in the order they were made. *)
Definition calls (tr : list event) : list call :=
  flat_map (fun e => match e with
                     | EvMkdirAll p _ _ => [CallMkdirAll p]
                     | EvRun c _ _ => [CallRun (exec.Dir c) (exec.Args c)]
                     | _ => []
                     end) tr.

(** What the lookups of the current user returned, in order. *)
Definition lookups (tr : list event) : list (result user.User) :=
  flat_map (fun e => match e with EvUserCurrent r => [r] | _ => [] end) tr.

(** The calls the Clone Workflow plans, in order. *)
Definition clone_plan (targetDir checkoutDir authURL fossilFileName : string)
  : list call :=
  [ CallMkdirAll targetDir;
    CallRun targetDir ["fossil"; "clone"; authURL; fossilFileName];
    CallMkdirAll checkoutDir;
    CallRun checkoutDir ["fossil"; "open"; filepath.Join [".."; fossilFileName]] ].

(** The arguments of a command line, each after a space, before [tail]. *)
Fixpoint spaced (args : list string) (tail : string) : string :=
  match args with
  | [] => tail
  | a :: rest => " " ++ a ++ spaced rest tail
  end.

(** The event announces the command [c]: a line on standard output that
    starts with the marker and ends in [c] as [String()] renders it. *)
Definition announces (e : event) (c : exec.Cmd) : Prop :=
  exists middle,
    e = EvStdout ("▶️  Executing: " ++ middle ++ exec.String c ++ newline).

(** Every run in the trace comes right after the line that announces it;
    [prev] is the event before the trace. *)
Fixpoint announced (prev : option event) (tr : list event) : Prop :=
  match tr with
  | [] => True
  | e :: rest =>
      match e with
      | EvRun c _ _ =>
          match prev with
          | Some p => announces p c
          | None => False
          end
      | _ => True
      end
      /\ announced (Some e) rest
  end.

(** A byte that no part of the URL parser treats specially: a letter, a
    digit, [-], [.] or [_]. *)
Definition plain_byte (c : ascii) : bool :=
  url.is_alpha c || url.is_digit c || url.is_one_of "-._" c.

(** Every byte of the string is in the class [P]. *)
Definition all_bytes (P : ascii -> bool) (s : string) : bool :=
  forallb P (list_ascii_of_string s).

(** A string of plain bytes. *)
Definition plain_text (s : string) : bool := all_bytes plain_byte s.

(** A path element made of plain bytes that is not empty, [.] or [..]. *)
Definition plain_element (e : string) : bool :=
  plain_text e && negb (e =? EmptyString) && negb (e =? ".") && negb (e =? "..").

(** The bytes of a plain URL: plain bytes, [/] and [:]. *)
Definition url_byte (c : ascii) : bool :=
  plain_byte c || Ascii.eqb c "/" || Ascii.eqb c ":".

(** The bytes of a plain path: plain bytes and [/]. *)
Definition path_byte (c : ascii) : bool := plain_byte c || Ascii.eqb c "/".

(** The bytes of a plain authority: plain bytes and [:]. *)
Definition authority_byte (c : ascii) : bool := plain_byte c || Ascii.eqb c ":".

(** Flag values and URLs for the examples below. *)
Definition with_password : Values := with_flag "password" "pw" no_flags.

Definition example_URL (host path : string) : url.URL :=
  url.mkURL "http" EmptyString None host path EmptyString false false
            EmptyString EmptyString EmptyString.

(** ** Slices, prefixes and suffixes *)

Lemma len_append (s t : string) : len (s ++ t) = len s + len t.
Proof.
  induction s as [|c s IH]; simpl; [reflexivity|].
  unfold len in *; simpl; now rewrite IH.
Qed.

Lemma append_assoc (s t u : string) : (s ++ t) ++ u = s ++ (t ++ u).
Proof. induction s as [|c s IH]; simpl; [reflexivity | now rewrite IH]. Qed.

Lemma slice_to_from (n : nat) (s : string) : slice_to n s ++ slice_from n s = s.
Proof.
  revert s; induction n as [|n IH]; intros [|c s]; simpl; try reflexivity.
  now rewrite IH.
Qed.

Lemma slice_to_append (s t : string) : slice_to (len s) (s ++ t) = s.
Proof.
  induction s as [|c s IH]; simpl.
  - destruct t; reflexivity.
  - unfold len in *; simpl; now rewrite IH.
Qed.

Lemma slice_from_append (s t : string) : slice_from (len s) (s ++ t) = t.
Proof. induction s as [|c s IH]; simpl; [destruct t; reflexivity | exact IH]. Qed.

Lemma HasSuffix_append (s suffix : string) : strings.HasSuffix (s ++ suffix) suffix = true.
Proof.
  unfold strings.HasSuffix.
  rewrite len_append.
  replace (len s + len suffix - len suffix) with (len s) by lia.
  rewrite slice_from_append, String.eqb_refl.
  rewrite andb_true_r. apply Nat.leb_le. lia.
Qed.

Lemma HasSuffix_inv (s suffix : string) :
  strings.HasSuffix s suffix = true ->
  slice_to (len s - len suffix) s ++ suffix = s.
Proof.
  unfold strings.HasSuffix. intros H.
  apply andb_true_iff in H as [_ H]. apply String.eqb_eq in H.
  rewrite <- H at 2. apply slice_to_from.
Qed.

Lemma TrimSuffix_append (s suffix : string) :
  strings.TrimSuffix (s ++ suffix) suffix = s.
Proof.
  unfold strings.TrimSuffix. rewrite HasSuffix_append, len_append.
  replace (len s + len suffix - len suffix) with (len s) by lia.
  apply slice_to_append.
Qed.

Lemma TrimSuffix_spec (s suffix : string) :
  strings.HasSuffix s suffix = true -> strings.TrimSuffix s suffix ++ suffix = s.
Proof.
  intros H. unfold strings.TrimSuffix. rewrite H. now apply HasSuffix_inv.
Qed.

Lemma TrimSuffix_none (s suffix : string) :
  strings.HasSuffix s suffix = false -> strings.TrimSuffix s suffix = s.
Proof. intros H. unfold strings.TrimSuffix. now rewrite H. Qed.

Lemma HasPrefix_append (p s : string) : strings.HasPrefix (p ++ s) p = true.
Proof.
  unfold strings.HasPrefix.
  rewrite len_append, slice_to_append, String.eqb_refl, andb_true_r.
  apply Nat.leb_le. lia.
Qed.

Lemma TrimPrefix_append (p s : string) : strings.TrimPrefix (p ++ s) p = s.
Proof.
  unfold strings.TrimPrefix. rewrite HasPrefix_append. apply slice_from_append.
Qed.

(** ** Splitting on a separator *)

Lemma HasPrefix_inv (s p : string) :
  strings.HasPrefix s p = true -> s = p ++ slice_from (len p) s.
Proof.
  unfold strings.HasPrefix. intros H.
  apply andb_true_iff in H as [_ H]. apply String.eqb_eq in H.
  rewrite <- (slice_to_from (len p) s) at 1. now rewrite H.
Qed.

Lemma Index_spec (s sep : string) (m : nat) :
  strings.Index s sep = Some m ->
  s = slice_to m s ++ sep ++ slice_from (m + len sep) s.
Proof.
  revert m. induction s as [|c s IH]; intros m; simpl.
  - destruct (strings.HasPrefix "" sep) eqn:Hp; [|discriminate].
    intros [= <-]. now apply HasPrefix_inv in Hp.
  - destruct (strings.HasPrefix (String c s) sep) eqn:Hp.
    + intros [= <-]. now apply HasPrefix_inv in Hp.
    + destruct (strings.Index s sep) as [m'|] eqn:Hi; [|discriminate].
      simpl. intros [= <-]. simpl. f_equal. now apply IH.
Qed.

Lemma SplitN_2 (s : string) :
  strings.SplitN s ":" 2 =
  match strings.Index s ":" with
  | Some m => [slice_to m s; slice_from (m + 1) s]
  | None => [s]
  end.
Proof.
  destruct s as [|c s]; [reflexivity|].
  unfold strings.SplitN.
  change (2 =? 0)%Z with false. change (2 <? 0)%Z with false.
  change (":" =? "") with false. change (Z.to_nat 2) with 2. cbv iota zeta.
  assert (H : (len (String c s) + 1 <? 2)%nat = false).
  { apply Nat.ltb_ge. unfold len. simpl. lia. }
  rewrite H. reflexivity.
Qed.

Lemma SplitN_no_colon (s : string) :
  strings.Contains s ":" = false -> strings.SplitN s ":" 2 = [s].
Proof.
  unfold strings.Contains. rewrite SplitN_2.
  destruct (strings.Index s ":"); [discriminate | reflexivity].
Qed.

Lemma SplitN_colon (s : string) :
  strings.Contains s ":" = true ->
  exists a b, strings.SplitN s ":" 2 = [a; b] /\ s = a ++ ":" ++ b.
Proof.
  unfold strings.Contains. rewrite SplitN_2.
  destruct (strings.Index s ":") as [m|] eqn:Hi; [|discriminate].
  intros _. exists (slice_to m s), (slice_from (m + 1) s). split; [reflexivity|].
  now apply Index_spec in Hi.
Qed.

(** The destination is well formed exactly when it contains a colon. *)
Lemma SplitN_length (s : string) :
  (List.length (strings.SplitN s ":" 2) =? 2)%nat = strings.Contains s ":".
Proof.
  unfold strings.Contains. rewrite SplitN_2.
  destruct (strings.Index s ":"); reflexivity.
Qed.

(** ** Elements of a path *)

Lemma elements_not_nil (p : string) : filepath.elements p <> [].
Proof.
  destruct p as [|c p]; simpl; [discriminate|].
  destruct (filepath.IsPathSeparator c); [discriminate|].
  destruct (filepath.elements p); discriminate.
Qed.

Lemma elements_append_sep (a b : string) :
  filepath.elements (a ++ String "/" b)
  = (filepath.elements a ++ filepath.elements b)%list.
Proof.
  induction a as [|c a IH]; simpl; [reflexivity|].
  rewrite IH.
  destruct (filepath.IsPathSeparator c); [reflexivity|].
  pose proof (elements_not_nil a) as Hne.
  destruct (filepath.elements a); [contradiction | reflexivity].
Qed.

Lemma elements_sep_free (s : string) :
  sep_free s = true -> filepath.elements s = [s].
Proof.
  induction s as [|c s IH]; simpl; [reflexivity|].
  intros H. apply andb_true_iff in H as [Hc Hs].
  apply negb_true_iff in Hc. rewrite Hc, (IH Hs). reflexivity.
Qed.

Lemma elements_all_sep_free (p : string) :
  Forall (fun e => sep_free e = true) (filepath.elements p).
Proof.
  induction p as [|c p IH]; simpl.
  - repeat constructor.
  - destruct (filepath.IsPathSeparator c) eqn:Hc.
    + constructor; [reflexivity | exact IH].
    + destruct (filepath.elements p) as [|e es]; [repeat constructor; simpl; now rewrite Hc|].
      inversion IH as [|? ? He Hes]; subst.
      constructor; [simpl; now rewrite Hc, He | exact Hes].
Qed.

Lemma elements_Join (l : list string) :
  l <> [] -> Forall (fun e => sep_free e = true) l ->
  filepath.elements (strings.Join l "/") = l.
Proof.
  induction l as [|e l IH]; [contradiction|].
  intros _ H. inversion H as [|? ? He Hl]; subst.
  destruct l as [|e' l].
  - simpl. now apply elements_sep_free.
  - change (strings.Join (e :: e' :: l) "/")
      with (e ++ String "/" (strings.Join (e' :: l) "/")).
    rewrite elements_append_sep, (elements_sep_free e He), IH; [reflexivity | discriminate | exact Hl].
Qed.

Lemma real_element_sep_free (e : string) : real_element e = true -> sep_free e = true.
Proof.
  unfold real_element. intros H.
  repeat (apply andb_true_iff in H as [H _]). exact H.
Qed.

Lemma clean_step_real (r : bool) (b : filepath.lazybuf) (e : string) :
  real_element e = true ->
  filepath.clean_step r b e = filepath.mkbuf (e :: filepath.out b) (filepath.dotdot b).
Proof.
  unfold real_element, filepath.clean_step. intros H.
  apply andb_true_iff in H as [H H3]. apply andb_true_iff in H as [H H2].
  apply andb_true_iff in H as [_ H1].
  apply negb_true_iff in H1, H2, H3. now rewrite H1, H2, H3.
Qed.

Lemma clean_loop_reals (r : bool) (l : list string) (o : list string) (d : nat) :
  Forall (fun e => real_element e = true) l ->
  filepath.clean_loop r l (filepath.mkbuf o d) = filepath.mkbuf (rev l ++ o) d.
Proof.
  revert o. induction l as [|e l IH]; intros o H; [reflexivity|].
  inversion H as [|? ? He Hl]; subst.
  unfold filepath.clean_loop in *. simpl fold_left.
  rewrite (clean_step_real r _ e He). simpl filepath.out. simpl filepath.dotdot.
  rewrite (IH _ Hl). simpl. now rewrite <- app_assoc.
Qed.

Lemma repeat_snoc {A : Type} (x : A) (n : nat) : repeat x (S n) = (repeat x n ++ [x])%list.
Proof. induction n as [|n IH]; [reflexivity|]. simpl in *. now rewrite <- IH. Qed.

Lemma rev_repeat {A : Type} (x : A) (n : nat) : rev (repeat x n) = repeat x n.
Proof.
  induction n as [|n IH]; [reflexivity|].
  simpl rev. rewrite IH. symmetry. apply repeat_snoc.
Qed.

Lemma clean_loop_dotdots (k j : nat) :
  filepath.clean_loop false (repeat ".." k) (filepath.mkbuf (repeat ".." j) j)
  = filepath.mkbuf (repeat ".." (j + k)) (j + k).
Proof.
  revert j. induction k as [|k IH]; intros j.
  - now rewrite Nat.add_0_r.
  - unfold filepath.clean_loop in *. simpl fold_left.
    unfold filepath.clean_step at 2. simpl.
    rewrite repeat_length, Nat.ltb_irrefl.
    change (".." :: repeat ".." j) with (repeat ".." (S j)).
    rewrite (IH (S j)). now rewrite Nat.add_succ_r.
Qed.

(** ** The invariant of [Clean]'s buffer *)

Lemma buf_ok_init (r : bool) : buf_ok r (filepath.mkbuf [] 0).
Proof. exists []. repeat split; auto. Qed.

Lemma buf_ok_length (r : bool) (b : filepath.lazybuf) (reals : list string) :
  rev (filepath.out b) = (repeat ".." (filepath.dotdot b) ++ reals)%list ->
  List.length (filepath.out b) = filepath.dotdot b + List.length reals.
Proof.
  intros H. rewrite <- length_rev, H, length_app, repeat_length. reflexivity.
Qed.

Lemma clean_step_ok (r : bool) (b : filepath.lazybuf) (e : string) :
  sep_free e = true -> buf_ok r b -> buf_ok r (filepath.clean_step r b e).
Proof.
  intros He (reals & Hreals & Hrev & Hroot).
  pose proof (buf_ok_length r b reals Hrev) as Hlen.
  unfold filepath.clean_step.
  destruct (e =? "") eqn:E1; [now exists reals|].
  destruct (e =? ".") eqn:E2; [now exists reals|].
  destruct (e =? "..") eqn:E3.
  - destruct (filepath.dotdot b <? List.length (filepath.out b))%nat eqn:Hlt.
    + apply Nat.ltb_lt in Hlt.
      destruct (filepath.out b) as [|top rest] eqn:Hout; [simpl in Hlt; lia|].
      destruct reals as [|x reals0] using rev_ind; [simpl in *; lia|].
      clear IHreals0.
      simpl rev in Hrev. rewrite app_assoc in Hrev.
      apply app_inj_tail in Hrev as [Hrev _].
      exists reals0. simpl. repeat split; auto.
      apply Forall_app in Hreals. tauto.
    + apply Nat.ltb_ge in Hlt.
      assert (reals = []) by (destruct reals; [reflexivity | simpl in *; lia]).
      subst reals. rewrite app_nil_r in Hrev. simpl in Hlen. rewrite Nat.add_0_r in Hlen.
      destruct r; [exists []; rewrite app_nil_r; repeat split; auto|].
      exists []. simpl. rewrite Hrev, Hlen, app_nil_r.
      repeat split; auto; try discriminate.
      change (".." :: repeat ".." (filepath.dotdot b)) with (repeat ".." (S (filepath.dotdot b))).
      symmetry. apply repeat_snoc.
  - exists (reals ++ [e])%list. simpl. rewrite Hrev, app_assoc.
    repeat split; auto.
    apply Forall_app. split; [exact Hreals|].
    constructor; [|constructor].
    unfold real_element. now rewrite He, E1, E2, E3.
Qed.

Lemma clean_loop_ok (r : bool) (es : list string) (b : filepath.lazybuf) :
  Forall (fun e => sep_free e = true) es -> buf_ok r b ->
  buf_ok r (filepath.clean_loop r es b).
Proof.
  revert b. induction es as [|e es IH]; intros b H Hb; [exact Hb|].
  inversion H as [|? ? He Hes]; subst.
  unfold filepath.clean_loop in *. simpl.
  apply IH; [exact Hes | now apply clean_step_ok].
Qed.

Lemma clean_loop_app (r : bool) (es1 es2 : list string) (b : filepath.lazybuf) :
  filepath.clean_loop r (es1 ++ es2) b
  = filepath.clean_loop r es2 (filepath.clean_loop r es1 b).
Proof. unfold filepath.clean_loop. apply fold_left_app. Qed.

Lemma clean_loop_cons (r : bool) (e : string) (es : list string) (b : filepath.lazybuf) :
  filepath.clean_loop r (e :: es) b = filepath.clean_loop r es (filepath.clean_step r b e).
Proof. reflexivity. Qed.

(** The elements written into an acceptable buffer, read back from its
    rendering, fill the buffer again. *)
Lemma clean_loop_render (r : bool) (b : filepath.lazybuf) :
  buf_ok r b ->
  filepath.clean_loop r (filepath.elements (filepath.render r b)) (filepath.mkbuf [] 0) = b.
Proof.
  intros (reals & Hreals & Hrev & Hroot).
  assert (Hout : filepath.out b = (rev reals ++ repeat ".." (filepath.dotdot b))%list).
  { rewrite <- (rev_involutive (filepath.out b)), Hrev, rev_app_distr, rev_repeat.
    reflexivity. }
  assert (Hfree : Forall (fun e => sep_free e = true) (rev (filepath.out b))).
  { rewrite Hrev. apply Forall_app. split.
    - apply Forall_forall. intros x Hx. apply repeat_spec in Hx. now subst.
    - eapply Forall_impl; [|exact Hreals]. apply real_element_sep_free. }
  destruct b as [o d]. simpl in *.
  unfold filepath.render. simpl filepath.out.
  destruct r.
  - rewrite (Hroot eq_refl) in *. simpl in Hrev, Hout. rewrite app_nil_r in Hout.
    rewrite Hrev in *. subst o.
    change ("/" ++ strings.Join reals "/") with (String "/" (strings.Join reals "/")).
    destruct reals as [|x xs]; [reflexivity|].
    change (filepath.elements (String "/" (strings.Join (x :: xs) "/")))
      with (EmptyString :: filepath.elements (strings.Join (x :: xs) "/")).
    rewrite elements_Join; [|discriminate|exact Hfree].
    rewrite clean_loop_cons.
    change (filepath.clean_step true (filepath.mkbuf [] 0) EmptyString)
      with (filepath.mkbuf [] 0).
    rewrite clean_loop_reals by exact Hreals.
    now rewrite app_nil_r.
  - destruct o as [|top rest] eqn:Ho.
    + simpl in Hrev. destruct d; [reflexivity | discriminate].
    + rewrite <- Ho in *.
      rewrite elements_Join; [|intros E; rewrite Ho in E; simpl in E;
                                  now apply app_eq_nil in E as [_ E]|exact Hfree].
      rewrite Hrev, clean_loop_app.
      change (filepath.mkbuf [] 0) with (filepath.mkbuf (repeat ".." 0) 0).
      rewrite (clean_loop_dotdots d 0). simpl Nat.add.
      rewrite clean_loop_reals by exact Hreals.
      now rewrite Hout.
Qed.

Lemma is_rooted_append (a b : string) :
  a <> EmptyString -> filepath.is_rooted (a ++ b) = filepath.is_rooted a.
Proof. destruct a; [contradiction | reflexivity]. Qed.

Lemma render_rooted (r : bool) (b : filepath.lazybuf) :
  buf_ok r b ->
  filepath.render r b <> EmptyString
  /\ filepath.is_rooted (filepath.render r b) = r.
Proof.
  intros (reals & Hreals & Hrev & Hroot).
  unfold filepath.render. destruct r; [split; [discriminate | reflexivity]|].
  destruct (filepath.out b) as [|top rest] eqn:Ho; [split; [discriminate | reflexivity]|].
  rewrite <- Ho in *.
  assert (Hfirst : exists x xs, rev (filepath.out b) = x :: xs
                     /\ sep_free x = true /\ x <> EmptyString).
  { rewrite Hrev. destruct (filepath.dotdot b) as [|d].
    - destruct reals as [|x xs].
      + simpl in Hrev. rewrite Ho in Hrev. simpl in Hrev.
        now apply app_eq_nil in Hrev as [_ Hrev].
      + exists x, xs. inversion Hreals as [|? ? Hx _]; subst.
        split; [reflexivity|]. split; [now apply real_element_sep_free|].
        intros ->. discriminate.
    - exists "..", (repeat ".." d ++ reals)%list. repeat split. discriminate. }
  destruct Hfirst as (x & xs & Hx & Hfree & Hne).
  rewrite Hx. destruct x as [|c x]; [contradiction|].
  simpl in Hfree. apply andb_true_iff in Hfree as [Hc _]. apply negb_true_iff in Hc.
  destruct xs; simpl; (split; [discriminate | exact Hc]).
Qed.

(** [Clean] as a rendering of an acceptable buffer. *)
Lemma Clean_buf (p : string) :
  p <> EmptyString ->
  let r := filepath.is_rooted p in
  let b := filepath.clean_loop r (filepath.elements p) (filepath.mkbuf [] 0) in
  filepath.Clean p = filepath.render r b /\ buf_ok r b.
Proof.
  intros Hp r b. split.
  - unfold filepath.Clean. destruct p; [contradiction | reflexivity].
  - apply clean_loop_ok; [apply elements_all_sep_free | apply buf_ok_init].
Qed.

Lemma Clean_not_empty (p : string) : filepath.Clean p <> EmptyString.
Proof.
  destruct p as [|c p]; [discriminate|].
  destruct (Clean_buf (String c p)) as [-> Hb]; [discriminate|].
  now apply render_rooted.
Qed.

Lemma Clean_prefix (x y : string) :
  x <> EmptyString ->
  filepath.Clean (filepath.Clean x ++ String "/" y) = filepath.Clean (x ++ String "/" y).
Proof.
  intros Hx.
  destruct (Clean_buf x Hx) as [Hc Hb].
  set (r := filepath.is_rooted x) in *.
  set (b := filepath.clean_loop r (filepath.elements x) (filepath.mkbuf [] 0)) in *.
  destruct (render_rooted r b Hb) as [Hne Hr].
  assert (H1 : filepath.Clean x ++ String "/" y <> EmptyString).
  { destruct (filepath.Clean x); discriminate. }
  assert (H2 : x ++ String "/" y <> EmptyString).
  { destruct x; discriminate. }
  destruct (Clean_buf _ H1) as [-> _]. destruct (Clean_buf _ H2) as [-> _].
  rewrite !is_rooted_append by (try exact Hx; apply Clean_not_empty).
  rewrite !elements_append_sep, !clean_loop_app.
  rewrite Hc, Hr, (clean_loop_render r b Hb). reflexivity.
Qed.

Lemma Clean_idempotent (p : string) : filepath.Clean (filepath.Clean p) = filepath.Clean p.
Proof.
  destruct p as [|c p]; [reflexivity|].
  destruct (Clean_buf (String c p)) as [Hc Hb]; [discriminate|].
  set (r := filepath.is_rooted (String c p)) in *.
  set (b := filepath.clean_loop r _ _) in *.
  destruct (render_rooted r b Hb) as [Hne Hr].
  destruct (Clean_buf _ (Clean_not_empty (String c p))) as [-> _].
  rewrite Hc, Hr, (clean_loop_render r b Hb). reflexivity.
Qed.

Lemma Clean_append_dot (x : string) :
  x <> EmptyString -> filepath.Clean (x ++ "/.") = filepath.Clean x.
Proof.
  intros Hx.
  assert (H2 : x ++ "/." <> EmptyString) by (destruct x; discriminate).
  destruct (Clean_buf _ H2) as [-> _]. destruct (Clean_buf _ Hx) as [-> _].
  rewrite is_rooted_append by exact Hx.
  change "/." with (String "/" ".").
  rewrite elements_append_sep, clean_loop_app. reflexivity.
Qed.

(** ** [filepath.Join] *)

Lemma strings_Join_cons (x y : string) (l : list string) (sep : string) :
  strings.Join (x :: y :: l) sep = x ++ sep ++ strings.Join (y :: l) sep.
Proof. reflexivity. Qed.

Lemma strings_Join_snoc (l : list string) (x sep : string) :
  l <> [] -> strings.Join (l ++ [x]) sep = strings.Join l sep ++ sep ++ x.
Proof.
  induction l as [|e l IH]; [contradiction|]. intros _.
  destruct l as [|e' l]; [reflexivity|].
  change ((e :: e' :: l) ++ [x])%list with (e :: ((e' :: l) ++ [x]))%list.
  change ((e' :: l) ++ [x])%list with (e' :: (l ++ [x]))%list at 1.
  rewrite strings_Join_cons.
  change (e' :: (l ++ [x]))%list with ((e' :: l) ++ [x])%list.
  rewrite IH by discriminate.
  rewrite strings_Join_cons. now rewrite !append_assoc.
Qed.

Lemma strings_Join_head (x : string) (l : list string) (sep : string) :
  x <> EmptyString -> strings.Join (x :: l) sep <> EmptyString.
Proof. intros Hx. destruct x; [contradiction|]. destruct l; discriminate. Qed.

Lemma Join_head (x : string) (l : list string) :
  x <> EmptyString -> filepath.Join (x :: l) = filepath.Clean (strings.Join (x :: l) "/").
Proof.
  intros Hx. simpl. destruct (x =? "") eqn:E; [|reflexivity].
  apply String.eqb_eq in E. contradiction.
Qed.

Lemma Join_skip (l : list string) : filepath.Join (EmptyString :: l) = filepath.Join l.
Proof. reflexivity. Qed.

(** A trailing [.] element adds nothing. *)
Lemma Join_snoc_dot (l : list string) :
  some_nonempty l = true -> filepath.Join (l ++ ["."]) = filepath.Join l.
Proof.
  induction l as [|e l IH]; [discriminate|]. intros H.
  destruct (String.eqb_spec e EmptyString) as [->|Hne].
  - simpl in H. change (filepath.Join (l ++ ["."]) = filepath.Join l). now apply IH.
  - change ((e :: l) ++ ["."])%list with (e :: (l ++ ["."]))%list.
    rewrite !Join_head by exact Hne.
    change (e :: (l ++ ["."]))%list with ((e :: l) ++ ["."])%list.
    rewrite strings_Join_snoc by discriminate.
    apply Clean_append_dot. now apply strings_Join_head.
Qed.

(** Joining onto a joined path is joining all at once. *)
Lemma Join_Join (l : list string) (x : string) :
  some_nonempty l = true -> filepath.Join [filepath.Join l; x] = filepath.Join (l ++ [x]).
Proof.
  induction l as [|e l IH]; [discriminate|]. intros H.
  destruct (String.eqb_spec e EmptyString) as [->|Hne].
  - simpl in H. rewrite Join_skip. change (filepath.Join [filepath.Join l; x] = filepath.Join (l ++ [x])).
    now apply IH.
  - change ((e :: l) ++ [x])%list with (e :: (l ++ [x]))%list.
    rewrite (Join_head e l Hne), (Join_head e (l ++ [x]) Hne).
    rewrite Join_head by apply Clean_not_empty.
    change (e :: (l ++ [x]))%list with ((e :: l) ++ [x])%list.
    rewrite strings_Join_snoc by discriminate.
    change (strings.Join [filepath.Clean (strings.Join (e :: l) "/"); x] "/")
      with (filepath.Clean (strings.Join (e :: l) "/") ++ String "/" x).
    change ("/" ++ x) with (String "/" x).
    apply Clean_prefix. now apply strings_Join_head.
Qed.

Lemma strings_Join_app (l1 l2 : list string) (sep : string) :
  l1 <> [] -> l2 <> [] ->
  strings.Join (l1 ++ l2) sep = strings.Join l1 sep ++ sep ++ strings.Join l2 sep.
Proof.
  intros H1 H2. induction l1 as [|e l1 IH]; [contradiction|].
  destruct l1 as [|e' l1].
  - destruct l2; [contradiction | reflexivity].
  - change ((e :: e' :: l1) ++ l2)%list with (e :: e' :: (l1 ++ l2))%list.
    rewrite !strings_Join_cons.
    change (e' :: (l1 ++ l2))%list with ((e' :: l1) ++ l2)%list.
    rewrite IH by discriminate. now rewrite !append_assoc.
Qed.

(** Real elements joined onto an absolute path in clean form, other than the
    root, are appended to it, each after a slash. *)
Lemma Join_onto_clean (home : string) (reals : list string) :
  filepath.Clean home = home -> filepath.is_rooted home = true -> home <> "/" ->
  reals <> [] -> Forall (fun e => real_element e = true) reals ->
  filepath.Join (home :: reals) = home ++ "/" ++ strings.Join reals "/".
Proof.
  intros Hclean Hroot Hnot Hne Hreals.
  assert (Hhome : home <> EmptyString) by (intros ->; discriminate).
  rewrite Join_head by exact Hhome.
  destruct reals as [|x xs]; [contradiction|].
  rewrite strings_Join_cons.
  change ("/" ++ strings.Join (x :: xs) "/") with (String "/" (strings.Join (x :: xs) "/")).
  destruct (Clean_buf (home ++ String "/" (strings.Join (x :: xs) "/"))) as [-> _].
  { destruct home; discriminate. }
  destruct (Clean_buf home Hhome) as [Hc Hb].
  rewrite is_rooted_append by exact Hhome.
  rewrite elements_append_sep, clean_loop_app.
  rewrite elements_Join;
    [ | discriminate
      | eapply Forall_impl; [|exact Hreals]; apply real_element_sep_free ].
  rewrite Hroot in *.
  destruct (filepath.clean_loop true (filepath.elements home) (filepath.mkbuf [] 0))
    as [o d] eqn:Hloop.
  destruct Hb as (reals0 & Hreals0 & Hrev & Hd). simpl in Hrev, Hd.
  rewrite (Hd eq_refl) in *. simpl in Hrev.
  rewrite clean_loop_reals by exact Hreals.
  unfold filepath.render in *. simpl filepath.out in *.
  change (rev xs ++ [x])%list with (rev (x :: xs)).
  rewrite rev_app_distr, rev_involutive.
  assert (Ho : rev o <> []).
  { intros E. rewrite E, Hclean in Hc. now apply Hnot. }
  rewrite strings_Join_app by (try exact Ho; discriminate).
  rewrite Hclean in Hc. rewrite Hc at 1.
  change (String "/" (strings.Join (x :: xs) "/")) with ("/" ++ strings.Join (x :: xs) "/").
  now rewrite !append_assoc.
Qed.

(** ** Commands *)

Lemma Args_Command (lp : string -> result string) (name : string) (arg : list string) :
  exec.Args (exec.Command lp name arg) = name :: arg.
Proof.
  unfold exec.Command. destruct (filepath.Base name =? name); [|reflexivity].
  destruct (lp name) as [p|e]; [|reflexivity].
  destruct (p =? ""); reflexivity.
Qed.

Lemma Dir_Command (lp : string -> result string) (name : string) (arg : list string) :
  exec.Dir (exec.Command lp name arg) = EmptyString.
Proof.
  unfold exec.Command. destruct (filepath.Base name =? name); [|reflexivity].
  destruct (lp name) as [p|e]; [|reflexivity].
  destruct (p =? ""); reflexivity.
Qed.

Lemma Stdout_Command (lp : string -> result string) (name : string) (arg : list string) :
  exec.Stdout (exec.Command lp name arg) = exec.Unset.
Proof.
  unfold exec.Command.
  destruct (filepath.Base name =? name); [|reflexivity].
  destruct (lp name) as [p|e]; [destruct (p =? EmptyString)|]; reflexivity.
Qed.

Lemma Stderr_Command (lp : string -> result string) (name : string) (arg : list string) :
  exec.Stderr (exec.Command lp name arg) = exec.Unset.
Proof.
  unfold exec.Command.
  destruct (filepath.Base name =? name); [|reflexivity].
  destruct (lp name) as [p|e]; [destruct (p =? EmptyString)|]; reflexivity.
Qed.

Lemma Args_terminal_cmd (env : Env) (dir name : string) (args : list string) :
  exec.Args (terminal_cmd env dir name args) = name :: args.
Proof.
  unfold terminal_cmd. cbv zeta.
  destruct (negb (dir =? "")); simpl; apply Args_Command.
Qed.

Lemma Dir_terminal_cmd (env : Env) (dir name : string) (args : list string) :
  exec.Dir (terminal_cmd env dir name args) = dir.
Proof.
  unfold terminal_cmd. cbv zeta.
  destruct (String.eqb_spec dir "") as [->|Hne]; simpl; [apply Dir_Command | reflexivity].
Qed.

Lemma program_terminal_cmd (env : Env) (dir name : string) (args : list string) :
  program (terminal_cmd env dir name args) = name.
Proof. unfold program. now rewrite Args_terminal_cmd. Qed.

Lemma program_sftp_cmd (env : Env) (userHost sftpCommand : string) :
  program (sftp_cmd env userHost sftpCommand) = "sftp".
Proof. unfold program, sftp_cmd. simpl. now rewrite Args_Command. Qed.

(** ** The runs in closed form *)

Ltac run_cbv :=
  cbv beta iota zeta delta
    [run bind ret Printf Println emit log_Fatal at_index nth_error app
     exec_Command cmd_Run cmd_Output start executeCommand executeCommandWithOutput
     os_MkdirAll user_Current os_Getwd
     transferCmd_Run transfer_fallback transfer_summary transfer_success success_banner
     cloneCmd_Run clone_summary
     terminal_cmd echo sftp_cmd sftp_echo command_failed
     List.length Nat.eqb negb].

Lemma executeCommand_eq (dir name : string) (args : list string) (env : Env) (tr : list event) :
  executeCommand dir name args env tr =
  let c := terminal_cmd env dir name args in
  let '(captured, err) := answer env (tr ++ [echo c])%list c in
  (Done (command_failed err), (tr ++ [echo c; EvRun c captured err])%list).
Proof.
  unfold executeCommand, terminal_cmd, echo, command_failed.
  unfold bind, exec_Command, Printf, emit, cmd_Run, start, bind, ret.
  cbv zeta.
  destruct (answer _ _ _) as [captured [e|]]; rewrite <- app_assoc; reflexivity.
Qed.

Lemma transferCmd_Run_eq (given : Values) (repoName : string) (env : Env) :
  run (transferCmd_Run given [repoName]) env = transfer_summary given repoName env.
Proof.
  run_cbv.
  destruct (GetString transferFlags given "destination" =? "") eqn:Hd; [reflexivity|].
  destruct (answer _ _ _) as [o1 [e|]]; cbv beta iota delta [fst snd].
  - destruct (strings.SplitN _ ":" 2) as [|userHost [|remotePath [|x rest]]];
      try reflexivity.
    destruct (answer _ _ _) as [o2 [e2|]]; reflexivity.
  - destruct (strings.SplitN _ ":" 2) as [|userHost [|remotePath rest]]; reflexivity.
Qed.

(** A goal [prefix_of xs ys] over lists whose spines are known. *)
Ltac solve_prefix :=
  unfold prefix_of;
  first [ exists []; reflexivity
        | eexists; cbn [app]; reflexivity ].

(** ** Init Workflow *)

(** C7 as stated fails where the argument already carries two suffixes:
    the name is left as it is, and ends in two. *)
Lemma init_repoName_keeps_two_suffixes :
  init_repoName "x.fossil.fossil" env_ok [] = (Done "x.fossil.fossil", [])
  /\ strings.HasSuffix (strings.TrimSuffix "x.fossil.fossil" ".fossil") ".fossil" = true
  /\ ends_in_exactly_one ".fossil" "x.fossil.fossil" = false.
Proof. repeat split; reflexivity. Qed.

(** C7 (amended): the name normalization of the Init Workflow appends
    [.fossil] once to a name that lacks it and leaves a name that ends in
    [.fossil] unchanged; it always returns; its result ends in [.fossil];
    normalizing the result again changes nothing (and prints nothing); and
    the result ends in exactly one [.fossil] unless the argument already
    ended in [.fossil.fossil].  The result is [normalized_name], the name the
    workflow hands to [fossil new] ([init_follows_plan]). *)
Theorem init_repoName_normalizes (repoArg : string) (env : Env) (tr : list event) :
  exists r tr',
    init_repoName repoArg env tr = (Done r, tr')
    /\ r = normalized_name repoArg
    /\ (strings.HasSuffix repoArg ".fossil" = false -> r = repoArg ++ ".fossil")
    /\ (strings.HasSuffix repoArg ".fossil" = true -> r = repoArg /\ tr' = tr)
    /\ strings.HasSuffix r ".fossil" = true
    /\ (forall env2 tr2, init_repoName r env2 tr2 = (Done r, tr2))
    /\ (strings.HasSuffix repoArg ".fossil.fossil" = false ->
        ends_in_exactly_one ".fossil" r = true).
Proof.
  assert (Hidem : forall r, strings.HasSuffix r ".fossil" = true ->
                    forall env2 tr2, init_repoName r env2 tr2 = (Done r, tr2)).
  { intros r Hr env2 tr2. unfold init_repoName. now rewrite Hr. }
  destruct (strings.HasSuffix repoArg ".fossil") eqn:Hs.
  - exists repoArg, tr.
    split; [now apply Hidem|].
    split; [unfold normalized_name; now rewrite Hs|].
    split; [discriminate|].
    split; [now split|].
    split; [exact Hs|].
    split; [now apply Hidem|].
    intros H2. unfold ends_in_exactly_one. rewrite Hs. simpl.
    destruct (strings.HasSuffix (strings.TrimSuffix repoArg ".fossil") ".fossil") eqn:Hp;
      [|reflexivity].
    apply TrimSuffix_spec in Hp. apply TrimSuffix_spec in Hs.
    rewrite <- Hs, <- Hp, append_assoc in H2.
    change (".fossil" ++ ".fossil") with ".fossil.fossil" in H2.
    now rewrite HasSuffix_append in H2.
  - exists (repoArg ++ ".fossil"), (tr ++ [EvStdout
      ("ℹ️  Appending .fossil extension. Repository file will be: "
       ++ (repoArg ++ ".fossil") ++ newline)])%list.
    split; [unfold init_repoName; now rewrite Hs|].
    split; [unfold normalized_name; now rewrite Hs|].
    split; [reflexivity|].
    split; [discriminate|].
    split; [apply HasSuffix_append|].
    split; [apply Hidem, HasSuffix_append|].
    intros _. unfold ends_in_exactly_one.
    now rewrite HasSuffix_append, TrimSuffix_append, Hs.
Qed.

(** The normalized name is the one handed to [fossil new]. *)
Lemma initCmd_creates_normalized_name :
  commands (snd (run (initCmd_Run (with_flag "password" "pw" no_flags) ["tester"]) env_all_fail))
  = [(EmptyString, ["whoami"])]
  /\ hd_error (tl (commands (snd (run (initCmd_Run (with_flag "password" "pw" no_flags)
                                       ["tester"]) env_ok))))
     = Some (EmptyString, ["fossil"; "new"; "tester.fossil"]).
Proof. split; reflexivity. Qed.

(** C9: without a password (the flag absent, or given empty) the Init
    Workflow exits fatally with an empty trace: no external command, not
    even the [whoami] lookup, has been invoked, and nothing was printed. *)
Theorem init_requires_password (given : Values) (repoArg : string) (env : Env) :
  given "password" = None \/ given "password" = Some EmptyString ->
  run (initCmd_Run given [repoArg]) env
  = (Exit 1 "❌ --password flag is required.", [])
  /\ external_calls (snd (run (initCmd_Run given [repoArg]) env)) = [].
Proof.
  intros H.
  assert (Hp : GetString initFlags given "password" = EmptyString).
  { unfold GetString; simpl. destruct H as [-> | ->]; reflexivity. }
  assert (Hr : run (initCmd_Run given [repoArg]) env
               = (Exit 1 "❌ --password flag is required.", [])).
  { unfold run, initCmd_Run, bind, at_index; simpl. now rewrite Hp. }
  split; [exact Hr | now rewrite Hr].
Qed.

Lemma init_requires_password_witness :
  run (initCmd_Run no_flags ["tester"]) env_ok
  = (Exit 1 "❌ --password flag is required.", [])
  /\ external_calls (snd (run (initCmd_Run no_flags ["tester"]) env_ok)) = [].
Proof. apply init_requires_password. left. reflexivity. Defined.

Ltac init_cbv :=
  cbv beta iota zeta delta
    [run bind ret Printf Println emit log_Fatal at_index nth_error app
     exec_Command cmd_Run cmd_Output start executeCommand executeCommandWithOutput
     os_MkdirAll user_Current os_Getwd initCmd_Run init_repoName init_username
     init_summary init_steps normalized_name whoami_cmd
     terminal_cmd echo command_failed negb].

Lemma initCmd_Run_eq (given : Values) (repoArg : string) (env : Env) :
  run (initCmd_Run given [repoArg]) env = init_summary given repoArg env.
Proof.
  init_cbv.
  destruct (GetString initFlags given "password" =? "") eqn:Hp; [reflexivity|].
  destruct (strings.HasSuffix repoArg ".fossil") eqn:Hs;
    (destruct (GetString initFlags given "user" =? "") eqn:Hu;
     [ cbv beta; rewrite Stdout_Command, Stderr_Command; init_cbv;
       destruct (answer _ _ _) as [o0 [e0|]]; cbv beta iota delta [fst snd];
       [reflexivity|] | ];
     (destruct (answer _ _ _) as [o1 [e1|]]; cbv beta iota delta [fst snd];
      [reflexivity|]);
     (destruct (MkdirAll env _ _ _) as [e2|]; [reflexivity|]);
     (destruct (answer _ _ _) as [o3 [e3|]]; cbv beta iota delta [fst snd];
      [reflexivity|]);
     (destruct (answer _ _ _) as [o4 [e4|]]; cbv beta iota delta [fst snd];
      [reflexivity|]);
     (destruct (answer _ _ _) as [o5 [e5|]]; cbv beta iota delta [fst snd];
      reflexivity)).
Qed.

Lemma Args_whoami_cmd (env : Env) : exec.Args (whoami_cmd env) = ["whoami"].
Proof. unfold whoami_cmd. cbv zeta. simpl. apply Args_Command. Qed.

Lemma Dir_whoami_cmd (env : Env) : exec.Dir (whoami_cmd env) = EmptyString.
Proof. unfold whoami_cmd. cbv zeta. simpl. apply Dir_Command. Qed.

Ltac eval_init_trace :=
  cbv beta iota zeta delta
    [mkdirs commands commands_of external_calls flat_map map app echo fst snd filter init_plan];
  rewrite ?Dir_terminal_cmd, ?Args_terminal_cmd, ?Args_whoami_cmd, ?Dir_whoami_cmd;
  cbv beta iota zeta delta [filter hd snd fst];
  cbn [String.eqb Ascii.eqb Bool.eqb].

(** X4: the [fossil] commands of the Init Workflow follow its plan, with
    the normalized repository name, the user name of the flag when one is
    given, and the password: the run stops at the first failure and
    completes the plan when it returns.  The checkout directory is the
    only directory created, at most once. *)
Lemma init_follows_plan (given : Values) (repoArg : string) (env : Env) :
  exists username,
    (GetString initFlags given "user" <> EmptyString ->
     username = GetString initFlags given "user")
    /\ prefix_of (commands_of "fossil" (snd (run (initCmd_Run given [repoArg]) env)))
         (init_plan (normalized_name repoArg) username
            (GetString initFlags given "password"))
    /\ prefix_of (mkdirs (snd (run (initCmd_Run given [repoArg]) env)))
         [strings.TrimSuffix (normalized_name repoArg) ".fossil"]
    /\ (fst (run (initCmd_Run given [repoArg]) env) = Done tt ->
        commands_of "fossil" (snd (run (initCmd_Run given [repoArg]) env))
        = init_plan (normalized_name repoArg) username
            (GetString initFlags given "password")
        /\ mkdirs (snd (run (initCmd_Run given [repoArg]) env))
           = [strings.TrimSuffix (normalized_name repoArg) ".fossil"]).
Proof.
  rewrite initCmd_Run_eq. unfold init_summary. cbv zeta.
  destruct (GetString initFlags given "password" =? "") eqn:Hp.
  { exists (GetString initFlags given "user"). eval_init_trace.
    repeat split; try discriminate; solve_prefix. }
  assert (Hsteps : forall username tr,
             commands_of "fossil" tr = [] -> mkdirs tr = [] ->
             let res := init_steps (normalized_name repoArg) username
                          (GetString initFlags given "password") env tr in
             prefix_of (commands_of "fossil" (snd res))
               (init_plan (normalized_name repoArg) username
                  (GetString initFlags given "password"))
             /\ prefix_of (mkdirs (snd res))
                  [strings.TrimSuffix (normalized_name repoArg) ".fossil"]
             /\ (fst res = Done tt ->
                 commands_of "fossil" (snd res)
                 = init_plan (normalized_name repoArg) username
                     (GetString initFlags given "password")
                 /\ mkdirs (snd res)
                    = [strings.TrimSuffix (normalized_name repoArg) ".fossil"])).
  { intros username tr Hc Hm. unfold init_steps. cbv zeta.
    assert (Happ_c : forall l, commands_of "fossil" (tr ++ l) = commands_of "fossil" l).
    { intros l. unfold commands_of, commands, external_calls in *.
      rewrite flat_map_app, map_app, filter_app, Hc. reflexivity. }
    assert (Happ_m : forall l, mkdirs (tr ++ l) = mkdirs l).
    { intros l. unfold mkdirs in *. rewrite flat_map_app, Hm. reflexivity. }
    repeat (destruct (answer _ _ _) as [? [?|]]; cbv beta iota delta [fst snd]);
      try (destruct (MkdirAll env _ _ _) as [?|]);
      repeat (destruct (answer _ _ _) as [? [?|]]; cbv beta iota delta [fst snd]);
      repeat rewrite <- app_assoc; rewrite Happ_c, Happ_m;
      eval_init_trace; repeat split; try discriminate; solve_prefix. }
  destruct (GetString initFlags given "user" =? "") eqn:Hu.
  - destruct (answer _ _ _) as [o [e|]] eqn:Ha; cbv beta iota delta [fst snd].
    + exists EmptyString.
      split; [intros H; apply String.eqb_eq in Hu; contradiction|].
      destruct (strings.HasSuffix repoArg ".fossil");
        eval_init_trace; repeat split; try discriminate; solve_prefix.
    + exists (strings.TrimSpace o).
      split; [intros H; apply String.eqb_eq in Hu; contradiction|].
      apply Hsteps;
        destruct (strings.HasSuffix repoArg ".fossil"); eval_init_trace; reflexivity.
  - exists (GetString initFlags given "user").
    split; [reflexivity|].
    apply Hsteps;
      destruct (strings.HasSuffix repoArg ".fossil"); reflexivity.
Qed.

(** ** Transfer Workflow *)

(** Case analysis of a transfer run: the destination flag, the answer to
    [scp], the colon in the destination, the answer to [sftp]. *)
Ltac transfer_cases :=
  rewrite transferCmd_Run_eq;
  unfold transfer_summary, transfer_success;
  rewrite SplitN_2; unfold strings.Contains;
  destruct (GetString transferFlags _ "destination" =? "") eqn:Hdest;
  [ | cbv zeta;
      destruct (answer _ _ (terminal_cmd _ _ "scp" _)) as [out1 [e1|]] eqn:Hscp;
      cbv beta iota delta [fst snd];
      (destruct (strings.Index _ ":") as [m|] eqn:Hcolon;
       [ try (destruct (answer _ _ (sftp_cmd _ _ _)) as [out2 [e2|]] eqn:Hsftp;
              cbv beta iota delta [fst snd]) | ]) ].

(** Evaluation of the readings of a trace whose spine is known. *)
Ltac eval_trace :=
  cbv beta iota zeta delta
    [primary_succeeded primary_failed delivered attempts external_calls commands
     existsb filter flat_map map is_run_of run_failed run_succeeded app
     echo sftp_echo success_banner fst snd List.length andb orb hd_error];
  rewrite ?program_terminal_cmd, ?program_sftp_cmd;
  cbn [String.eqb Ascii.eqb Bool.eqb andb orb negb List.length app].

Lemma Index_slash_none (s : string) :
  strings.Index s "/" = None -> sep_free s = true.
Proof.
  induction s as [|c s IH]; [reflexivity|].
  simpl. unfold strings.HasPrefix. simpl.
  unfold filepath.IsPathSeparator.
  destruct (Ascii.eqb_spec c "/") as [->|Hc].
  - simpl. discriminate.
  - replace (String c "" =? "/") with false.
    + simpl. destruct (strings.Index s "/"); [discriminate|]. intros _. now apply IH.
    + symmetry. apply String.eqb_neq. intros [= E]. contradiction.
Qed.

Lemma plain_name_real (f : string) : plain_name f = true -> real_element f = true.
Proof.
  unfold plain_name, real_element, strings.Contains. intros H.
  apply andb_true_iff in H as [H H3]. apply andb_true_iff in H as [H H2].
  apply andb_true_iff in H as [H0 H1].
  rewrite H1, H2, H3, !andb_true_r.
  apply Index_slash_none. destruct (strings.Index f "/"); [discriminate | reflexivity].
Qed.

(** A plain file name joined onto [/srv/fossil] is appended after a slash. *)
Lemma Join_srv_fossil (f : string) :
  plain_name f = true -> filepath.Join ["/srv/fossil"; f] = "/srv/fossil/" ++ f.
Proof.
  intros H. apply plain_name_real in H.
  rewrite Join_head by discriminate.
  change (strings.Join ["/srv/fossil"; f] "/") with ("/srv/fossil" ++ String "/" f).
  destruct (Clean_buf ("/srv/fossil" ++ String "/" f)) as [-> _]; [discriminate|].
  rewrite elements_append_sep, clean_loop_app.
  rewrite (elements_sep_free f (real_element_sep_free f H)).
  change (filepath.is_rooted ("/srv/fossil" ++ String "/" f)) with true.
  change (filepath.clean_loop true (filepath.elements "/srv/fossil") (filepath.mkbuf [] 0))
    with (filepath.mkbuf ["fossil"; "srv"] 0).
  rewrite clean_loop_reals by (constructor; [exact H | constructor]).
  reflexivity.
Qed.

Section Transfer.

Variables (given : Values) (repoName : string) (env : Env).

(** C1: when [scp] has succeeded, the workflow returns if the destination
    contains a colon, and otherwise panics on [parts[1]] after the banner,
    before the remediation command is printed. *)
Theorem transfer_success_path_needs_colon :
  primary_succeeded (snd (run (transferCmd_Run given [repoName]) env)) = true ->
  (strings.Contains (GetString transferFlags given "destination") ":" = false ->
     fst (run (transferCmd_Run given [repoName]) env)
     = Panic "runtime error: index out of range [1] with length 1"
     /\ exists tr,
          snd (run (transferCmd_Run given [repoName]) env)
          = (tr ++ success_banner (GetString transferFlags given "remote-user"))%list)
  /\ (strings.Contains (GetString transferFlags given "destination") ":" = true ->
      fst (run (transferCmd_Run given [repoName]) env) = Done tt).
Proof.
  transfer_cases; eval_trace; try discriminate.
  - intros _. split; [discriminate | reflexivity].
  - intros _. split; [|discriminate]. intros _. split; [reflexivity|].
    match goal with
    | |- exists tr, ?a :: ?b :: ?c :: _ = _ => exists [a; b; c]
    end.
    reflexivity.
Qed.

(** C3: a destination without a colon whose primary delivery failed ends in
    the fatal format error, and [sftp] was not invoked: the only external
    call was the one to [scp]. *)
Theorem fallback_rejects_destination_without_colon :
  strings.Contains (GetString transferFlags given "destination") ":" = false ->
  primary_failed (snd (run (transferCmd_Run given [repoName]) env)) = true ->
  fst (run (transferCmd_Run given [repoName]) env)
  = Exit 1 "❌ Invalid destination format. Expected user@host:path"
  /\ attempts "sftp" (snd (run (transferCmd_Run given [repoName]) env)) = []
  /\ external_calls (snd (run (transferCmd_Run given [repoName]) env))
     = [terminal_cmd env EmptyString "scp"
          [repoName; GetString transferFlags given "destination"]].
Proof.
  transfer_cases; eval_trace; try discriminate.
  intros _ _. repeat split.
Qed.

(** C4 (amended): each mechanism is attempted at most once; after a failed
    primary delivery the fallback is attempted exactly once when the
    destination contains a colon and not at all when it does not; after a
    successful primary delivery the fallback is not attempted. *)
Theorem transfer_attempts_each_mechanism_at_most_once :
  List.length (attempts "scp" (snd (run (transferCmd_Run given [repoName]) env))) <= 1
  /\ List.length (attempts "sftp" (snd (run (transferCmd_Run given [repoName]) env))) <= 1
  /\ (primary_failed (snd (run (transferCmd_Run given [repoName]) env)) = true ->
      List.length (attempts "sftp" (snd (run (transferCmd_Run given [repoName]) env)))
      = if strings.Contains (GetString transferFlags given "destination") ":"
        then 1 else 0)
  /\ (primary_succeeded (snd (run (transferCmd_Run given [repoName]) env)) = true ->
      attempts "sftp" (snd (run (transferCmd_Run given [repoName]) env)) = []).
Proof.
  transfer_cases; eval_trace; repeat split; auto; discriminate.
Qed.

(** C2 (amended): an empty destination stops the workflow before any
    external call.  A destination that is not empty is handed to [scp]
    first; if it does not split into two parts at a colon, this is reported,
    fatally and before [sftp] could be invoked, once [scp] has failed. *)
Theorem transfer_validation_order :
  (GetString transferFlags given "destination" = EmptyString ->
   run (transferCmd_Run given [repoName]) env
   = (Exit 1 "❌ --destination flag is required.", []))
  /\ (GetString transferFlags given "destination" <> EmptyString ->
      hd_error (external_calls (snd (run (transferCmd_Run given [repoName]) env)))
      = Some (terminal_cmd env EmptyString "scp"
                [repoName; GetString transferFlags given "destination"]))
  /\ (GetString transferFlags given "destination" <> EmptyString ->
      List.length (strings.SplitN (GetString transferFlags given "destination") ":" 2) <> 2 ->
      primary_failed (snd (run (transferCmd_Run given [repoName]) env)) = true ->
      fst (run (transferCmd_Run given [repoName]) env)
      = Exit 1 "❌ Invalid destination format. Expected user@host:path"
      /\ external_calls (snd (run (transferCmd_Run given [repoName]) env))
         = [terminal_cmd env EmptyString "scp"
              [repoName; GetString transferFlags given "destination"]]).
Proof.
  rewrite (SplitN_2 (GetString transferFlags given "destination")).
  transfer_cases; eval_trace;
    [ apply String.eqb_eq in Hdest | apply String.eqb_neq in Hdest .. ];
    repeat match goal with
           | |- _ /\ _ => split
           | |- _ -> _ => intro
           end;
    try reflexivity; try discriminate; congruence.
Qed.

(** X9: the Transfer Workflow returns exactly when a delivery succeeded
    and the destination contains a colon; it panics exactly when [scp]
    succeeded and the destination contains none. *)
Lemma transfer_outcomes :
  (fst (run (transferCmd_Run given [repoName]) env) = Done tt <->
   delivered (snd (run (transferCmd_Run given [repoName]) env)) = true
   /\ strings.Contains (GetString transferFlags given "destination") ":" = true)
  /\ ((exists msg, fst (run (transferCmd_Run given [repoName]) env) = Panic msg) <->
      primary_succeeded (snd (run (transferCmd_Run given [repoName]) env)) = true
      /\ strings.Contains (GetString transferFlags given "destination") ":" = false).
Proof.
  transfer_cases; eval_trace;
    (split; split;
     [ intros H; try discriminate; split; reflexivity
     | intros [H1 H2]; try discriminate; reflexivity
     | intros [msg H]; try discriminate; split; reflexivity
     | intros [H1 H2]; try discriminate; eexists; reflexivity ]).
Qed.

(** C6: for the destination [alice@example.com:/srv/fossil] the workflow
    succeeds exactly when a delivery succeeded, and on success its last two
    lines are the remediation command and a rule.  The command is [ssh -t]
    to [alice@example.com], with a [chown] to the remote user and group and
    a [chmod 664] of the cleaned join of [/srv/fossil] and the file name,
    which is [/srv/fossil/<file>] for a plain file name.  The remote user
    is [www-data] unless the flag is given.  No command other than [scp]
    and [sftp] is ever run: the [ssh] command is only printed. *)
Theorem transfer_prints_remediation :
  given "destination" = Some "alice@example.com:/srv/fossil" ->
  (fst (run (transferCmd_Run given [repoName]) env) = Done tt <->
   delivered (snd (run (transferCmd_Run given [repoName]) env)) = true)
  /\ (fst (run (transferCmd_Run given [repoName]) env) = Done tt ->
      exists tr,
        snd (run (transferCmd_Run given [repoName]) env)
        = (tr ++ [ EvStdout
                     ("ssh -t alice@example.com " ++ dquote ++ "sudo chown "
                      ++ GetString transferFlags given "remote-user" ++ ":"
                      ++ GetString transferFlags given "remote-user" ++ " "
                      ++ filepath.Join ["/srv/fossil"; repoName]
                      ++ " && sudo chmod 664 "
                      ++ filepath.Join ["/srv/fossil"; repoName]
                      ++ dquote ++ newline);
                   EvStdout (rule ++ newline) ])%list)
  /\ (forall c,
        In c (external_calls (snd (run (transferCmd_Run given [repoName]) env))) ->
        program c = "scp" \/ program c = "sftp")
  /\ (given "remote-user" = None ->
      GetString transferFlags given "remote-user" = "www-data")
  /\ (plain_name repoName = true ->
      filepath.Join ["/srv/fossil"; repoName] = "/srv/fossil/" ++ repoName).
Proof.
  intros Hgiven.
  assert (Hd : GetString transferFlags given "destination"
               = "alice@example.com:/srv/fossil").
  { unfold GetString. simpl. now rewrite Hgiven. }
  rewrite transferCmd_Run_eq. unfold transfer_summary, transfer_success.
  rewrite Hd.
  change ("alice@example.com:/srv/fossil" =? "") with false.
  change (strings.SplitN "alice@example.com:/srv/fossil" ":" 2)
    with ["alice@example.com"; "/srv/fossil"].
  cbv beta iota zeta.
  assert (Hdefault : given "remote-user" = None ->
                     GetString transferFlags given "remote-user" = "www-data").
  { intros Hr. unfold GetString. simpl. now rewrite Hr. }
  destruct (answer _ _ (terminal_cmd _ _ "scp" _)) as [out1 [e1|]] eqn:Hscp;
    cbv beta iota delta [fst snd];
    [ destruct (answer _ _ (sftp_cmd _ _ _)) as [out2 [e2|]] eqn:Hsftp;
      cbv beta iota delta [fst snd] | ];
    eval_trace;
    (split; [split; intros H; try discriminate; reflexivity|]);
    (split; [ intros H; try discriminate;
              match goal with
              | |- exists tr, ?l = _ => exists (removelast (removelast l))
              end; reflexivity |]);
    (split; [ intros c Hc; simpl in Hc;
              repeat (destruct Hc as [<-|Hc]);
              try contradiction;
              rewrite ?program_terminal_cmd, ?program_sftp_cmd; auto |]);
    (split; [exact Hdefault | apply Join_srv_fossil]).
Qed.

End Transfer.

(** *** Runs of the Transfer Workflow on concrete inputs *)

Lemma transfer_success_path_needs_colon_witness :
  primary_succeeded (snd (run (transferCmd_Run to_backup ["repo.fossil"]) env_ok)) = true
  /\ fst (run (transferCmd_Run to_backup ["repo.fossil"]) env_ok)
     = Panic "runtime error: index out of range [1] with length 1".
Proof.
  split; [reflexivity|].
  apply (transfer_success_path_needs_colon to_backup "repo.fossil" env_ok);
    reflexivity.
Defined.

Lemma fallback_rejects_destination_without_colon_witness :
  strings.Contains (GetString transferFlags to_backup "destination") ":" = false
  /\ primary_failed (snd (run (transferCmd_Run to_backup ["repo.fossil"]) env_scp_fails)) = true
  /\ attempts "sftp" (snd (run (transferCmd_Run to_backup ["repo.fossil"]) env_scp_fails)) = [].
Proof.
  split; [reflexivity|]. split; [reflexivity|].
  apply (fallback_rejects_destination_without_colon to_backup "repo.fossil" env_scp_fails);
    reflexivity.
Defined.

(** C4 as stated fails: [scp] fails for the destination [backup], and no
    fallback attempt is made. *)
Lemma no_fallback_attempt_without_colon :
  primary_failed (snd (run (transferCmd_Run to_backup ["repo.fossil"]) env_scp_fails)) = true
  /\ List.length (attempts "sftp" (snd (run (transferCmd_Run to_backup ["repo.fossil"])
                                         env_scp_fails))) = 0.
Proof. split; reflexivity. Qed.

(** C2 as stated fails: the destination [backup] does not split into two
    parts, and yet [scp] is run with it before the format error is
    reported. *)
Lemma malformed_destination_reaches_scp :
  List.length (strings.SplitN "backup" ":" 2) = 1
  /\ map exec.Args (external_calls (snd (run (transferCmd_Run to_backup ["repo.fossil"])
                                           env_scp_fails)))
     = [["scp"; "repo.fossil"; "backup"]]
  /\ fst (run (transferCmd_Run to_backup ["repo.fossil"]) env_scp_fails)
     = Exit 1 "❌ Invalid destination format. Expected user@host:path".
Proof. repeat split; reflexivity. Qed.

Lemma transfer_prints_remediation_witness :
  to_alice "destination" = Some "alice@example.com:/srv/fossil"
  /\ delivered (snd (run (transferCmd_Run to_alice ["repo.fossil"]) env_scp_fails)) = true
  /\ fst (run (transferCmd_Run to_alice ["repo.fossil"]) env_scp_fails) = Done tt.
Proof.
  split; [reflexivity|]. split; [reflexivity|].
  apply (transfer_prints_remediation to_alice "repo.fossil" env_scp_fails eq_refl).
  reflexivity.
Defined.

Example remediation_for_alice :
  last (snd (run (transferCmd_Run to_alice ["repo.fossil"]) env_ok)) (EvStdout EmptyString)
  = EvStdout (rule ++ newline)
  /\ In (EvStdout
           ("ssh -t alice@example.com " ++ dquote
            ++ "sudo chown www-data:www-data /srv/fossil/repo.fossil && sudo chmod 664 /srv/fossil/repo.fossil"
            ++ dquote ++ newline))
        (snd (run (transferCmd_Run to_alice ["repo.fossil"]) env_ok)).
Proof. split; [reflexivity|]. simpl. tauto. Qed.

(** [strings.TrimSpace] removes Unicode white space, here a no-break
    space (the bytes [0xC2 0xA0]) before the final line feed, and leaves
    white space inside the text alone. *)
Example TrimSpace_examples :
  strings.TrimSpace ("alice" ++ newline) = "alice"
  /\ strings.TrimSpace
       (" alice" ++ String (ascii_of_nat 194) (String (ascii_of_nat 160) newline))
     = "alice"
  /\ strings.TrimSpace ("  alice smith " ++ newline) = "alice smith"
  /\ strings.TrimSpace (" " ++ newline) = EmptyString.
Proof. repeat split. Qed.

(** ** Clone Workflow *)

Example TrimSuffix_home :
  strings.TrimSuffix "http://example.com/proj/home" "/home" = "http://example.com/proj"
  /\ strings.TrimSuffix "http://example.com/proj/home/home" "/home"
     = "http://example.com/proj/home"
  /\ strings.TrimSuffix "http://example.com/home/proj" "/home"
     = "http://example.com/home/proj".
Proof. repeat split. Qed.

(** What [url.Parse] takes and what it refuses, with the error as the
    workflow prints it: a port, an IPv6 literal with a port, an escaped
    path with its raw form; a second colon in the host, a name between
    square brackets, a space in the host. *)
Example Parse_examples :
  url.Parse "http://example.com:8080/team/proj"
  = Ok (example_URL "example.com:8080" "/team/proj")
  /\ option_map url.Hostname
       (match url.Parse "http://[::1]:8080/proj" with
        | Ok u => Some u
        | Failed _ => None
        end) = Some "::1"
  /\ url.Parse "http://example.com/a%20b"
     = Ok (url.mkURL "http" EmptyString None "example.com" "/a b" EmptyString
             false false EmptyString EmptyString EmptyString)
  /\ url.Parse "http://example.com/a%2Fb"
     = Ok (url.mkURL "http" EmptyString None "example.com" "/a/b" "/a%2Fb"
             false false EmptyString EmptyString EmptyString)
  /\ url.Parse "http://localhost:80:80/proj"
     = Failed ("parse " ++ dquote ++ "http://localhost:80:80/proj" ++ dquote
               ++ ": invalid port " ++ dquote ++ ":80:80" ++ dquote ++ " after host")
  /\ url.Parse "http://[example.com]/proj"
     = Failed ("parse " ++ dquote ++ "http://[example.com]/proj" ++ dquote
               ++ ": invalid host: ParseAddr(" ++ dquote ++ "example.com" ++ dquote
               ++ "): unexpected character (at " ++ dquote ++ "example.com" ++ dquote
               ++ ")")
  /\ url.Parse "http://exam ple.com/proj"
     = Failed ("parse " ++ dquote ++ "http://exam ple.com/proj" ++ dquote
               ++ ": invalid character " ++ dquote ++ " " ++ dquote
               ++ " in host name").
Proof. repeat split. Qed.

Lemma cloneCmd_Run_eq (url_Parse : string -> result url.URL)
  (URL_String : url.URL -> string) (fossilURL : string) (env : Env) :
  run (cloneCmd_Run url_Parse URL_String [fossilURL]) env
  = clone_summary url_Parse URL_String fossilURL env.
Proof.
  run_cbv.
  destruct (url_Parse _) as [u|e]; [|reflexivity].
  destruct (Current env _) as [usr|e]; [|reflexivity].
  fold (clone_urlPath u). fold (clone_targetDir u usr).
  fold (clone_repoBaseName u). fold (clone_checkoutDir u usr).
  fold (clone_fossilFileName u).
  destruct (MkdirAll env _ _ _) as [e|]; [reflexivity|].
  destruct (answer _ _ _) as [o1 [e|]]; cbv beta iota delta [fst snd]; [reflexivity|].
  destruct (MkdirAll env _ _ _) as [e|]; [reflexivity|].
  destruct (answer _ _ _) as [o2 [e|]]; reflexivity.
Qed.

(** Joining [.] onto a joined path gives the path back. *)
Lemma Join_dot (l : list string) :
  some_nonempty l = true -> filepath.Join [filepath.Join l; "."] = filepath.Join l.
Proof.
  intros H. rewrite Join_Join by exact H. now apply Join_snoc_dot.
Qed.

Lemma some_nonempty_fossils (home host : string) (rest : list string) :
  some_nonempty (home :: "fossils" :: host :: rest) = true.
Proof. unfold some_nonempty. simpl. now rewrite orb_true_r. Qed.

(** Evaluation of the readings of a clone trace whose spine is known. *)
Ltac eval_clone_trace :=
  cbv beta iota zeta delta
    [mkdirs commands external_calls flat_map map app echo fst snd
     clone_plan_dirs clone_plan_commands];
  rewrite ?Dir_terminal_cmd, ?Args_terminal_cmd.

Ltac clone_cases url_Parse URL_String fossilURL env :=
  remember (run (cloneCmd_Run url_Parse URL_String [fossilURL]) env) as res eqn:Eres;
  rewrite cloneCmd_Run_eq in Eres; revert Eres;
  unfold clone_summary; cbv zeta;
  destruct (url_Parse (strings.TrimSuffix fossilURL "/home")) as [u0|perr] eqn:Hparsed;
  [ destruct (Current env _) as [usr0|uerr] eqn:Hcurrent;
    [ repeat first
        [ destruct (answer _ _ _) as [? [?|]]; cbv beta iota
        | destruct (MkdirAll _ _ _ _) as [?|] ]
    | ]
  | ];
  intros ->; cbv beta iota delta [fst snd].

Ltac eval_calls_list :=
  cbv beta iota zeta delta
    [calls mkdirs commands external_calls flat_map map app echo fst snd hd_error
     clone_plan all_calls_succeeded call_failed forallb negb andb];
  rewrite ?Dir_terminal_cmd, ?Args_terminal_cmd.

Section Clone_shape.

Variable url_Parse : string -> result url.URL.
Variable URL_String : url.URL -> string.
Variables (fossilURL : string) (env : Env).

(** The run of the Clone Workflow once the URL has parsed and the user
    has been looked up: the target directory is announced and created;
    the calls are made in the order of the plan, each one only after the
    one before it succeeded, so that the run returns exactly when all of
    them succeeded and otherwise ends, fatally, with the failed call. *)
Lemma clone_run_shape (u : url.URL) (usr : user.User) :
  url_Parse (strings.TrimSuffix fossilURL "/home") = Ok u ->
  In (EvUserCurrent (Ok usr))
     (snd (run (cloneCmd_Run url_Parse URL_String [fossilURL]) env)) ->
  let res := run (cloneCmd_Run url_Parse URL_String [fossilURL]) env in
  let plan :=
    clone_plan (clone_targetDir u usr) (clone_checkoutDir u usr)
      (URL_String (url.set_User u (url.UserOf (user.Username usr))))
      (clone_fossilFileName u) in
  In (EvStdout ("ℹ️  Local target directory will be: " ++ clone_targetDir u usr
                ++ newline)) (snd res)
  /\ hd_error (calls (snd res)) = Some (CallMkdirAll (clone_targetDir u usr))
  /\ prefix_of (calls (snd res)) plan
  /\ (fst res = Done tt <-> all_calls_succeeded (snd res) = true)
  /\ (fst res = Done tt ->
      calls (snd res) = plan
      /\ last (snd res) (EvStdout EmptyString)
         = EvStdout ("✅ Success! Repo cloned and opened in: "
                     ++ clone_checkoutDir u usr ++ newline))
  /\ (fst res <> Done tt ->
      exists msg tr e,
        fst res = Exit 1 msg
        /\ snd res = (tr ++ [e])%list
        /\ call_failed e = true
        /\ all_calls_succeeded tr = true).
Proof.
  intros Hu Hin res plan. revert Hin. subst res plan.
  clone_cases url_Parse URL_String fossilURL env; try discriminate.
  all: injection Hu as <-.
  all: intros Hin; cbv beta iota delta [app] in Hin; simpl in Hin;
       repeat (destruct Hin as [Hin|Hin]; try discriminate Hin);
       try contradiction; injection Hin as <-.
  all: split; [cbv beta iota delta [app]; simpl; tauto|].
  all: eval_calls_list.
  all: split; [reflexivity|].
  all: split; [solve_prefix|].
  all: split; [split; intros H; try discriminate; reflexivity|].
  all: split;
    [ intros H; try discriminate; split; reflexivity
    | intros H; try (exfalso; apply H; reflexivity);
      match goal with
      | |- exists msg tr e, (Exit 1 ?m = _) /\ (?l = _) /\ _ =>
          exists m, (removelast l), (last l (EvStdout EmptyString))
      end; repeat split ].
Qed.

End Clone_shape.

Section Clone_properties.

Variable url_Parse : string -> result url.URL.
Variable URL_String : url.URL -> string.
Variables (fossilURL : string) (env : Env).

(** What the Clone Workflow creates and runs follows its plan: it stops
    early on the first failure, and completes the plan when it returns. *)
Lemma clone_follows_plan (u : url.URL) (usr : user.User) :
  url_Parse (strings.TrimSuffix fossilURL "/home") = Ok u ->
  In (EvUserCurrent (Ok usr))
     (snd (run (cloneCmd_Run url_Parse URL_String [fossilURL]) env)) ->
  let dirs := clone_plan_dirs (clone_targetDir u usr) (clone_checkoutDir u usr) in
  let cmds :=
    clone_plan_commands (clone_targetDir u usr) (clone_checkoutDir u usr)
      (URL_String (url.set_User u (url.UserOf (user.Username usr))))
      (clone_fossilFileName u) in
  prefix_of (mkdirs (snd (run (cloneCmd_Run url_Parse URL_String [fossilURL]) env))) dirs
  /\ prefix_of (commands (snd (run (cloneCmd_Run url_Parse URL_String [fossilURL]) env))) cmds
  /\ (fst (run (cloneCmd_Run url_Parse URL_String [fossilURL]) env) = Done tt ->
      mkdirs (snd (run (cloneCmd_Run url_Parse URL_String [fossilURL]) env)) = dirs
      /\ commands (snd (run (cloneCmd_Run url_Parse URL_String [fossilURL]) env)) = cmds).
Proof.
  intros Hparse. rewrite cloneCmd_Run_eq. unfold clone_summary. rewrite Hparse.
  cbv zeta.
  destruct (Current env _) as [usr0|e0] eqn:Hcur.
  2:{ simpl. intros [H|[H|[]]]; discriminate. }
  intros Hin.
  assert (usr0 = usr) as ->.
  { destruct (MkdirAll env _ (clone_targetDir u usr0) _);
      [ simpl in Hin; repeat (destruct Hin as [Hin|Hin]; try discriminate);
        try contradiction; congruence |].
    destruct (answer _ _ _) as [? [?|]];
      [ simpl in Hin; repeat (destruct Hin as [Hin|Hin]; try discriminate);
        try contradiction; congruence |].
    destruct (MkdirAll env _ (clone_checkoutDir u usr0) _);
      [ simpl in Hin; repeat (destruct Hin as [Hin|Hin]; try discriminate);
        try contradiction; congruence |].
    destruct (answer _ _ _) as [? [?|]];
      simpl in Hin; repeat (destruct Hin as [Hin|Hin]; try discriminate);
        try contradiction; congruence. }
  clear Hin.
  destruct (MkdirAll env _ (clone_targetDir u usr) _) as [e1|];
    [ eval_clone_trace; repeat split; try discriminate; solve_prefix |].
  destruct (answer _ _ _) as [o1 [e2|]]; cbv beta iota delta [fst snd];
    [ eval_clone_trace; repeat split; try discriminate; solve_prefix |].
  destruct (MkdirAll env _ (clone_checkoutDir u usr) _) as [e3|];
    [ eval_clone_trace; repeat split; try discriminate; solve_prefix |].
  destruct (answer _ _ _) as [o2 [e4|]]; cbv beta iota delta [fst snd];
    eval_clone_trace; repeat split; try discriminate; solve_prefix.
Qed.

(** C8: a URL that ends in [/home] loses exactly that suffix, once; any
    other URL is left as it is; and the stripped string is what the
    workflow echoes and what it parses: replacing the parser by one that
    answers every question with the parse of the stripped string changes
    nothing, and a parse error of the stripped string is the fatal error
    reported. *)
Theorem clone_strips_home_once :
  (strings.HasSuffix fossilURL "/home" = true ->
   strings.TrimSuffix fossilURL "/home" ++ "/home" = fossilURL)
  /\ (strings.HasSuffix fossilURL "/home" = false ->
      strings.TrimSuffix fossilURL "/home" = fossilURL)
  /\ run (cloneCmd_Run url_Parse URL_String [fossilURL]) env
     = run (cloneCmd_Run (fun _ => url_Parse (strings.TrimSuffix fossilURL "/home"))
              URL_String [fossilURL]) env
  /\ hd_error (snd (run (cloneCmd_Run url_Parse URL_String [fossilURL]) env))
     = Some (EvStdout ("🚀 Cloning from '" ++ strings.TrimSuffix fossilURL "/home"
                       ++ "'..." ++ newline))
  /\ (forall e, url_Parse (strings.TrimSuffix fossilURL "/home") = Failed e ->
      fst (run (cloneCmd_Run url_Parse URL_String [fossilURL]) env)
      = Exit 1 ("❌ Invalid URL: " ++ e)).
Proof.
  split; [apply TrimSuffix_spec|].
  split; [apply TrimSuffix_none|].
  split; [reflexivity|].
  rewrite cloneCmd_Run_eq. unfold clone_summary. cbv zeta.
  destruct (url_Parse _) as [u|e0].
  - split; [|discriminate].
    destruct (Current env _) as [usr|e1]; [|reflexivity].
    destruct (MkdirAll env _ (clone_targetDir u usr) _); [reflexivity|].
    destruct (answer _ _ _) as [? [?|]]; [reflexivity|].
    destruct (MkdirAll env _ (clone_checkoutDir u usr) _); [reflexivity|].
    destruct (answer _ _ _) as [? [?|]]; reflexivity.
  - split; [reflexivity|]. now intros e [= ->].
Qed.

(** C10: when the path of the parsed URL is empty or [/], the relative path
    is empty and its base is [.], so the repository base name is [.], the
    repository file is [..fossil], and the checkout directory is the target
    directory [<home>/fossils/<host>] itself: both directory creations and
    both commands use that one directory.  The run announces that
    directory and creates it first; it makes its calls in the order
    create, clone, create, open, each only after the one before succeeded;
    it returns exactly when all of them succeeded, having made the four
    calls and named that directory in its last line, and otherwise exits
    with the failed call as its last event. *)
Theorem clone_empty_path_uses_target_dir (u : url.URL) (usr : user.User) :
  url_Parse (strings.TrimSuffix fossilURL "/home") = Ok u ->
  url.Path u = EmptyString \/ url.Path u = "/" ->
  In (EvUserCurrent (Ok usr))
     (snd (run (cloneCmd_Run url_Parse URL_String [fossilURL]) env)) ->
  let targetDir := filepath.Join [user.HomeDir usr; "fossils"; url.Hostname u] in
  let cmds :=
    [ (targetDir,
       ["fossil"; "clone";
        URL_String (url.set_User u (url.UserOf (user.Username usr))); "..fossil"]);
      (targetDir, ["fossil"; "open"; "../..fossil"]) ] in
  let plan :=
    [ CallMkdirAll targetDir;
      CallRun targetDir
        ["fossil"; "clone";
         URL_String (url.set_User u (url.UserOf (user.Username usr))); "..fossil"];
      CallMkdirAll targetDir;
      CallRun targetDir ["fossil"; "open"; "../..fossil"] ] in
  clone_urlPath u = EmptyString
  /\ filepath.Base (clone_urlPath u) = "."
  /\ clone_repoBaseName u = "."
  /\ clone_fossilFileName u = "..fossil"
  /\ clone_targetDir u usr = targetDir
  /\ clone_checkoutDir u usr = targetDir
  /\ (filepath.Clean (user.HomeDir usr) = user.HomeDir usr ->
      filepath.is_rooted (user.HomeDir usr) = true -> user.HomeDir usr <> "/" ->
      real_element (url.Hostname u) = true ->
      targetDir = user.HomeDir usr ++ "/fossils/" ++ url.Hostname u)
  /\ prefix_of (mkdirs (snd (run (cloneCmd_Run url_Parse URL_String [fossilURL]) env)))
       [targetDir; targetDir]
  /\ prefix_of (commands (snd (run (cloneCmd_Run url_Parse URL_String [fossilURL]) env)))
       cmds
  /\ (fst (run (cloneCmd_Run url_Parse URL_String [fossilURL]) env) = Done tt ->
      mkdirs (snd (run (cloneCmd_Run url_Parse URL_String [fossilURL]) env))
      = [targetDir; targetDir]
      /\ commands (snd (run (cloneCmd_Run url_Parse URL_String [fossilURL]) env)) = cmds)
  /\ In (EvStdout ("ℹ️  Local target directory will be: " ++ targetDir ++ newline))
        (snd (run (cloneCmd_Run url_Parse URL_String [fossilURL]) env))
  /\ hd_error (calls (snd (run (cloneCmd_Run url_Parse URL_String [fossilURL]) env)))
     = Some (CallMkdirAll targetDir)
  /\ prefix_of (calls (snd (run (cloneCmd_Run url_Parse URL_String [fossilURL]) env)))
       plan
  /\ (fst (run (cloneCmd_Run url_Parse URL_String [fossilURL]) env) = Done tt <->
      all_calls_succeeded (snd (run (cloneCmd_Run url_Parse URL_String [fossilURL]) env))
      = true)
  /\ (fst (run (cloneCmd_Run url_Parse URL_String [fossilURL]) env) = Done tt ->
      calls (snd (run (cloneCmd_Run url_Parse URL_String [fossilURL]) env)) = plan
      /\ last (snd (run (cloneCmd_Run url_Parse URL_String [fossilURL]) env))
              (EvStdout EmptyString)
         = EvStdout ("✅ Success! Repo cloned and opened in: " ++ targetDir ++ newline))
  /\ (fst (run (cloneCmd_Run url_Parse URL_String [fossilURL]) env) <> Done tt ->
      exists msg tr e,
        fst (run (cloneCmd_Run url_Parse URL_String [fossilURL]) env) = Exit 1 msg
        /\ snd (run (cloneCmd_Run url_Parse URL_String [fossilURL]) env) = (tr ++ [e])%list
        /\ call_failed e = true
        /\ all_calls_succeeded tr = true).
Proof.
  intros Hparse Hpath Hin targetDir cmds plan.
  assert (Hp : clone_urlPath u = EmptyString).
  { unfold clone_urlPath. destruct Hpath as [-> | ->]; reflexivity. }
  assert (Hbase : clone_repoBaseName u = ".").
  { unfold clone_repoBaseName. now rewrite Hp. }
  assert (Hfile : clone_fossilFileName u = "..fossil").
  { unfold clone_fossilFileName. now rewrite Hbase. }
  assert (Htarget : clone_targetDir u usr = targetDir).
  { unfold clone_targetDir. rewrite Hp.
    change (filepath.Dir "") with ".".
    apply (Join_snoc_dot [user.HomeDir usr; "fossils"; url.Hostname u]).
    apply some_nonempty_fossils. }
  assert (Hcheckout : clone_checkoutDir u usr = targetDir).
  { unfold clone_checkoutDir. rewrite Htarget, Hbase.
    apply Join_dot, some_nonempty_fossils. }
  pose proof (clone_follows_plan u usr Hparse Hin) as Hplan.
  cbv zeta in Hplan.
  unfold clone_plan_dirs, clone_plan_commands in Hplan.
  rewrite Htarget, Hcheckout, Hfile in Hplan.
  change (filepath.Join [".."; "..fossil"]) with "../..fossil" in Hplan.
  destruct Hplan as (Hdirs & Hcmds & Hdone).
  split; [exact Hp|]. split; [now rewrite Hp|].
  do 4 (split; [assumption|]).
  split.
  { intros Hclean Hroot Hnot Hhost.
    apply (Join_onto_clean _ ["fossils"; url.Hostname u] Hclean Hroot Hnot);
      [discriminate | repeat constructor; assumption]. }
  repeat (split; [assumption|]).
  pose proof (clone_run_shape url_Parse URL_String fossilURL env u usr Hparse Hin)
    as Hshape.
  cbv zeta in Hshape. unfold clone_plan in Hshape.
  rewrite Htarget, Hcheckout, Hfile in Hshape.
  change (filepath.Join [".."; "..fossil"]) with "../..fossil" in Hshape.
  exact Hshape.
Qed.

End Clone_properties.

(** C5: for [http://example.com/proj/home] the URL parsed is
    [http://example.com/proj], with host [example.com] and path [/proj];
    the target directory is [<home>/fossils/example.com], the repository
    file [proj.fossil], the checkout directory
    [<home>/fossils/example.com/proj]; the workflow creates these two
    directories, clones into [proj.fossil] in the first and opens
    [../proj.fossil] in the second.  The run announces the target
    directory and creates it first; it makes its calls in the order
    create, clone, create, open, each only after the one before succeeded;
    it returns exactly when all of them succeeded, having made the four
    calls and named the checkout directory in its last line, and
    otherwise exits with the failed call as its last event. *)
Theorem clone_example_layout (URL_String : url.URL -> string) (env : Env)
  (usr : user.User) :
  In (EvUserCurrent (Ok usr))
     (snd (run (cloneCmd_Run url.Parse URL_String ["http://example.com/proj/home"]) env)) ->
  let res := run (cloneCmd_Run url.Parse URL_String ["http://example.com/proj/home"]) env in
  let targetDir := filepath.Join [user.HomeDir usr; "fossils"; "example.com"] in
  let checkoutDir := filepath.Join [user.HomeDir usr; "fossils"; "example.com"; "proj"] in
  exists u,
    url.Parse (strings.TrimSuffix "http://example.com/proj/home" "/home") = Ok u
    /\ url.Hostname u = "example.com" /\ url.Path u = "/proj"
    /\ clone_targetDir u usr = targetDir
    /\ clone_fossilFileName u = "proj.fossil"
    /\ clone_checkoutDir u usr = checkoutDir
    /\ (filepath.Clean (user.HomeDir usr) = user.HomeDir usr ->
        filepath.is_rooted (user.HomeDir usr) = true -> user.HomeDir usr <> "/" ->
        targetDir = user.HomeDir usr ++ "/fossils/example.com"
        /\ checkoutDir = user.HomeDir usr ++ "/fossils/example.com/proj")
    /\ prefix_of (mkdirs (snd res)) [targetDir; checkoutDir]
    /\ prefix_of (commands (snd res))
         [ (targetDir,
            ["fossil"; "clone";
             URL_String (url.set_User u (url.UserOf (user.Username usr)));
             "proj.fossil"]);
           (checkoutDir, ["fossil"; "open"; "../proj.fossil"]) ]
    /\ (fst res = Done tt ->
        mkdirs (snd res) = [targetDir; checkoutDir]
        /\ commands (snd res)
           = [ (targetDir,
                ["fossil"; "clone";
                 URL_String (url.set_User u (url.UserOf (user.Username usr)));
                 "proj.fossil"]);
               (checkoutDir, ["fossil"; "open"; "../proj.fossil"]) ])
    /\ In (EvStdout ("ℹ️  Local target directory will be: " ++ targetDir ++ newline))
          (snd res)
    /\ hd_error (calls (snd res)) = Some (CallMkdirAll targetDir)
    /\ prefix_of (calls (snd res))
         [ CallMkdirAll targetDir;
           CallRun targetDir
             ["fossil"; "clone";
              URL_String (url.set_User u (url.UserOf (user.Username usr)));
              "proj.fossil"];
           CallMkdirAll checkoutDir;
           CallRun checkoutDir ["fossil"; "open"; "../proj.fossil"] ]
    /\ (fst res = Done tt <-> all_calls_succeeded (snd res) = true)
    /\ (fst res = Done tt ->
        calls (snd res)
        = [ CallMkdirAll targetDir;
            CallRun targetDir
              ["fossil"; "clone";
               URL_String (url.set_User u (url.UserOf (user.Username usr)));
               "proj.fossil"];
            CallMkdirAll checkoutDir;
            CallRun checkoutDir ["fossil"; "open"; "../proj.fossil"] ]
        /\ last (snd res) (EvStdout EmptyString)
           = EvStdout ("✅ Success! Repo cloned and opened in: " ++ checkoutDir
                       ++ newline))
    /\ (fst res <> Done tt ->
        exists msg tr e,
          fst res = Exit 1 msg
          /\ snd res = (tr ++ [e])%list
          /\ call_failed e = true
          /\ all_calls_succeeded tr = true).
Proof.
  intros Hin res targetDir checkoutDir.
  set (u := url.mkURL "http" EmptyString None "example.com" "/proj" EmptyString
              false false EmptyString EmptyString EmptyString).
  assert (Hparse : url.Parse (strings.TrimSuffix "http://example.com/proj/home" "/home")
                   = Ok u) by reflexivity.
  exists u.
  assert (Htarget : clone_targetDir u usr = targetDir).
  { unfold clone_targetDir.
    change (filepath.Dir (clone_urlPath u)) with ".".
    change (url.Hostname u) with "example.com".
    apply (Join_snoc_dot [user.HomeDir usr; "fossils"; "example.com"]).
    apply some_nonempty_fossils. }
  assert (Hfile : clone_fossilFileName u = "proj.fossil") by reflexivity.
  assert (Hcheckout : clone_checkoutDir u usr = checkoutDir).
  { unfold clone_checkoutDir. rewrite Htarget.
    change (clone_repoBaseName u) with "proj".
    apply (Join_Join [user.HomeDir usr; "fossils"; "example.com"]).
    apply some_nonempty_fossils. }
  pose proof (clone_follows_plan url.Parse URL_String _ env u usr Hparse Hin) as Hplan.
  cbv zeta in Hplan.
  unfold clone_plan_dirs, clone_plan_commands in Hplan.
  rewrite Htarget, Hcheckout, Hfile in Hplan.
  change (filepath.Join [".."; "proj.fossil"]) with "../proj.fossil" in Hplan.
  destruct Hplan as (Hdirs & Hcmds & Hdone).
  split; [exact Hparse|]. split; [reflexivity|]. split; [reflexivity|].
  do 3 (split; [assumption|]).
  split.
  { intros Hclean Hroot Hnot. split.
    - apply (Join_onto_clean _ ["fossils"; "example.com"] Hclean Hroot Hnot);
        [discriminate | repeat constructor].
    - apply (Join_onto_clean _ ["fossils"; "example.com"; "proj"] Hclean Hroot Hnot);
        [discriminate | repeat constructor]. }
  repeat (split; [assumption|]).
  pose proof (clone_run_shape url.Parse URL_String _ env u usr Hparse Hin) as Hshape.
  cbv zeta in Hshape. unfold clone_plan in Hshape.
  rewrite Htarget, Hcheckout, Hfile in Hshape.
  change (filepath.Join [".."; "proj.fossil"]) with "../proj.fossil" in Hshape.
  exact Hshape.
Qed.

Lemma clone_example_layout_witness :
  In (EvUserCurrent (Ok alice))
     (snd (run (cloneCmd_Run url.Parse simple_URL_String
                  ["http://example.com/proj/home"]) env_ok))
  /\ fst (run (cloneCmd_Run url.Parse simple_URL_String
                 ["http://example.com/proj/home"]) env_ok) = Done tt
  /\ calls (snd (run (cloneCmd_Run url.Parse simple_URL_String
                        ["http://example.com/proj/home"]) env_ok))
     = [ CallMkdirAll "/home/alice/fossils/example.com";
         CallRun "/home/alice/fossils/example.com"
           ["fossil"; "clone"; "http://alice@example.com/proj"; "proj.fossil"];
         CallMkdirAll "/home/alice/fossils/example.com/proj";
         CallRun "/home/alice/fossils/example.com/proj"
           ["fossil"; "open"; "../proj.fossil"] ]
  /\ last (snd (run (cloneCmd_Run url.Parse simple_URL_String
                       ["http://example.com/proj/home"]) env_ok))
          (EvStdout EmptyString)
     = EvStdout ("✅ Success! Repo cloned and opened in: "
                 ++ "/home/alice/fossils/example.com/proj" ++ newline).
Proof.
  assert (Hin : In (EvUserCurrent (Ok alice))
                  (snd (run (cloneCmd_Run url.Parse simple_URL_String
                               ["http://example.com/proj/home"]) env_ok))).
  { right. left. reflexivity. }
  destruct (clone_example_layout simple_URL_String env_ok alice Hin)
    as (u & Hparse & _ & _ & _ & _ & _ & _ & _ & _ & _ & _ & _ & _ & Hiff & Hdone & _).
  assert (Hret : fst (run (cloneCmd_Run url.Parse simple_URL_String
                             ["http://example.com/proj/home"]) env_ok) = Done tt)
    by (apply Hiff; reflexivity).
  assert (Hu : url.Parse (strings.TrimSuffix "http://example.com/proj/home" "/home")
               = Ok (example_URL "example.com" "/proj")) by reflexivity.
  rewrite Hu in Hparse. injection Hparse as <-.
  split; [exact Hin|]. split; [exact Hret|]. exact (Hdone Hret).
Defined.

Lemma clone_empty_path_uses_target_dir_witness :
  url.Parse (strings.TrimSuffix "http://example.com/" "/home")
  = Ok (example_URL "example.com" "/")
  /\ In (EvUserCurrent (Ok alice))
        (snd (run (cloneCmd_Run url.Parse simple_URL_String ["http://example.com/"]) env_ok))
  /\ fst (run (cloneCmd_Run url.Parse simple_URL_String ["http://example.com/"]) env_ok)
     = Done tt
  /\ calls (snd (run (cloneCmd_Run url.Parse simple_URL_String
                        ["http://example.com/"]) env_ok))
     = [ CallMkdirAll "/home/alice/fossils/example.com";
         CallRun "/home/alice/fossils/example.com"
           ["fossil"; "clone"; "http://alice@example.com/"; "..fossil"];
         CallMkdirAll "/home/alice/fossils/example.com";
         CallRun "/home/alice/fossils/example.com" ["fossil"; "open"; "../..fossil"] ]
  /\ last (snd (run (cloneCmd_Run url.Parse simple_URL_String
                       ["http://example.com/"]) env_ok))
          (EvStdout EmptyString)
     = EvStdout ("✅ Success! Repo cloned and opened in: "
                 ++ "/home/alice/fossils/example.com" ++ newline).
Proof.
  assert (Hin : In (EvUserCurrent (Ok alice))
                  (snd (run (cloneCmd_Run url.Parse simple_URL_String
                               ["http://example.com/"]) env_ok))).
  { right. left. reflexivity. }
  split; [reflexivity|]. split; [exact Hin|].
  destruct (clone_empty_path_uses_target_dir url.Parse simple_URL_String
              "http://example.com/" env_ok (example_URL "example.com" "/") alice
              eq_refl (or_intror eq_refl) Hin)
    as (_ & _ & _ & _ & _ & _ & _ & _ & _ & _ & _ & _ & _ & Hiff & Hdone & _).
  assert (Hret : fst (run (cloneCmd_Run url.Parse simple_URL_String
                             ["http://example.com/"]) env_ok) = Done tt)
    by (apply Hiff; reflexivity).
  split; [exact Hret|]. exact (Hdone Hret).
Defined.

Example clone_example_run :
  mkdirs (snd (run (cloneCmd_Run url.Parse simple_URL_String
                      ["http://example.com/proj/home"]) env_ok))
  = ["/home/alice/fossils/example.com"; "/home/alice/fossils/example.com/proj"]
  /\ commands (snd (run (cloneCmd_Run url.Parse simple_URL_String
                          ["http://example.com/proj/home"]) env_ok))
     = [ ("/home/alice/fossils/example.com",
          ["fossil"; "clone"; "http://alice@example.com/proj"; "proj.fossil"]);
         ("/home/alice/fossils/example.com/proj",
          ["fossil"; "open"; "../proj.fossil"]) ].
Proof. split; reflexivity. Qed.

Example clone_root_url_run :
  mkdirs (snd (run (cloneCmd_Run url.Parse simple_URL_String
                      ["http://example.com"]) env_ok))
  = ["/home/alice/fossils/example.com"; "/home/alice/fossils/example.com"]
  /\ commands (snd (run (cloneCmd_Run url.Parse simple_URL_String
                          ["http://example.com"]) env_ok))
     = [ ("/home/alice/fossils/example.com",
          ["fossil"; "clone"; "http://alice@example.com"; "..fossil"]);
         ("/home/alice/fossils/example.com", ["fossil"; "open"; "../..fossil"]) ].
Proof. split; reflexivity. Qed.

(** * Further properties *)

(** ** The process runner *)

(** X3: when the executable is not found on the search path, no process
    is started: [executeCommand] echoes the command as it was given, name
    first, and returns the lookup error behind the prefix of line 58.  The
    result is the same in every environment with the same search path,
    whatever its processes would do. *)
Theorem executeCommand_missing_executable (workingDir commandName : string)
  (args : list string) (env : Env) (tr : list event) (e : string) :
  filepath.Base commandName = commandName ->
  LookPath env commandName = Failed e ->
  exists c,
    executeCommand workingDir commandName args env tr
    = (Done (Some ("❌ command failed: " ++ e)),
       (tr ++ [ EvStdout ("▶️  Executing: " ++ strings.Join (commandName :: args) " "
                          ++ newline);
                EvRun c EmptyString (Some e) ])%list)
    /\ exec.Err c = Some e
    /\ forall env',
         LookPath env' = LookPath env ->
         executeCommand workingDir commandName args env' tr
         = executeCommand workingDir commandName args env tr.
Proof.
  intros Hbase Hlook.
  assert (Hcmd : forall env', LookPath env' = LookPath env ->
            terminal_cmd env' workingDir commandName args
            = exec.mkCmd commandName (commandName :: args) workingDir
                exec.Inherit exec.Inherit exec.Inherit (Some e)).
  { intros env' Heq. unfold terminal_cmd, exec.Command. rewrite Heq, Hbase, String.eqb_refl, Hlook.
    destruct (workingDir =? "") eqn:Hw; [|reflexivity].
    apply String.eqb_eq in Hw. now subst. }
  assert (Hrun : forall env', LookPath env' = LookPath env ->
            executeCommand workingDir commandName args env' tr
            = (Done (Some ("❌ command failed: " ++ e)),
               (tr ++ [ EvStdout ("▶️  Executing: " ++ strings.Join (commandName :: args) " "
                                  ++ newline);
                        EvRun (exec.mkCmd commandName (commandName :: args) workingDir
                                 exec.Inherit exec.Inherit exec.Inherit (Some e))
                              EmptyString (Some e) ])%list)).
  { intros env' Heq. rewrite executeCommand_eq. cbv zeta. rewrite (Hcmd env' Heq).
    reflexivity. }
  eexists. split; [apply Hrun; reflexivity|].
  split; [reflexivity|].
  intros env' Heq. rewrite (Hrun env' Heq), (Hrun env eq_refl). reflexivity.
Qed.

Lemma executeCommand_missing_executable_witness :
  exists c,
    executeCommand EmptyString "fossil" ["new"; "x.fossil"] env_no_fossil []
    = (Done (Some ("❌ command failed: exec: " ++ dquote ++ "fossil" ++ dquote
                   ++ ": executable file not found in $PATH")),
       [ EvStdout ("▶️  Executing: fossil new x.fossil" ++ newline);
         EvRun c EmptyString
           (Some ("exec: " ++ dquote ++ "fossil" ++ dquote
                  ++ ": executable file not found in $PATH")) ]).
Proof.
  destruct (executeCommand_missing_executable EmptyString "fossil" ["new"; "x.fossil"]
              env_no_fossil [] _ eq_refl eq_refl) as (c & H & _).
  exists c. exact H.
Defined.

(** ** Outcomes of the Init Workflow *)

Ltac init_cases given repoArg env :=
  remember (run (initCmd_Run given [repoArg]) env) as res eqn:Eres;
  rewrite initCmd_Run_eq in Eres; revert Eres;
  unfold init_summary, init_steps; cbv zeta;
  destruct (GetString initFlags given "password" =? "") eqn:Hpass;
  [ | unfold normalized_name;
      destruct (strings.HasSuffix repoArg ".fossil") eqn:Hsuffix;
      (destruct (GetString initFlags given "user" =? "") eqn:Huser;
       [ destruct (answer _ _ _) as [out0 [e0|]]; cbv beta iota | ]);
      repeat first
        [ destruct (answer _ _ _) as [? [?|]]; cbv beta iota
        | destruct (MkdirAll _ _ _ _) as [?|] ];
      try (destruct (Getwd _ _) as [cwd cwderr]) ];
  intros ->; cbv beta iota delta [fst snd].

Ltac eval_calls :=
  cbv beta iota zeta delta
    [all_calls_succeeded call_failed forallb negb andb app echo fst snd].

(** X7: with a password, the Init Workflow returns exactly when every
    command and the directory creation succeeded; it never panics.  When it
    does not return it exits with status 1, and the failed call is the last
    event of the trace: nothing is run, created or printed after it.  When
    it returns, the last line names the checkout directory joined onto the
    working directory; the error of [os.Getwd] plays no part. *)
Theorem init_returns_iff_all_calls_succeed (given : Values) (repoArg : string) (env : Env) :
  GetString initFlags given "password" <> EmptyString ->
  (fst (run (initCmd_Run given [repoArg]) env) = Done tt <->
   all_calls_succeeded (snd (run (initCmd_Run given [repoArg]) env)) = true)
  /\ (fst (run (initCmd_Run given [repoArg]) env) <> Done tt ->
      exists msg tr e,
        fst (run (initCmd_Run given [repoArg]) env) = Exit 1 msg
        /\ snd (run (initCmd_Run given [repoArg]) env) = (tr ++ [e])%list
        /\ call_failed e = true
        /\ all_calls_succeeded tr = true)
  /\ (fst (run (initCmd_Run given [repoArg]) env) = Done tt ->
      exists tr cwd err,
        snd (run (initCmd_Run given [repoArg]) env)
        = (tr ++ [ EvGetwd cwd err;
                   EvStdout ("✅ Success! Repository initialized and opened in: "
                             ++ filepath.Join
                                  [cwd; strings.TrimSuffix (normalized_name repoArg) ".fossil"]
                             ++ newline) ])%list).
Proof.
  intros Hpw.
  init_cases given repoArg env.
  { apply String.eqb_eq in Hpass. contradiction. }
  all: eval_calls.
  all: split; [split; intros H; try discriminate; reflexivity|].
  all: split;
    [ intros H; try (exfalso; apply H; reflexivity);
      match goal with
      | |- exists msg tr e, (Exit 1 ?m = _) /\ (?l = _) /\ _ =>
          exists m, (removelast l), (last l (EvStdout EmptyString))
      end; repeat split
    | intros H; try discriminate;
      match goal with
      | |- exists tr cwd err, ?l = _ =>
          exists (removelast (removelast l)); eexists _, _; reflexivity
      end ].
Qed.

Lemma append_nil_r (s : string) : s ++ "" = s.
Proof. induction s as [|c s IH]; simpl; [reflexivity | now rewrite IH]. Qed.

Lemma fold_left_spaced (args : list string) (head tail : string) :
  fold_left (fun b a => b ++ " " ++ a) args head ++ tail = head ++ spaced args tail.
Proof.
  revert head. induction args as [|a args IH]; intros head; simpl; [reflexivity|].
  rewrite IH. rewrite append_assoc. reflexivity.
Qed.

Lemma strings_Join_spaced (name : string) (args : list string) (tail : string) :
  strings.Join (name :: args) " " ++ tail = name ++ spaced args tail.
Proof.
  revert name. induction args as [|a args IH]; intros name; [reflexivity|].
  rewrite strings_Join_cons, append_assoc.
  change ((" " ++ strings.Join (a :: args) " ") ++ tail)
    with (" " ++ (strings.Join (a :: args) " " ++ tail)).
  rewrite IH. reflexivity.
Qed.

(** The rendering of a command made by [exec.Command]: the resolved path,
    or the name as given, followed by the arguments. *)
Lemma String_Command (lp : string -> result string) (name : string) (args : list string) :
  exists head, forall tail,
    exec.String (exec.Command lp name args) ++ tail = head ++ spaced args tail.
Proof.
  unfold exec.Command.
  destruct (filepath.Base name =? name);
    [destruct (lp name) as [p|e]; [destruct (p =? "")|]|];
    unfold exec.String; cbn [exec.Err exec.Args exec.Path tl];
    eexists; intros tail;
    first [apply fold_left_spaced | apply strings_Join_spaced].
Qed.

Lemma String_terminal_cmd (env : Env) (dir name : string) (args : list string) :
  exists head, forall tail,
    exec.String (terminal_cmd env dir name args) ++ tail = head ++ spaced args tail.
Proof.
  destruct (String_Command (LookPath env) name args) as [head H].
  exists head. intros tail. rewrite <- H. unfold terminal_cmd.
  destruct (negb (dir =? "")); reflexivity.
Qed.

Lemma program_whoami_cmd (env : Env) : program (whoami_cmd env) = "whoami".
Proof. unfold program. now rewrite Args_whoami_cmd. Qed.

(** X6: a run of the Init Workflow that returns has written the password
    to standard output in clear text: [executeCommand] echoes the command
    line of [fossil user password <user> <password>] (line 54, called at
    line 143). *)
Theorem init_echoes_password (given : Values) (repoArg : string) (env : Env) :
  fst (run (initCmd_Run given [repoArg]) env) = Done tt ->
  exists head username,
    In (EvStdout ("▶️  Executing: " ++ head ++ " user password " ++ username ++ " "
                  ++ GetString initFlags given "password" ++ newline))
       (snd (run (initCmd_Run given [repoArg]) env)).
Proof.
  init_cases given repoArg env; intros H; try discriminate.
  all: match goal with
       | |- context [terminal_cmd ?e ?d "fossil" ["user"; "password"; ?u; ?p]] =>
           destruct (String_terminal_cmd e d "fossil" ["user"; "password"; u; p])
             as [head Hhead];
           exists head, u
       end.
  all: cbv beta iota delta [app echo]; rewrite Hhead.
  all: simpl; tauto.
Qed.

Ltac eval_attempts :=
  cbv beta iota zeta delta
    [attempts external_calls filter flat_map is_run_of app echo hd_error];
  rewrite ?program_terminal_cmd, ?program_whoami_cmd;
  cbn [String.eqb Ascii.eqb Bool.eqb].

(** X5: with a password, the Init Workflow runs [whoami] only when the
    [--user] flag is absent or empty.  A user name given by the flag is
    used as it is.  Otherwise [whoami] is the first external call, with its
    output captured; if it fails the workflow exits fatally and nothing
    else has been run, and if it succeeds the output, less the white space
    around it, is announced and is the user name of the [fossil] commands
    that follow. *)
Theorem init_user_defaults_to_whoami (given : Values) (repoArg : string) (env : Env) :
  GetString initFlags given "password" <> EmptyString ->
  (GetString initFlags given "user" <> EmptyString ->
   attempts "whoami" (snd (run (initCmd_Run given [repoArg]) env)) = []
   /\ In (EvStdout ("🚀 Initializing new repository '" ++ normalized_name repoArg
                    ++ "' for user '" ++ GetString initFlags given "user"
                    ++ "'..." ++ newline))
         (snd (run (initCmd_Run given [repoArg]) env)))
  /\ (GetString initFlags given "user" = EmptyString ->
      exists captured err,
        attempts "whoami" (snd (run (initCmd_Run given [repoArg]) env))
        = [EvRun (whoami_cmd env) captured err]
        /\ hd_error (external_calls (snd (run (initCmd_Run given [repoArg]) env)))
           = Some (whoami_cmd env)
        /\ match err with
           | Some e =>
               fst (run (initCmd_Run given [repoArg]) env)
               = Exit 1 ("❌ Failed to get current user with 'whoami': "
                         ++ "❌ command failed: " ++ e)
               /\ external_calls (snd (run (initCmd_Run given [repoArg]) env))
                  = [whoami_cmd env]
           | None =>
               In (EvStdout ("ℹ️  No --user specified. Defaulting to current user: "
                             ++ strings.TrimSpace captured ++ newline))
                  (snd (run (initCmd_Run given [repoArg]) env))
               /\ In (EvStdout ("🚀 Initializing new repository '"
                                ++ normalized_name repoArg ++ "' for user '"
                                ++ strings.TrimSpace captured ++ "'..." ++ newline))
                     (snd (run (initCmd_Run given [repoArg]) env))
               /\ prefix_of
                    (commands_of "fossil" (snd (run (initCmd_Run given [repoArg]) env)))
                    (init_plan (normalized_name repoArg) (strings.TrimSpace captured)
                       (GetString initFlags given "password"))
               /\ (fst (run (initCmd_Run given [repoArg]) env) = Done tt ->
                   commands_of "fossil" (snd (run (initCmd_Run given [repoArg]) env))
                   = init_plan (normalized_name repoArg) (strings.TrimSpace captured)
                       (GetString initFlags given "password"))
           end).
Proof.
  intros Hpw.
  init_cases given repoArg env.
  { apply String.eqb_eq in Hpass. contradiction. }
  all: first [ apply String.eqb_eq in Huser | apply String.eqb_neq in Huser ].
  all: (split; intros Hu; try contradiction).
  all: try (split; [ eval_attempts; reflexivity | simpl; tauto ]).
  all: first [ exists out0, (Some e0) | exists out0, None ].
  all: (split; [eval_attempts; reflexivity|]);
       (split; [eval_attempts; reflexivity|]).
  all: first [ split; [reflexivity | eval_attempts; reflexivity]
             | split; [simpl; tauto|]; split; [simpl; tauto|];
               unfold normalized_name; rewrite ?Hsuffix; eval_init_trace;
               split; [solve_prefix | intros H; try discriminate; reflexivity] ].
Qed.

(** ** The fallback and the remediation command of the Transfer Workflow *)

Lemma HasPrefix_colon (c : ascii) (s : string) :
  strings.HasPrefix (String c s) ":" = Ascii.eqb c ":".
Proof.
  unfold strings.HasPrefix. simpl.
  destruct (Ascii.eqb c ":"); reflexivity.
Qed.

(** [Index] finds the first instance: there is none before it. *)
Lemma Index_colon_first (s : string) (m : nat) :
  strings.Index s ":" = Some m -> strings.Contains (slice_to m s) ":" = false.
Proof.
  unfold strings.Contains.
  revert m. induction s as [|c s IH]; intros m.
  - simpl. discriminate.
  - cbn [strings.Index]. rewrite HasPrefix_colon.
    destruct (Ascii.eqb c ":") eqn:Hc.
    + intros [= <-]. reflexivity.
    + destruct (strings.Index s ":") as [k|] eqn:Hk; [|discriminate].
      intros [= <-]. cbn [slice_to strings.Index]. rewrite HasPrefix_colon, Hc.
      specialize (IH k eq_refl).
      destruct (strings.Index (slice_to k s) ":"); [discriminate | reflexivity].
Qed.

Lemma Index_colon_append (a b : string) :
  strings.Contains a ":" = false ->
  strings.Index (a ++ ":" ++ b) ":" = Some (len a).
Proof.
  unfold strings.Contains.
  induction a as [|c a IH].
  - intros _. reflexivity.
  - cbn [strings.Index append] in *. rewrite !HasPrefix_colon.
    destruct (Ascii.eqb c ":"); [discriminate|].
    destruct (strings.Index a ":") as [k|] eqn:Hk; [discriminate|].
    intros _. rewrite (IH eq_refl). reflexivity.
Qed.

Lemma SplitN_at_first_colon (a b : string) :
  strings.Contains a ":" = false ->
  strings.SplitN (a ++ ":" ++ b) ":" 2 = [a; b].
Proof.
  intros H. rewrite SplitN_2, (Index_colon_append a b H).
  rewrite slice_to_append.
  replace (len a + 1) with (len (a ++ ":")) by (rewrite len_append; reflexivity).
  rewrite <- (slice_from_append (a ++ ":") b) at 2.
  rewrite append_assoc. reflexivity.
Qed.

Lemma Clean_plain_name (f : string) : plain_name f = true -> filepath.Clean f = f.
Proof.
  intros H. pose proof (plain_name_real f H) as Hr.
  assert (Hne : f <> "") by (intros ->; discriminate).
  destruct (Clean_buf f Hne) as [-> _].
  rewrite (elements_sep_free f (real_element_sep_free f Hr)).
  destruct f as [|c f]; [contradiction|].
  assert (Hroot : filepath.is_rooted (String c f) = false).
  { apply real_element_sep_free in Hr. simpl in Hr. simpl.
    destruct (filepath.IsPathSeparator c); [discriminate | reflexivity]. }
  rewrite Hroot.
  rewrite clean_loop_reals by (constructor; [exact Hr | constructor]).
  reflexivity.
Qed.

Lemma Args_sftp_cmd (env : Env) (userHost sftpCommand : string) :
  exec.Args (sftp_cmd env userHost sftpCommand) = ["sftp"; userHost].
Proof. unfold sftp_cmd. simpl. apply Args_Command. Qed.

Lemma Dir_sftp_cmd (env : Env) (userHost sftpCommand : string) :
  exec.Dir (sftp_cmd env userHost sftpCommand) = EmptyString.
Proof. unfold sftp_cmd. simpl. apply Dir_Command. Qed.

Section Transfer_fallback.

Variables (given : Values) (repoName : string) (env : Env).

(** X10: when [scp] has failed and the destination contains a colon, the
    fallback cuts the destination at its first colon: the part before it
    contains no colon and the two parts, with the colon, are the
    destination.  [sftp] is run once, in the current directory, with the
    first part as its only argument, [put <file> <path>] on its standard
    input and the terminal on its output streams; the line echoed shows
    that pipe.  The workflow returns when [sftp] does, and otherwise exits
    fatally with the error of [sftp] itself, not wrapped. *)
Theorem transfer_fallback_command :
  primary_failed (snd (run (transferCmd_Run given [repoName]) env)) = true ->
  strings.Contains (GetString transferFlags given "destination") ":" = true ->
  exists userHost remotePath c captured err,
    GetString transferFlags given "destination" = userHost ++ ":" ++ remotePath
    /\ strings.Contains userHost ":" = false
    /\ attempts "sftp" (snd (run (transferCmd_Run given [repoName]) env))
       = [EvRun c captured err]
    /\ exec.Args c = ["sftp"; userHost]
    /\ exec.Dir c = EmptyString
    /\ (exec.Stdin c, exec.Stdout c, exec.Stderr c)
       = (exec.Reader ("put " ++ repoName ++ " " ++ remotePath),
          exec.Inherit, exec.Inherit)
    /\ In (EvStdout ("▶️  Executing: echo " ++ dquote
                     ++ ("put " ++ repoName ++ " " ++ remotePath)
                     ++ dquote ++ " | " ++ exec.String c ++ newline))
          (snd (run (transferCmd_Run given [repoName]) env))
    /\ fst (run (transferCmd_Run given [repoName]) env)
       = match err with
         | Some e => Exit 1 ("❌ sftp fallback also failed: " ++ e)
         | None => Done tt
         end.
Proof.
  transfer_cases; eval_trace; try discriminate.
  all: intros _ _.
  all: pose proof (Index_spec _ _ _ Hcolon) as Hd;
       pose proof (Index_colon_first _ _ Hcolon) as Hfirst.
  all: match goal with
       | |- context [EvRun (sftp_cmd ?e ?u ?cmd) ?o ?r] =>
           exists u, (slice_from (m + 1) (GetString transferFlags given "destination")),
                  (sftp_cmd e u cmd), o, r
       end.
  all: split; [exact Hd|]; split; [exact Hfirst|]; split; [reflexivity|].
  all: split; [apply Args_sftp_cmd|]; split; [apply Dir_sftp_cmd|].
  all: split; [reflexivity|]; split; [simpl; tauto | reflexivity].
Qed.

(** X11: for every destination [userHost:remotePath], cut at the first
    colon, a transfer that returns ends with the remediation command for
    [userHost], the remote user, and the cleaned join of [remotePath] and
    the file name, followed by a rule.  With an empty remote path that join
    is the plain file name itself. *)
Theorem transfer_remediation_splits_at_first_colon (userHost remotePath : string) :
  GetString transferFlags given "destination" = userHost ++ ":" ++ remotePath ->
  strings.Contains userHost ":" = false ->
  fst (run (transferCmd_Run given [repoName]) env) = Done tt ->
  (exists tr,
     snd (run (transferCmd_Run given [repoName]) env)
     = (tr ++ [ EvStdout (remediation userHost
                            (GetString transferFlags given "remote-user")
                            (filepath.Join [remotePath; repoName]));
                EvStdout (rule ++ newline) ])%list)
  /\ (remotePath = EmptyString -> plain_name repoName = true ->
      filepath.Join [remotePath; repoName] = repoName).
Proof.
  intros Hdest Hhost Hdone.
  split.
  - revert Hdone. rewrite transferCmd_Run_eq. unfold transfer_summary, transfer_success.
    rewrite Hdest, (SplitN_at_first_colon _ _ Hhost).
    cbv beta iota zeta.
    destruct (userHost ++ ":" ++ remotePath =? "");
      [discriminate|].
    destruct (answer _ _ (terminal_cmd _ _ "scp" _)) as [out1 [e1|]];
      cbv beta iota;
      [ destruct (answer _ _ (sftp_cmd _ _ _)) as [out2 [e2|]]; cbv beta iota | ];
      intros H; try discriminate;
      match goal with
      | |- exists tr, snd (_, (?l ++ ?b ++ _)%list) = _ => exists (l ++ b)%list
      end;
      cbv beta iota delta [snd]; rewrite <- app_assoc; reflexivity.
  - intros -> Hplain. cbn [filepath.Join String.eqb].
    destruct repoName as [|c r] eqn:E; [discriminate|].
    cbn [filepath.Join String.eqb strings.Join]. rewrite <- E in *.
    now apply Clean_plain_name.
Qed.

End Transfer_fallback.

(** ** Outcomes of the Clone Workflow *)

Section Clone_outcomes.

Variable url_Parse : string -> result url.URL.
Variable URL_String : url.URL -> string.
Variables (fossilURL : string) (env : Env).

(** X12: input errors of the Clone Workflow stop it before anything is
    created or run.  When the URL does not parse, the run is the first line
    and the fatal error.  When the current user cannot be looked up, the
    run is fatal with no directory created and no command run. *)
Theorem clone_stops_before_touching_disk :
  (forall e,
     url_Parse (strings.TrimSuffix fossilURL "/home") = Failed e ->
     run (cloneCmd_Run url_Parse URL_String [fossilURL]) env
     = (Exit 1 ("❌ Invalid URL: " ++ e),
        [EvStdout ("🚀 Cloning from '" ++ strings.TrimSuffix fossilURL "/home"
                   ++ "'..." ++ newline)]))
  /\ (forall e,
        In (EvUserCurrent (Failed e))
           (snd (run (cloneCmd_Run url_Parse URL_String [fossilURL]) env)) ->
        fst (run (cloneCmd_Run url_Parse URL_String [fossilURL]) env)
        = Exit 1 ("❌ Could not get current user: " ++ e)
        /\ mkdirs (snd (run (cloneCmd_Run url_Parse URL_String [fossilURL]) env)) = []
        /\ external_calls (snd (run (cloneCmd_Run url_Parse URL_String [fossilURL]) env))
           = []).
Proof.
  clone_cases url_Parse URL_String fossilURL env.
  all: split; [ intros e He; try discriminate; try (injection He as <-); reflexivity |].
  all: intros e Hin; cbv beta iota delta [app] in Hin; simpl in Hin;
       repeat (destruct Hin as [Hin|Hin]; try discriminate);
       try contradiction.
  injection Hin as <-. repeat split.
Qed.

(** X13: for a URL that parses, the Clone Workflow returns exactly when
    the user lookup, both directory creations and both commands succeeded;
    it never panics.  When it does not return it exits with status 1, and
    the failed call is the last event of the trace.  When it returns, the
    user was looked up once, the four calls of the plan were made for that
    user, and the last line names that user's checkout directory. *)
Theorem clone_returns_iff_all_calls_succeed (u : url.URL) :
  url_Parse (strings.TrimSuffix fossilURL "/home") = Ok u ->
  (fst (run (cloneCmd_Run url_Parse URL_String [fossilURL]) env) = Done tt <->
   all_calls_succeeded (snd (run (cloneCmd_Run url_Parse URL_String [fossilURL]) env))
   = true)
  /\ (fst (run (cloneCmd_Run url_Parse URL_String [fossilURL]) env) <> Done tt ->
      exists msg tr e,
        fst (run (cloneCmd_Run url_Parse URL_String [fossilURL]) env) = Exit 1 msg
        /\ snd (run (cloneCmd_Run url_Parse URL_String [fossilURL]) env) = (tr ++ [e])%list
        /\ call_failed e = true
        /\ all_calls_succeeded tr = true)
  /\ (fst (run (cloneCmd_Run url_Parse URL_String [fossilURL]) env) = Done tt ->
      exists tr usr,
        lookups (snd (run (cloneCmd_Run url_Parse URL_String [fossilURL]) env))
        = [Ok usr]
        /\ calls (snd (run (cloneCmd_Run url_Parse URL_String [fossilURL]) env))
           = clone_plan (clone_targetDir u usr) (clone_checkoutDir u usr)
               (URL_String (url.set_User u (url.UserOf (user.Username usr))))
               (clone_fossilFileName u)
        /\ snd (run (cloneCmd_Run url_Parse URL_String [fossilURL]) env)
           = (tr ++ [EvStdout ("✅ Success! Repo cloned and opened in: "
                               ++ clone_checkoutDir u usr ++ newline)])%list).
Proof.
  intros Hu.
  clone_cases url_Parse URL_String fossilURL env; try discriminate.
  all: injection Hu as <-.
  all: split; [eval_calls; split; intros H; try discriminate; reflexivity|].
  all: split;
    [ intros H; try (exfalso; apply H; reflexivity);
      match goal with
      | |- exists msg tr e, (Exit 1 ?m = _) /\ (?l = _) /\ _ =>
          exists m, (removelast l), (last l (EvStdout EmptyString))
      end; repeat split
    | intros H; try discriminate;
      match goal with
      | |- exists tr usr, _ /\ _ /\ ?l = _ =>
          exists (removelast l), usr0
      end;
      (split; [reflexivity | split; [eval_calls_list; reflexivity | reflexivity]]) ].
Qed.

End Clone_outcomes.

(** ** The checkout directory and the repository file *)

(** A real element followed by [..] leaves the buffer of [Clean] as it was. *)
Lemma clean_loop_pop (r : bool) (b : filepath.lazybuf) (e : string) :
  buf_ok r b -> real_element e = true ->
  filepath.clean_loop r [e; ".."] b = b.
Proof.
  intros (reals & _ & Hrev & _) He.
  unfold filepath.clean_loop. cbn [fold_left].
  rewrite (clean_step_real r b e He).
  unfold filepath.clean_step. cbn [String.eqb Ascii.eqb Bool.eqb filepath.out filepath.dotdot].
  cbn [List.length tl].
  pose proof (buf_ok_length r b reals Hrev) as Hlen.
  replace (filepath.dotdot b <? S (List.length (filepath.out b)))%nat with true
    by (symmetry; apply Nat.ltb_lt; lia).
  destruct b; reflexivity.
Qed.

Lemma real_element_not_empty (e : string) : real_element e = true -> e <> EmptyString.
Proof. intros H ->. discriminate. Qed.

Lemma sep_free_append (a b : string) :
  sep_free a = true -> sep_free b = true -> sep_free (a ++ b) = true.
Proof.
  intros Ha Hb. induction a as [|c a IH]; [exact Hb|].
  simpl in *. apply andb_true_iff in Ha as [Hc Ha]. now rewrite Hc, IH.
Qed.

(** A name that ends in [.fossil] and has no separator is a real element. *)
Lemma real_element_fossil (b : string) :
  sep_free b = true -> real_element (b ++ ".fossil") = true.
Proof.
  intros Hb. unfold real_element.
  rewrite (sep_free_append b ".fossil" Hb eq_refl).
  assert (Hlong : forall s, len s < 7 -> (b ++ ".fossil" =? s) = false).
  { intros s Hs. apply String.eqb_neq. intros E. apply (f_equal len) in E.
    rewrite len_append in E. simpl in E. lia. }
  rewrite !Hlong by (simpl; lia). reflexivity.
Qed.

Lemma not_rooted_sep_free (e : string) : sep_free e = true -> filepath.is_rooted e = false.
Proof.
  destruct e as [|c e]; [reflexivity|]. simpl.
  destruct (filepath.IsPathSeparator c); [discriminate | reflexivity].
Qed.

(** [..] joined with a real element: nothing to clean. *)
Lemma Join_dotdot_real (f : string) :
  real_element f = true -> filepath.Join [".."; f] = "../" ++ f.
Proof.
  intros Hf. cbn [filepath.Join String.eqb Ascii.eqb Bool.eqb strings.Join].
  change (".." ++ "/" ++ f) with (".." ++ String "/" f).
  destruct (Clean_buf (".." ++ String "/" f)) as [-> _]; [discriminate|].
  rewrite elements_append_sep, clean_loop_app.
  rewrite (elements_sep_free f (real_element_sep_free f Hf)).
  change (filepath.is_rooted (".." ++ String "/" f)) with false.
  change (filepath.clean_loop false (filepath.elements "..") (filepath.mkbuf [] 0))
    with (filepath.mkbuf [".."] 1).
  rewrite clean_loop_reals by (constructor; [exact Hf | constructor]).
  reflexivity.
Qed.

(** Going into a real element and back out with [..] is cleaned away. *)
Lemma Clean_pop (x b y : string) :
  x <> EmptyString -> real_element b = true ->
  filepath.Clean (x ++ String "/" (b ++ String "/" (".." ++ String "/" y)))
  = filepath.Clean (x ++ String "/" y).
Proof.
  intros Hx Hb.
  assert (Hne : forall z, x ++ String "/" z <> "").
  { intros z. destruct x; [contradiction | discriminate]. }
  destruct (Clean_buf _ (Hne (b ++ String "/" (".." ++ String "/" y)))) as [-> _].
  destruct (Clean_buf _ (Hne y)) as [-> _].
  rewrite !is_rooted_append by exact Hx.
  rewrite !elements_append_sep.
  rewrite (elements_sep_free b (real_element_sep_free b Hb)).
  change (filepath.elements "..") with [".."].
  rewrite !clean_loop_app.
  set (B := filepath.clean_loop (filepath.is_rooted x) (filepath.elements x)
              (filepath.mkbuf [] 0)).
  assert (HB : buf_ok (filepath.is_rooted x) B).
  { apply clean_loop_ok; [apply elements_all_sep_free | apply buf_ok_init]. }
  pose proof (clean_loop_pop _ B b HB Hb) as Hpop.
  change (filepath.clean_loop (filepath.is_rooted x) [".."]
            (filepath.clean_loop (filepath.is_rooted x) [b] B))
    with (filepath.clean_loop (filepath.is_rooted x) [b; ".."] B).
  rewrite Hpop. reflexivity.
Qed.

Lemma Join_not_empty (l : list string) :
  some_nonempty l = true -> filepath.Join l <> EmptyString.
Proof.
  induction l as [|x l IH]; [discriminate|].
  unfold some_nonempty. cbn [existsb filepath.Join].
  destruct (x =? ""); cbn [negb orb].
  - exact IH.
  - intros _. apply Clean_not_empty.
Qed.

(** From the directory [x/b], the path [../f] is the file [x/f]. *)
Lemma Join_out_of_checkout (x b f : string) :
  x <> EmptyString -> real_element b = true -> real_element f = true ->
  filepath.Join [filepath.Join [x; b]; filepath.Join [".."; f]] = filepath.Join [x; f].
Proof.
  intros Hx Hb Hf.
  rewrite (Join_dotdot_real f Hf).
  rewrite (Join_head x [b] Hx), (Join_head x [f] Hx).
  rewrite Join_head by apply Clean_not_empty.
  cbn [strings.Join].
  change (x ++ "/" ++ b) with (x ++ String "/" b).
  change (filepath.Clean (x ++ String "/" b) ++ "/" ++ "../" ++ f)
    with (filepath.Clean (x ++ String "/" b) ++ String "/" ("../" ++ f)).
  rewrite Clean_prefix by (destruct x; [contradiction | discriminate]).
  rewrite append_assoc.
  change (String "/" b ++ String "/" ("../" ++ f))
    with (String "/" (b ++ String "/" (".." ++ String "/" f))).
  now rewrite Clean_pop.
Qed.

Lemma normalized_name_suffix (repoArg : string) :
  normalized_name repoArg
  = strings.TrimSuffix (normalized_name repoArg) ".fossil" ++ ".fossil".
Proof.
  symmetry. apply TrimSuffix_spec. unfold normalized_name.
  destruct (strings.HasSuffix repoArg ".fossil") eqn:Hs; [exact Hs|].
  apply HasSuffix_append.
Qed.

(** From the checkout directory of the Init Workflow, the path [../name]
    is the repository file [name], relative to the working directory and
    from any working directory. *)
Lemma Join_out_of_init_checkout (repoArg cwd : string) :
  real_element (strings.TrimSuffix (normalized_name repoArg) ".fossil") = true ->
  filepath.Join [ strings.TrimSuffix (normalized_name repoArg) ".fossil";
                  filepath.Join [".."; normalized_name repoArg] ]
  = normalized_name repoArg
  /\ (cwd <> EmptyString ->
      filepath.Join
        [ filepath.Join [cwd; strings.TrimSuffix (normalized_name repoArg) ".fossil"];
          filepath.Join [".."; normalized_name repoArg] ]
      = filepath.Join [cwd; normalized_name repoArg]).
Proof.
  intros Hd.
  pose proof (normalized_name_suffix repoArg) as Hname.
  set (d := strings.TrimSuffix (normalized_name repoArg) ".fossil") in *.
  assert (Hr : real_element (normalized_name repoArg) = true).
  { rewrite Hname. apply real_element_fossil. now apply real_element_sep_free. }
  set (r := normalized_name repoArg) in *.
  split.
  - rewrite (Join_dotdot_real r Hr).
    rewrite Join_head by now apply real_element_not_empty.
    cbn [strings.Join].
    change (d ++ "/" ++ "../" ++ r) with (d ++ String "/" (".." ++ String "/" r)).
    destruct (Clean_buf (d ++ String "/" (".." ++ String "/" r))) as [-> _].
    { apply real_element_not_empty in Hd. destruct d; [contradiction | discriminate]. }
    rewrite is_rooted_append by now apply real_element_not_empty.
    rewrite (not_rooted_sep_free d (real_element_sep_free d Hd)).
    rewrite !elements_append_sep.
    rewrite (elements_sep_free d (real_element_sep_free d Hd)).
    rewrite (elements_sep_free r (real_element_sep_free r Hr)).
    change ([d] ++ filepath.elements ".." ++ [r])%list with ([d; ".."] ++ [r])%list.
    rewrite clean_loop_app.
    rewrite (clean_loop_pop false _ d (buf_ok_init false) Hd).
    rewrite clean_loop_reals by (constructor; [exact Hr | constructor]).
    reflexivity.
  - intros Hcwd. now apply Join_out_of_checkout.
Qed.

Ltac eval_init_calls :=
  cbv beta iota zeta delta
    [calls flat_map map app echo fst snd all_calls_succeeded call_failed forallb
     negb andb];
  rewrite ?Dir_terminal_cmd, ?Args_terminal_cmd, ?Args_whoami_cmd, ?Dir_whoami_cmd.

(** X8: the file that the Init Workflow opens is the file it created.
    With a password, and when the checkout directory name is a real path
    element (no separator, not empty, not [.] or [..]), a run that reaches
    [fossil open] has, one right after the other, run [fossil new] on the
    repository file in the working directory, created the checkout
    directory, and run [fossil open] in it on one path; that path, read
    from the checkout directory, is the repository file, relative to the
    working directory and from any working directory [cwd].  A run that
    returns has opened the file, and a run none of whose calls failed
    returns. *)
Theorem init_opens_the_file_it_created (given : Values) (repoArg cwd : string)
  (env : Env) :
  GetString initFlags given "password" <> EmptyString ->
  real_element (strings.TrimSuffix (normalized_name repoArg) ".fossil") = true ->
  (forall dir args,
     In (CallRun dir ("fossil" :: "open" :: args))
        (calls (snd (run (initCmd_Run given [repoArg]) env))) ->
     exists path before rest,
       args = [path]
       /\ calls (snd (run (initCmd_Run given [repoArg]) env))
          = (before
             ++ [ CallRun EmptyString ["fossil"; "new"; normalized_name repoArg];
                  CallMkdirAll dir;
                  CallRun dir ["fossil"; "open"; path] ]
             ++ rest)%list
       /\ filepath.Join [dir; path] = normalized_name repoArg
       /\ (cwd <> EmptyString ->
           filepath.Join [filepath.Join [cwd; dir]; path]
           = filepath.Join [cwd; normalized_name repoArg]))
  /\ (fst (run (initCmd_Run given [repoArg]) env) = Done tt ->
      exists dir path,
        In (CallRun dir ["fossil"; "open"; path])
           (calls (snd (run (initCmd_Run given [repoArg]) env))))
  /\ (all_calls_succeeded (snd (run (initCmd_Run given [repoArg]) env)) = true ->
      fst (run (initCmd_Run given [repoArg]) env) = Done tt).
Proof.
  intros Hpw Hd.
  destruct (Join_out_of_init_checkout repoArg cwd Hd) as [Hrel Habs].
  revert Hrel Habs.
  init_cases given repoArg env.
  { apply String.eqb_eq in Hpass. contradiction. }
  all: intros Hrel Habs.
  all: eval_init_calls.
  all: split;
    [ intros dir args Hopen; simpl in Hopen;
      repeat (destruct Hopen as [Hopen|Hopen]; try discriminate Hopen);
      try contradiction;
      injection Hopen as <- <-;
      eexists;
      first [ exists []; eexists;
              split; [reflexivity|]; split; [reflexivity|];
              split; [exact Hrel | exact Habs]
            | exists [CallRun EmptyString ["whoami"]]; eexists;
              split; [reflexivity|]; split; [reflexivity|];
              split; [exact Hrel | exact Habs] ]
    | ].
  all: split;
    [ intros H; try discriminate; eexists; eexists; simpl;
      first [ left; reflexivity
            | right; left; reflexivity
            | right; right; left; reflexivity
            | right; right; right; left; reflexivity ]
    | intros H; try discriminate; reflexivity ].
Qed.


Section Clone_checkout.

Variable url_Parse : string -> result url.URL.
Variable URL_String : url.URL -> string.
Variables (fossilURL : string) (env : Env).

(** X14: the file that the Clone Workflow opens is the file it cloned.
    When the repository base name is a real path element, a run that
    reaches [fossil open] has made exactly four calls: it created a
    target directory, ran [fossil clone] there into a file, created the
    directory of the checkout and ran [fossil open] there on one path; and
    that path, read from the checkout directory, is the file cloned in
    the target directory.  A run that returns has opened the file, and a
    run none of whose calls failed returns. *)
Theorem clone_opens_the_file_it_cloned (u : url.URL) (usr : user.User) :
  url_Parse (strings.TrimSuffix fossilURL "/home") = Ok u ->
  In (EvUserCurrent (Ok usr))
     (snd (run (cloneCmd_Run url_Parse URL_String [fossilURL]) env)) ->
  real_element (clone_repoBaseName u) = true ->
  (forall dir args,
     In (CallRun dir ("fossil" :: "open" :: args))
        (calls (snd (run (cloneCmd_Run url_Parse URL_String [fossilURL]) env))) ->
     exists target authURL file path,
       args = [path]
       /\ calls (snd (run (cloneCmd_Run url_Parse URL_String [fossilURL]) env))
          = [ CallMkdirAll target;
              CallRun target ["fossil"; "clone"; authURL; file];
              CallMkdirAll dir;
              CallRun dir ["fossil"; "open"; path] ]
       /\ filepath.Join [dir; path] = filepath.Join [target; file])
  /\ (fst (run (cloneCmd_Run url_Parse URL_String [fossilURL]) env) = Done tt ->
      exists dir path,
        In (CallRun dir ["fossil"; "open"; path])
           (calls (snd (run (cloneCmd_Run url_Parse URL_String [fossilURL]) env))))
  /\ (all_calls_succeeded
        (snd (run (cloneCmd_Run url_Parse URL_String [fossilURL]) env)) = true ->
      fst (run (cloneCmd_Run url_Parse URL_String [fossilURL]) env) = Done tt).
Proof.
  intros Hu Hin Hb.
  assert (Hfile : filepath.Join [ clone_checkoutDir u usr;
                                  filepath.Join [".."; clone_fossilFileName u] ]
                  = filepath.Join [clone_targetDir u usr; clone_fossilFileName u]).
  { unfold clone_checkoutDir, clone_fossilFileName.
    apply Join_out_of_checkout.
    - unfold clone_targetDir. apply Join_not_empty, some_nonempty_fossils.
    - exact Hb.
    - apply real_element_fossil. now apply real_element_sep_free. }
  revert Hin.
  clone_cases url_Parse URL_String fossilURL env; try discriminate.
  all: injection Hu as <-.
  all: intros Hin; cbv beta iota delta [app] in Hin; simpl in Hin;
       repeat (destruct Hin as [Hin|Hin]; try discriminate Hin);
       try contradiction; injection Hin as <-.
  all: eval_calls_list.
  all: split;
    [ intros dir args Hopen; simpl in Hopen;
      repeat (destruct Hopen as [Hopen|Hopen]; try discriminate Hopen);
      try contradiction;
      injection Hopen as <- <-;
      exists (clone_targetDir u0 usr0),
             (URL_String (url.set_User u0 (url.UserOf (user.Username usr0)))),
             (clone_fossilFileName u0),
             (filepath.Join [".."; clone_fossilFileName u0]);
      (split; [reflexivity | split; [reflexivity | exact Hfile]])
    | ].
  all: split;
    [ intros H; try discriminate;
      exists (clone_checkoutDir u0 usr0),
             (filepath.Join [".."; clone_fossilFileName u0]);
      simpl; tauto
    | intros H; try discriminate; reflexivity ].
Qed.

End Clone_checkout.

(** ** The layout of a clone *)

Lemma HasPrefix_byte (c d : ascii) (s : string) :
  strings.HasPrefix (String c s) (String d EmptyString) = Ascii.eqb c d.
Proof.
  unfold strings.HasPrefix. simpl.
  destruct (Ascii.eqb c d); reflexivity.
Qed.

(** No instance from the left means no instance from the right. *)
Lemma LastIndex_none (s : string) (d : ascii) :
  strings.Index s (String d EmptyString) = None ->
  strings.LastIndex s (String d EmptyString) = None.
Proof.
  induction s as [|c s IH]; [intros _; reflexivity|].
  cbn [strings.Index strings.LastIndex]. rewrite HasPrefix_byte.
  destruct (Ascii.eqb c d); [discriminate|].
  destruct (strings.Index s (String d "")); [discriminate|].
  intros _. now rewrite IH.
Qed.

Lemma LastIndex_append (p b : string) (d : ascii) :
  strings.LastIndex b (String d EmptyString) = None ->
  strings.LastIndex (p ++ String d b) (String d EmptyString) = Some (len p).
Proof.
  intros Hb. induction p as [|c p IH].
  - cbn [append strings.LastIndex]. rewrite Hb, HasPrefix_byte, Ascii.eqb_refl. reflexivity.
  - cbn [append strings.LastIndex]. rewrite IH. reflexivity.
Qed.

Lemma Index_sep_free (s : string) : sep_free s = true -> strings.Index s "/" = None.
Proof.
  induction s as [|c s IH]; [reflexivity|].
  simpl sep_free. intros H. apply andb_true_iff in H as [Hc Hs].
  cbn [strings.Index]. rewrite HasPrefix_byte.
  unfold filepath.IsPathSeparator in Hc. apply negb_true_iff in Hc. rewrite Hc.
  now rewrite (IH Hs).
Qed.

Lemma strip_trailing_slashes_fixed (s : string) :
  match last_byte s with
  | Some c => filepath.IsPathSeparator c = false
  | None => True
  end ->
  filepath.strip_trailing_slashes s = s.
Proof.
  induction s as [|c s IH]; [reflexivity|].
  cbn [filepath.strip_trailing_slashes]. destruct s as [|d s].
  - cbn. intros ->. reflexivity.
  - intros H. rewrite (IH H). reflexivity.
Qed.

Lemma last_byte_append (a b : string) :
  b <> EmptyString -> last_byte (a ++ b) = last_byte b.
Proof.
  intros Hb. induction a as [|c a IH]; [reflexivity|].
  cbn [append last_byte]. rewrite IH.
  destruct (a ++ b) eqn:E; [|reflexivity].
  destruct a; [simpl in E; contradiction | discriminate].
Qed.

Lemma last_byte_sep_free (s : string) :
  sep_free s = true ->
  match last_byte s with
  | Some c => filepath.IsPathSeparator c = false
  | None => True
  end.
Proof.
  induction s as [|c s IH]; [intros _; exact I|].
  simpl sep_free. intros H. apply andb_true_iff in H as [Hc Hs].
  cbn [last_byte]. destruct s as [|d s].
  - now apply negb_true_iff in Hc.
  - exact (IH Hs).
Qed.

(** The base of a path that ends in a name is that name. *)
Lemma Base_name (b : string) :
  sep_free b = true -> b <> EmptyString -> filepath.Base b = b.
Proof.
  intros Hb Hne. unfold filepath.Base.
  replace (b =? "") with false by (symmetry; now apply String.eqb_neq).
  rewrite strip_trailing_slashes_fixed by now apply last_byte_sep_free.
  rewrite (LastIndex_none b "/" (Index_sep_free b Hb)).
  replace (b =? "") with false by (symmetry; now apply String.eqb_neq).
  reflexivity.
Qed.

Lemma Base_append (p b : string) :
  sep_free b = true -> b <> EmptyString -> filepath.Base (p ++ String "/" b) = b.
Proof.
  intros Hb Hne. unfold filepath.Base.
  replace (p ++ String "/" b =? "") with false
    by (symmetry; apply String.eqb_neq; destruct p; discriminate).
  rewrite strip_trailing_slashes_fixed.
  2:{ change (String "/" b) with ("/" ++ b). rewrite <- append_assoc.
      rewrite last_byte_append by exact Hne. now apply last_byte_sep_free. }
  rewrite (LastIndex_append p b "/" (LastIndex_none b "/" (Index_sep_free b Hb))).
  replace (len p + 1) with (len (p ++ "/")) by (rewrite len_append; reflexivity).
  change (String "/" b) with ("/" ++ b). rewrite <- append_assoc, slice_from_append.
  replace (b =? "") with false by (symmetry; now apply String.eqb_neq).
  reflexivity.
Qed.

Lemma Dir_name (b : string) : sep_free b = true -> filepath.Dir b = ".".
Proof.
  intros Hb. unfold filepath.Dir.
  now rewrite (LastIndex_none b "/" (Index_sep_free b Hb)).
Qed.

Lemma is_rooted_Join_reals (ds : list string) :
  Forall (fun e => real_element e = true) ds ->
  filepath.is_rooted (strings.Join ds "/") = false.
Proof.
  intros H. destruct H as [|d ds Hd Hds]; [reflexivity|].
  destruct ds as [|d' ds].
  - apply not_rooted_sep_free. now apply real_element_sep_free.
  - rewrite strings_Join_cons.
    rewrite is_rooted_append by now apply real_element_not_empty.
    apply not_rooted_sep_free. now apply real_element_sep_free.
Qed.

Lemma Forall_real_sep_free (ds : list string) :
  Forall (fun e => real_element e = true) ds ->
  Forall (fun e => sep_free e = true) ds.
Proof. apply Forall_impl. intros e. apply real_element_sep_free. Qed.

Lemma strings_Join_reals_not_empty (ds : list string) :
  ds <> [] -> Forall (fun e => real_element e = true) ds ->
  strings.Join ds "/" <> EmptyString.
Proof.
  intros Hne H. destruct H as [|d ds Hd Hds]; [contradiction|].
  apply strings_Join_head. now apply real_element_not_empty.
Qed.

(** The directory of [d1/.../dn/b] is [d1/.../dn]. *)
Lemma Dir_append (ds : list string) (b : string) :
  ds <> [] -> Forall (fun e => real_element e = true) ds -> sep_free b = true ->
  filepath.Dir (strings.Join ds "/" ++ String "/" b) = strings.Join ds "/".
Proof.
  intros Hne Hds Hb. unfold filepath.Dir.
  set (p := strings.Join ds "/").
  rewrite (LastIndex_append p b "/" (LastIndex_none b "/" (Index_sep_free b Hb))).
  replace (len p + 1) with (len (p ++ "/")) by (rewrite len_append; reflexivity).
  change (String "/" b) with ("/" ++ b). rewrite <- append_assoc, slice_to_append.
  assert (Hp : p <> "") by now apply strings_Join_reals_not_empty.
  destruct (Clean_buf (p ++ "/")) as [-> _].
  { destruct p; [contradiction | discriminate]. }
  rewrite is_rooted_append by exact Hp.
  unfold p at 1 2. rewrite (is_rooted_Join_reals ds Hds).
  change (p ++ "/") with (p ++ String "/" "").
  rewrite elements_append_sep. unfold p.
  rewrite (elements_Join ds Hne (Forall_real_sep_free ds Hds)).
  rewrite clean_loop_app, clean_loop_reals by exact Hds.
  cbn. unfold filepath.render. cbn [filepath.out].
  rewrite app_nil_r, rev_involutive.
  destruct (rev ds) eqn:E; [|reflexivity].
  apply (f_equal (@rev string)) in E. rewrite rev_involutive in E. contradiction.
Qed.

(** Joining a relative path of real elements is joining its elements. *)
Lemma Join_flatten (l ds : list string) :
  some_nonempty l = true -> ds <> [] ->
  filepath.Join (l ++ [strings.Join ds "/"]) = filepath.Join (l ++ ds).
Proof.
  intros Hl Hds. induction l as [|x l IH]; [discriminate|].
  unfold some_nonempty in Hl. cbn [existsb] in Hl.
  cbn [app filepath.Join].
  destruct (x =? "") eqn:Hx.
  - apply IH. exact Hl.
  - f_equal.
    change (x :: l ++ [strings.Join ds "/"])%list with ((x :: l) ++ [strings.Join ds "/"])%list.
    change (x :: l ++ ds)%list with ((x :: l) ++ ds)%list.
    rewrite strings_Join_snoc by discriminate.
    rewrite strings_Join_app by (discriminate || exact Hds).
    reflexivity.
Qed.

Lemma some_nonempty_app (l l' : list string) :
  some_nonempty l = true -> some_nonempty (l ++ l') = true.
Proof.
  unfold some_nonempty. intros H. rewrite existsb_app, H. reflexivity.
Qed.

(** The local layout mirrors the path of the URL: for the path
    [/d1/.../dn/b] of real elements, the target directory is the join of
    the home directory, [fossils], the host name and [d1 ... dn]; the
    repository base name is [b] without a [.fossil] suffix; the repository
    file is [b] with exactly the normalization of the Init Workflow; the
    checkout directory is the base name inside the target directory. *)
Lemma clone_layout_of_path (u : url.URL) (usr : user.User)
  (ds : list string) (b : string) :
  url.Path u = "/" ++ strings.Join (ds ++ [b]) "/" ->
  Forall (fun e => real_element e = true) ds ->
  real_element b = true ->
  clone_targetDir u usr
  = filepath.Join ([user.HomeDir usr; "fossils"; url.Hostname u] ++ ds)
  /\ clone_repoBaseName u = strings.TrimSuffix b ".fossil"
  /\ clone_fossilFileName u = normalized_name b
  /\ clone_checkoutDir u usr
     = filepath.Join ([user.HomeDir usr; "fossils"; url.Hostname u] ++ ds
                      ++ [strings.TrimSuffix b ".fossil"])
  /\ (filepath.Clean (user.HomeDir usr) = user.HomeDir usr ->
      filepath.is_rooted (user.HomeDir usr) = true -> user.HomeDir usr <> "/" ->
      real_element (url.Hostname u) = true ->
      real_element (strings.TrimSuffix b ".fossil") = true ->
      clone_targetDir u usr
      = user.HomeDir usr ++ "/" ++ strings.Join ("fossils" :: url.Hostname u :: ds) "/"
      /\ clone_checkoutDir u usr
         = clone_targetDir u usr ++ "/" ++ strings.TrimSuffix b ".fossil").
Proof.
  intros Hpath Hds Hb.
  pose proof (real_element_sep_free b Hb) as Hsep.
  pose proof (real_element_not_empty b Hb) as Hne.
  assert (Hurl : clone_urlPath u = strings.Join (ds ++ [b]) "/").
  { unfold clone_urlPath. rewrite Hpath. apply TrimPrefix_append. }
  assert (Hbase : filepath.Base (clone_urlPath u) = b).
  { rewrite Hurl. destruct ds as [|d ds'].
    - now apply Base_name.
    - rewrite strings_Join_snoc by discriminate. now apply Base_append. }
  assert (Htarget : clone_targetDir u usr
                    = filepath.Join ([user.HomeDir usr; "fossils"; url.Hostname u] ++ ds)).
  { unfold clone_targetDir. rewrite Hurl. destruct ds as [|d ds'].
    - cbn [app strings.Join]. rewrite (Dir_name b Hsep).
      apply (Join_snoc_dot [user.HomeDir usr; "fossils"; url.Hostname u]).
      apply some_nonempty_fossils.
    - rewrite strings_Join_snoc by discriminate.
      change ("/" ++ b) with (String "/" b).
      rewrite Dir_append by (discriminate || assumption).
      apply (Join_flatten [user.HomeDir usr; "fossils"; url.Hostname u]);
        [apply some_nonempty_fossils | discriminate]. }
  assert (Hrepo : clone_repoBaseName u = strings.TrimSuffix b ".fossil").
  { unfold clone_repoBaseName. now rewrite Hbase. }
  assert (Hcheckout : clone_checkoutDir u usr
            = filepath.Join ([user.HomeDir usr; "fossils"; url.Hostname u] ++ ds
                             ++ [strings.TrimSuffix b ".fossil"])).
  { unfold clone_checkoutDir. rewrite Htarget, Hrepo.
    rewrite Join_Join by apply (some_nonempty_app [_; _; _]), some_nonempty_fossils.
    now rewrite <- app_assoc. }
  split; [exact Htarget|]. split; [exact Hrepo|].
  split.
  { unfold clone_fossilFileName, normalized_name. rewrite Hrepo.
    destruct (strings.HasSuffix b ".fossil") eqn:Hs.
    - now apply TrimSuffix_spec.
    - now rewrite TrimSuffix_none. }
  split; [exact Hcheckout|].
  intros Hclean Hroot Hnot Hhost Htrim.
  assert (Ht : clone_targetDir u usr
               = user.HomeDir usr ++ "/"
                 ++ strings.Join ("fossils" :: url.Hostname u :: ds) "/").
  { rewrite Htarget.
    apply (Join_onto_clean _ ("fossils" :: url.Hostname u :: ds) Hclean Hroot Hnot);
      [discriminate | repeat constructor; assumption]. }
  split; [exact Ht|].
  rewrite Hcheckout, Ht.
  change ([user.HomeDir usr; "fossils"; url.Hostname u] ++ ds
          ++ [strings.TrimSuffix b ".fossil"])%list
    with (user.HomeDir usr :: ("fossils" :: url.Hostname u :: ds)
          ++ [strings.TrimSuffix b ".fossil"])%list.
  rewrite (Join_onto_clean _ _ Hclean Hroot Hnot).
  - rewrite strings_Join_snoc by discriminate. now rewrite !append_assoc.
  - discriminate.
  - apply Forall_app. split; [repeat constructor; assumption | repeat constructor; assumption].
Qed.

(** ** Plain URLs *)

Lemma all_bytes_cons (P : ascii -> bool) (c : ascii) (s : string) :
  all_bytes P (String c s) = P c && all_bytes P s.
Proof. reflexivity. Qed.

Lemma all_bytes_app (P : ascii -> bool) (a b : string) :
  all_bytes P (a ++ b) = all_bytes P a && all_bytes P b.
Proof.
  induction a as [|c a IH]; [reflexivity|].
  cbn [append]. rewrite !all_bytes_cons, IH. apply andb_assoc.
Qed.

Lemma all_bytes_impl (P Q : ascii -> bool) (s : string) :
  (forall c, P c = true -> Q c = true) -> all_bytes P s = true -> all_bytes Q s = true.
Proof.
  intros HPQ. induction s as [|c s IH]; [reflexivity|].
  rewrite !all_bytes_cons. intros H. apply andb_true_iff in H as [Hc Hs].
  now rewrite (HPQ c Hc), IH.
Qed.

(** A byte outside a class does not occur in a string of the class. *)
Lemma Index_byte_none (P : ascii -> bool) (s : string) (d : ascii) :
  all_bytes P s = true -> P d = false -> strings.Index s (String d EmptyString) = None.
Proof.
  intros Hs Hd. induction s as [|c s IH]; [reflexivity|].
  rewrite all_bytes_cons in Hs. apply andb_true_iff in Hs as [Hc Hs].
  cbn [strings.Index]. rewrite HasPrefix_byte.
  destruct (Ascii.eqb_spec c d) as [->|_]; [congruence|].
  now rewrite (IH Hs).
Qed.

Lemma Index_byte_app (a b : string) (d : ascii) :
  strings.Index a (String d EmptyString) = None ->
  strings.Index (a ++ b) (String d EmptyString)
  = option_map (Nat.add (len a)) (strings.Index b (String d EmptyString)).
Proof.
  induction a as [|c a IH]; intros Ha.
  - cbn [append len String.length]. destruct (strings.Index b (String d "")); reflexivity.
  - cbn [strings.Index] in Ha. rewrite HasPrefix_byte in Ha.
    cbn [append strings.Index]. rewrite HasPrefix_byte.
    destruct (Ascii.eqb c d); [discriminate|].
    destruct (strings.Index a (String d "")) eqn:E; [discriminate|].
    rewrite (IH eq_refl).
    destruct (strings.Index b (String d "")); reflexivity.
Qed.

Lemma Index_byte_snoc (a : string) (d : ascii) :
  strings.Index (a ++ String d EmptyString) (String d EmptyString) <> None.
Proof.
  induction a as [|c a IH]; cbn [append strings.Index]; rewrite HasPrefix_byte.
  - rewrite Ascii.eqb_refl. discriminate.
  - destruct (Ascii.eqb c d); [discriminate|].
    destruct (strings.Index (a ++ String d "") (String d "")); [discriminate | contradiction].
Qed.

Lemma HasSuffix_byte_none (s : string) (d : ascii) :
  strings.Index s (String d EmptyString) = None ->
  strings.HasSuffix s (String d EmptyString) = false.
Proof.
  intros Hnone. destruct (strings.HasSuffix s (String d "")) eqn:Hs; [|reflexivity].
  apply TrimSuffix_spec in Hs. rewrite <- Hs in Hnone.
  now apply Index_byte_snoc in Hnone.
Qed.

Lemma url_byte_not_ctl (c : ascii) :
  url_byte c = true -> ((nat_of_ascii c <? 32) || (nat_of_ascii c =? 127))%nat = false.
Proof.
  destruct c as [[] [] [] [] [] [] [] []]; intros H;
    first [reflexivity | discriminate H].
Qed.

Lemma plain_byte_host_ok (c : ascii) :
  plain_byte c = true -> url.shouldEscape c url.encodeHost = false.
Proof.
  destruct c as [[] [] [] [] [] [] [] []]; intros H;
    first [reflexivity | discriminate H].
Qed.

Lemma path_byte_stands (c : ascii) :
  path_byte c = true -> url.shouldEscape c url.encodePath = false.
Proof.
  destruct c as [[] [] [] [] [] [] [] []]; intros H;
    first [reflexivity | discriminate H].
Qed.

Lemma plain_byte_stands_in_fragment (c : ascii) :
  plain_byte c = true -> url.shouldEscape c url.encodeFragment = false.
Proof.
  destruct c as [[] [] [] [] [] [] [] []]; intros H;
    first [reflexivity | discriminate H].
Qed.

Lemma plain_byte_url (c : ascii) : plain_byte c = true -> url_byte c = true.
Proof. unfold url_byte. now intros ->. Qed.

Lemma path_byte_url (c : ascii) : path_byte c = true -> url_byte c = true.
Proof.
  unfold url_byte, path_byte. intros H. apply orb_true_iff in H as [-> | ->];
    [reflexivity | now rewrite orb_true_r].
Qed.

Lemma letter_plain (c : ascii) : url.is_alpha c = true -> plain_byte c = true.
Proof. unfold plain_byte. now intros ->. Qed.

Lemma no_control_byte (s : string) :
  all_bytes url_byte s = true -> url.stringContainsCTLByte s = false.
Proof.
  induction s as [|c s IH]; [reflexivity|].
  rewrite all_bytes_cons. intros H. apply andb_true_iff in H as [Hc Hs].
  cbn [url.stringContainsCTLByte]. now rewrite (url_byte_not_ctl c Hc), (IH Hs).
Qed.

Lemma unescape_host_plain (s : string) :
  plain_text s = true -> url.unescape s url.encodeHost = Ok s.
Proof.
  unfold plain_text. induction s as [|c s IH]; [reflexivity|].
  rewrite all_bytes_cons. intros H. apply andb_true_iff in H as [Hc Hs].
  cbn [url.unescape].
  destruct (Ascii.eqb_spec c "%") as [->|_]; [discriminate|].
  rewrite (plain_byte_host_ok c Hc), andb_false_r, (IH Hs). reflexivity.
Qed.

Lemma unescape_plain (mode : url.encoding) (P : ascii -> bool) (s : string) :
  mode = url.encodePath \/ mode = url.encodeFragment ->
  P "%"%char = false ->
  all_bytes P s = true -> url.unescape s mode = Ok s.
Proof.
  intros Hmode HP. induction s as [|c s IH]; [reflexivity|].
  rewrite all_bytes_cons. intros H. apply andb_true_iff in H as [Hc Hs].
  cbn [url.unescape].
  destruct (Ascii.eqb_spec c "%") as [->|_]; [congruence|].
  rewrite (IH Hs). destruct Hmode as [-> | ->]; reflexivity.
Qed.

Lemma escape_plain (mode : url.encoding) (P : ascii -> bool) (s : string) :
  (forall c, P c = true -> url.shouldEscape c mode = false) ->
  all_bytes P s = true -> url.escape s mode = s.
Proof.
  intros HP. induction s as [|c s IH]; [reflexivity|].
  rewrite all_bytes_cons. intros H. apply andb_true_iff in H as [Hc Hs].
  cbn [url.escape]. rewrite (HP c Hc), (IH Hs). reflexivity.
Qed.

(** A path of plain elements and a fragment of plain bytes are their own
    decoded and raw forms. *)
Lemma setPath_plain (s : string) :
  all_bytes path_byte s = true -> url.setPath s = Ok (s, EmptyString).
Proof.
  intros H. unfold url.setPath.
  rewrite (unescape_plain url.encodePath path_byte s (or_introl eq_refl) eq_refl H).
  rewrite (escape_plain url.encodePath path_byte s path_byte_stands H).
  now rewrite String.eqb_refl.
Qed.

Lemma setFragment_plain (s : string) :
  plain_text s = true -> url.setFragment s = Ok (s, EmptyString).
Proof.
  intros H. unfold url.setFragment.
  rewrite (unescape_plain url.encodeFragment plain_byte s (or_intror eq_refl) eq_refl H).
  rewrite (escape_plain url.encodeFragment plain_byte s plain_byte_stands_in_fragment H).
  now rewrite String.eqb_refl.
Qed.

(** The loop of [getScheme] over the letters of a scheme, up to its colon. *)
Lemma scheme_loop_letters (raw scheme rest : string) (i : nat) :
  all_bytes url.is_alpha scheme = true -> 0 < i + len scheme ->
  url.scheme_loop raw i (scheme ++ String ":" rest)
  = Ok (slice_to (i + len scheme) raw, slice_from (i + len scheme + 1) raw).
Proof.
  revert i. induction scheme as [|c scheme IH]; intros i Hs Hpos.
  - cbn [append url.scheme_loop len String.length] in *.
    change (url.is_alpha ":") with false.
    change (url.is_digit ":" || url.is_one_of "+-." ":") with false.
    cbn [Ascii.eqb Bool.eqb]. rewrite Nat.add_0_r in *.
    destruct i; [lia | reflexivity].
  - rewrite all_bytes_cons in Hs. apply andb_true_iff in Hs as [Hc Hs].
    cbn [append url.scheme_loop]. rewrite Hc.
    rewrite (IH (S i) Hs) by (simpl; lia).
    cbn [len String.length]. unfold len.
    replace (S i + String.length scheme) with (i + S (String.length scheme)) by lia.
    reflexivity.
Qed.

Lemma ToLower_not_empty (s : string) :
  s <> EmptyString -> (strings.ToLower s =? EmptyString) = false.
Proof. destruct s; [contradiction | reflexivity]. Qed.

Lemma Cut_none (s : string) (d : ascii) :
  strings.Index s (String d EmptyString) = None ->
  strings.Cut s (String d EmptyString) = (s, EmptyString, false).
Proof. unfold strings.Cut. now intros ->. Qed.

Lemma all_bytes_weaken_plain (s : string) :
  plain_text s = true -> all_bytes url_byte s = true.
Proof. apply all_bytes_impl, plain_byte_url. Qed.

Lemma HasPrefix_plain_bracket (host : string) :
  plain_text host = true -> strings.HasPrefix host "[" = false.
Proof.
  destruct host as [|c h]; [reflexivity|].
  unfold plain_text. rewrite all_bytes_cons, HasPrefix_byte. intros H.
  apply andb_true_iff in H as [Hc _].
  destruct (Ascii.eqb_spec c "[") as [->|_]; [discriminate | reflexivity].
Qed.

Lemma parseAuthority_plain (host : string) :
  plain_text host = true -> url.parseAuthority host = Ok (None, host).
Proof.
  intros Hh. unfold url.parseAuthority, url.parseHost.
  rewrite (LastIndex_none host "@" (Index_byte_none plain_byte host "@" Hh eq_refl)).
  rewrite (LastIndex_none host "[" (Index_byte_none plain_byte host "[" Hh eq_refl)).
  rewrite (Index_byte_none plain_byte host ":" Hh eq_refl).
  now rewrite (unescape_host_plain host Hh).
Qed.

Lemma authority_byte_host_ok (c : ascii) :
  authority_byte c = true -> url.shouldEscape c url.encodeHost = false.
Proof.
  destruct c as [[] [] [] [] [] [] [] []]; intros H;
    first [reflexivity | discriminate H].
Qed.

Lemma authority_byte_url (c : ascii) : authority_byte c = true -> url_byte c = true.
Proof.
  unfold url_byte, authority_byte. intros H. apply orb_true_iff in H as [-> | ->];
    [reflexivity | now rewrite orb_true_r].
Qed.

Lemma plain_byte_authority (c : ascii) : plain_byte c = true -> authority_byte c = true.
Proof. unfold authority_byte. now intros ->. Qed.

Lemma digit_plain (c : ascii) : url.is_digit c = true -> plain_byte c = true.
Proof. unfold plain_byte. intros ->. now rewrite orb_true_r. Qed.

Lemma unescape_authority (s : string) :
  all_bytes authority_byte s = true -> url.unescape s url.encodeHost = Ok s.
Proof.
  induction s as [|c s IH]; [reflexivity|].
  rewrite all_bytes_cons. intros H. apply andb_true_iff in H as [Hc Hs].
  cbn [url.unescape].
  destruct (Ascii.eqb_spec c "%") as [->|_]; [discriminate|].
  rewrite (authority_byte_host_ok c Hc), andb_false_r, (IH Hs). reflexivity.
Qed.

(** A plain host followed by a colon and a port of digits. *)
Lemma authority_bytes_port (host port : string) :
  plain_text host = true -> all_bytes url.is_digit port = true ->
  all_bytes authority_byte (host ++ ":" ++ port) = true.
Proof.
  intros Hh Hp. rewrite all_bytes_app.
  rewrite (all_bytes_impl _ _ host plain_byte_authority Hh).
  change (":" ++ port) with (String ":" port). rewrite all_bytes_cons.
  now rewrite (all_bytes_impl _ _ port
                 (fun c H => plain_byte_authority c (digit_plain c H)) Hp).
Qed.

Lemma parseAuthority_port (host port : string) :
  plain_text host = true -> all_bytes url.is_digit port = true ->
  url.parseAuthority (host ++ ":" ++ port) = Ok (None, host ++ ":" ++ port).
Proof.
  intros Hh Hp.
  pose proof (authority_bytes_port host port Hh Hp) as Hall.
  assert (Hidx : strings.Index (host ++ ":" ++ port) ":" = Some (len host)).
  { apply Index_colon_append. unfold strings.Contains.
    now rewrite (Index_byte_none plain_byte host ":" Hh eq_refl). }
  assert (Hvalid : url.validOptionalPort
                     (slice_from (len host) (host ++ ":" ++ port)) = true).
  { rewrite slice_from_append. change (":" ++ port) with (String ":" port).
    cbn [url.validOptionalPort Ascii.eqb Bool.eqb andb]. exact Hp. }
  set (authority := host ++ ":" ++ port) in *.
  unfold url.parseAuthority, url.parseHost.
  rewrite (LastIndex_none _ "@" (Index_byte_none authority_byte _ "@" Hall eq_refl)).
  rewrite (LastIndex_none _ "[" (Index_byte_none authority_byte _ "[" Hall eq_refl)).
  rewrite Hidx, Hvalid.
  now rewrite (unescape_authority _ Hall).
Qed.

(** The authority and the path of [authority ++ path] are cut at the first
    slash. *)
Lemma cut_at_first_slash (authority path : string) :
  strings.Index authority "/" = None ->
  path = EmptyString \/ strings.HasPrefix path "/" = true ->
  match strings.Index (authority ++ path) "/" with
  | Some i => (slice_to i (authority ++ path), slice_from i (authority ++ path))
  | None => (authority ++ path, EmptyString)
  end = (authority, path).
Proof.
  intros Hh Hp.
  rewrite (Index_byte_app authority path "/" Hh).
  destruct Hp as [-> | Hp].
  - cbn [strings.Index option_map]. change (strings.HasPrefix "" "/") with false.
    cbn iota. now rewrite append_nil_r.
  - destruct path as [|c p]; [discriminate|].
    rewrite HasPrefix_byte in Hp.
    cbn [strings.Index]. rewrite HasPrefix_byte, Hp. cbn [option_map].
    rewrite Nat.add_0_r, slice_to_append, slice_from_append. reflexivity.
Qed.

Lemma authority_URL_rest_bytes (authority path : string) :
  all_bytes authority_byte authority = true -> all_bytes path_byte path = true ->
  all_bytes url_byte (String "/" (String "/" (authority ++ path))) = true.
Proof.
  intros Hh Hp. rewrite !all_bytes_cons, all_bytes_app.
  rewrite (all_bytes_impl _ _ authority authority_byte_url Hh),
          (all_bytes_impl _ _ path path_byte_url Hp).
  reflexivity.
Qed.

Lemma authority_URL_bytes (scheme authority path : string) :
  all_bytes url.is_alpha scheme = true ->
  all_bytes authority_byte authority = true -> all_bytes path_byte path = true ->
  all_bytes url_byte (scheme ++ "://" ++ authority ++ path) = true.
Proof.
  intros Hs Hh Hp. rewrite all_bytes_app.
  rewrite (all_bytes_impl _ _ scheme (fun c H => plain_byte_url c (letter_plain c H)) Hs).
  now apply authority_URL_rest_bytes.
Qed.

(** [parse] on a URL made of a scheme of letters, an authority of plain
    bytes and colons that [parseAuthority] takes as a host, and a path of
    plain elements. *)
Lemma parse_authority_URL (scheme authority path : string) :
  scheme <> EmptyString ->
  all_bytes url.is_alpha scheme = true ->
  all_bytes authority_byte authority = true ->
  url.parseAuthority authority = Ok (None, authority) ->
  all_bytes path_byte path = true ->
  path = EmptyString \/ strings.HasPrefix path "/" = true ->
  url.parse (scheme ++ "://" ++ authority ++ path)
  = Ok (url.mkURL (strings.ToLower scheme) EmptyString None authority path EmptyString
          false false EmptyString EmptyString EmptyString).
Proof.
  intros Hne Hs Hh Hauth Hp Hslash.
  pose proof (authority_URL_rest_bytes authority path Hh Hp) as Hrest.
  pose proof (authority_URL_bytes scheme authority path Hs Hh Hp) as Hall.
  unfold url.parse. rewrite (no_control_byte _ Hall).
  replace (scheme ++ "://" ++ authority ++ path =? "*") with false.
  2:{ symmetry. apply String.eqb_neq. intros E. apply (f_equal len) in E.
      rewrite len_append in E. cbn in E. lia. }
  unfold url.getScheme.
  change (scheme ++ "://" ++ authority ++ path)
    with (scheme ++ String ":" (String "/" (String "/" (authority ++ path)))).
  rewrite (scheme_loop_letters _ scheme _ 0 Hs)
    by (destruct scheme; [contradiction | simpl; lia]).
  cbn [Nat.add].
  rewrite slice_to_append.
  replace (slice_from (len scheme + 1)
             (scheme ++ String ":" (String "/" (String "/" (authority ++ path)))))
    with (String "/" (String "/" (authority ++ path))).
  2:{ change (scheme ++ String ":" (String "/" (String "/" (authority ++ path))))
        with (scheme ++ ":" ++ String "/" (String "/" (authority ++ path))).
      rewrite <- append_assoc.
      replace (len scheme + 1) with (len (scheme ++ ":"))
        by (rewrite len_append; reflexivity).
      now rewrite slice_from_append. }
  cbv zeta.
  rewrite (HasSuffix_byte_none _ "?" (Index_byte_none url_byte _ "?" Hrest eq_refl)).
  cbn [andb].
  rewrite (Cut_none _ "?" (Index_byte_none url_byte _ "?" Hrest eq_refl)).
  cbv beta iota.
  change (strings.HasPrefix (String "/" (String "/" (authority ++ path))) "/") with true.
  change (strings.HasPrefix (String "/" (String "/" (authority ++ path))) "//") with true.
  rewrite (ToLower_not_empty scheme Hne).
  cbn [negb andb orb].
  change (slice_from 2 (String "/" (String "/" (authority ++ path))))
    with (authority ++ path).
  rewrite (cut_at_first_slash authority path
             (Index_byte_none authority_byte authority "/" Hh eq_refl) Hslash).
  rewrite Hauth, (setPath_plain path Hp).
  reflexivity.
Qed.

Lemma plain_URL_bytes (scheme host path : string) :
  all_bytes url.is_alpha scheme = true ->
  plain_text host = true -> all_bytes path_byte path = true ->
  all_bytes url_byte (scheme ++ "://" ++ host ++ path) = true.
Proof.
  intros Hs Hh Hp. apply authority_URL_bytes; try assumption.
  now apply (all_bytes_impl _ _ host plain_byte_authority).
Qed.

(** [parse] on a URL made of a scheme of letters, a plain host and a path
    of plain elements. *)
Lemma parse_plain_URL (scheme host path : string) :
  scheme <> EmptyString ->
  all_bytes url.is_alpha scheme = true ->
  plain_text host = true ->
  all_bytes path_byte path = true ->
  path = EmptyString \/ strings.HasPrefix path "/" = true ->
  url.parse (scheme ++ "://" ++ host ++ path)
  = Ok (url.mkURL (strings.ToLower scheme) EmptyString None host path EmptyString
          false false EmptyString EmptyString EmptyString).
Proof.
  intros Hne Hs Hh Hp Hslash.
  apply parse_authority_URL; try assumption.
  - now apply (all_bytes_impl _ _ host plain_byte_authority).
  - now apply parseAuthority_plain.
Qed.

(** Without a [#] there is no fragment to cut off. *)
Lemma Parse_without_fragment (rawURL : string) (u : url.URL) :
  strings.Index rawURL "#" = None -> url.parse rawURL = Ok u -> url.Parse rawURL = Ok u.
Proof.
  intros Hnone Hparse. unfold url.Parse.
  rewrite (Cut_none _ "#" Hnone). cbv beta iota. now rewrite Hparse.
Qed.

Lemma Hostname_plain (u : url.URL) :
  plain_text (url.Host u) = true -> url.Hostname u = url.Host u.
Proof.
  intros Hh. unfold url.Hostname, url.splitHostPort.
  rewrite (LastIndex_none _ ":" (Index_byte_none plain_byte _ ":" Hh eq_refl)).
  now rewrite (HasPrefix_plain_bracket _ Hh).
Qed.

(** X19: [url.Parse] on a plain URL, a scheme of letters, [://], a host of
    plain bytes and a path of plain elements that is empty or starts with a
    slash: the scheme is lower-cased, the host and the path are the ones
    written, there is no user, query or fragment, and [Hostname()] is the
    host.  A fragment of plain bytes after a [#] is kept as the fragment
    and changes nothing else. *)
Theorem Parse_plain_URL (scheme host path : string) :
  scheme <> EmptyString ->
  all_bytes url.is_alpha scheme = true ->
  plain_text host = true ->
  all_bytes path_byte path = true ->
  path = EmptyString \/ strings.HasPrefix path "/" = true ->
  url.Parse (scheme ++ "://" ++ host ++ path)
  = Ok (url.mkURL (strings.ToLower scheme) EmptyString None host path EmptyString
          false false EmptyString EmptyString EmptyString)
  /\ (forall u, url.Parse (scheme ++ "://" ++ host ++ path) = Ok u ->
      url.Hostname u = host /\ url.Path u = path)
  /\ (forall frag,
        frag <> EmptyString -> plain_text frag = true ->
        url.Parse ((scheme ++ "://" ++ host ++ path) ++ "#" ++ frag)
        = Ok (url.mkURL (strings.ToLower scheme) EmptyString None host path EmptyString
                false false EmptyString frag EmptyString)).
Proof.
  intros Hne Hs Hh Hp Hslash.
  pose proof (plain_URL_bytes scheme host path Hs Hh Hp) as Hall.
  pose proof (Index_byte_none url_byte _ "#" Hall eq_refl) as Hhash.
  pose proof (parse_plain_URL scheme host path Hne Hs Hh Hp Hslash) as Hparse.
  pose proof (Parse_without_fragment _ _ Hhash Hparse) as HParse.
  split; [exact HParse|]. split.
  - intros u Hu. rewrite HParse in Hu. injection Hu as <-.
    split; [now apply Hostname_plain | reflexivity].
  - intros frag Hfrag Hplain.
    set (raw := scheme ++ "://" ++ host ++ path) in *.
    unfold url.Parse, strings.Cut.
    rewrite (Index_byte_app raw ("#" ++ frag) "#" Hhash).
    change ("#" ++ frag) with (String "#" frag).
    cbn [strings.Index]. rewrite HasPrefix_byte. cbn [Ascii.eqb Bool.eqb option_map].
    rewrite Nat.add_0_r, slice_to_append.
    replace (len raw + len "#") with (len (raw ++ "#"))
      by (rewrite len_append; reflexivity).
    change (raw ++ String "#" frag) with (raw ++ "#" ++ frag).
    rewrite <- (append_assoc raw "#" frag), slice_from_append.
    rewrite Hparse.
    replace (frag =? "") with false by (symmetry; now apply String.eqb_neq).
    now rewrite (setFragment_plain frag Hplain).
Qed.

Lemma sep_free_plain (s : string) : plain_text s = true -> sep_free s = true.
Proof.
  unfold plain_text. induction s as [|c s IH]; [reflexivity|].
  rewrite all_bytes_cons. intros H. apply andb_true_iff in H as [Hc Hs].
  cbn [sep_free]. rewrite (IH Hs), andb_true_r.
  unfold filepath.IsPathSeparator.
  destruct (Ascii.eqb_spec c "/") as [->|_]; [discriminate | reflexivity].
Qed.

Lemma plain_element_text (e : string) : plain_element e = true -> plain_text e = true.
Proof.
  unfold plain_element. intros H.
  apply andb_true_iff in H as [H _]. apply andb_true_iff in H as [H _].
  now apply andb_true_iff in H as [H _].
Qed.

Lemma plain_element_real (e : string) : plain_element e = true -> real_element e = true.
Proof.
  intros H. pose proof (sep_free_plain e (plain_element_text e H)) as Hsep.
  unfold plain_element in H. unfold real_element. rewrite Hsep.
  apply andb_true_iff in H as [H H3]. apply andb_true_iff in H as [H H2].
  apply andb_true_iff in H as [_ H1]. now rewrite H1, H2, H3.
Qed.

Lemma path_bytes_plain (e : string) : plain_text e = true -> all_bytes path_byte e = true.
Proof. apply all_bytes_impl. intros c Hc. unfold path_byte. now rewrite Hc. Qed.

Lemma path_bytes_Join (l : list string) :
  Forall (fun e => plain_element e = true) l ->
  all_bytes path_byte (strings.Join l "/") = true.
Proof.
  induction 1 as [|e l He Hl IH]; [reflexivity|].
  destruct l as [|e' l].
  - apply path_bytes_plain, plain_element_text, He.
  - rewrite strings_Join_cons, !all_bytes_app, IH.
    rewrite (path_bytes_plain e (plain_element_text e He)). reflexivity.
Qed.

(** [Parse] on such a URL: there is no fragment to cut off. *)
Lemma Parse_authority_URL (scheme authority path : string) :
  scheme <> EmptyString ->
  all_bytes url.is_alpha scheme = true ->
  all_bytes authority_byte authority = true ->
  url.parseAuthority authority = Ok (None, authority) ->
  all_bytes path_byte path = true ->
  path = EmptyString \/ strings.HasPrefix path "/" = true ->
  url.Parse (scheme ++ "://" ++ authority ++ path)
  = Ok (url.mkURL (strings.ToLower scheme) EmptyString None authority path EmptyString
          false false EmptyString EmptyString EmptyString).
Proof.
  intros Hne Hs Hh Hauth Hp Hslash.
  apply Parse_without_fragment.
  - apply (Index_byte_none url_byte); [now apply authority_URL_bytes | reflexivity].
  - now apply parse_authority_URL.
Qed.

(** The path [/d1/.../dn/b] of plain elements is made of path bytes. *)
Lemma path_bytes_rooted_Join (l : list string) :
  Forall (fun e => plain_element e = true) l ->
  all_bytes path_byte ("/" ++ strings.Join l "/") = true.
Proof.
  intros Hall. change ("/" ++ strings.Join l "/") with (String "/" (strings.Join l "/")).
  rewrite all_bytes_cons. now rewrite (path_bytes_Join _ Hall).
Qed.

(** X15: the local layout mirrors a plain URL.  When the URL, with a
    trailing [/home] removed, is [scheme://host/d1/.../dn/b] with a scheme
    of letters, a plain host and plain path elements, it parses; the
    target directory is the join of the home directory, [fossils], the
    host and [d1 ... dn]; the repository file is [b] with [.fossil] appended
    unless it is there; the checkout directory is the target directory
    with [b] less its [.fossil] suffix.  The run announces and creates the
    target directory, clones into the file there, creates the checkout
    directory and opens the file from there, in this order and each call
    only after the one before it succeeded: it returns exactly when all
    of them succeeded, having made the four calls and named the checkout
    directory in its last line, and otherwise exits with the failed call
    as the last event. *)
Theorem clone_plain_url_layout (URL_String : url.URL -> string) (env : Env)
  (fossilURL scheme host : string) (ds : list string) (b : string) (usr : user.User) :
  strings.TrimSuffix fossilURL "/home"
  = scheme ++ "://" ++ host ++ "/" ++ strings.Join (ds ++ [b]) "/" ->
  scheme <> EmptyString ->
  all_bytes url.is_alpha scheme = true ->
  plain_text host = true ->
  Forall (fun e => plain_element e = true) ds ->
  plain_element b = true ->
  In (EvUserCurrent (Ok usr))
     (snd (run (cloneCmd_Run url.Parse URL_String [fossilURL]) env)) ->
  let res := run (cloneCmd_Run url.Parse URL_String [fossilURL]) env in
  let targetDir := filepath.Join ([user.HomeDir usr; "fossils"; host] ++ ds) in
  let checkoutDir :=
    filepath.Join ([user.HomeDir usr; "fossils"; host] ++ ds
                   ++ [strings.TrimSuffix b ".fossil"]) in
  exists u,
    url.Parse (strings.TrimSuffix fossilURL "/home") = Ok u
    /\ url.Hostname u = host
    /\ url.Path u = "/" ++ strings.Join (ds ++ [b]) "/"
    /\ prefix_of (mkdirs (snd res)) [targetDir; checkoutDir]
    /\ prefix_of (commands (snd res))
         [ (targetDir,
            ["fossil"; "clone";
             URL_String (url.set_User u (url.UserOf (user.Username usr)));
             normalized_name b]);
           (checkoutDir,
            ["fossil"; "open"; filepath.Join [".."; normalized_name b]]) ]
    /\ (fst res = Done tt ->
        mkdirs (snd res) = [targetDir; checkoutDir]
        /\ commands (snd res)
           = [ (targetDir,
                ["fossil"; "clone";
                 URL_String (url.set_User u (url.UserOf (user.Username usr)));
                 normalized_name b]);
               (checkoutDir,
                ["fossil"; "open"; filepath.Join [".."; normalized_name b]]) ])
    /\ In (EvStdout ("ℹ️  Local target directory will be: " ++ targetDir ++ newline))
          (snd res)
    /\ hd_error (calls (snd res)) = Some (CallMkdirAll targetDir)
    /\ prefix_of (calls (snd res))
         (clone_plan targetDir checkoutDir
            (URL_String (url.set_User u (url.UserOf (user.Username usr))))
            (normalized_name b))
    /\ (fst res = Done tt <-> all_calls_succeeded (snd res) = true)
    /\ (fst res = Done tt ->
        calls (snd res)
        = clone_plan targetDir checkoutDir
            (URL_String (url.set_User u (url.UserOf (user.Username usr))))
            (normalized_name b)
        /\ last (snd res) (EvStdout EmptyString)
           = EvStdout ("✅ Success! Repo cloned and opened in: " ++ checkoutDir
                       ++ newline))
    /\ (fst res <> Done tt ->
        exists msg tr e,
          fst res = Exit 1 msg
          /\ snd res = (tr ++ [e])%list
          /\ call_failed e = true
          /\ all_calls_succeeded tr = true).
Proof.
  intros Hurl Hne Hs Hh Hds Hb Hin res targetDir checkoutDir.
  set (path := "/" ++ strings.Join (ds ++ [b]) "/") in *.
  assert (Hall : Forall (fun e => plain_element e = true) (ds ++ [b])).
  { apply Forall_app. split; [exact Hds | now constructor]. }
  assert (Hparse : url.Parse (strings.TrimSuffix fossilURL "/home")
            = Ok (url.mkURL (strings.ToLower scheme) EmptyString None host path EmptyString
                    false false EmptyString EmptyString EmptyString)).
  { rewrite Hurl. apply Parse_authority_URL; try assumption.
    - now apply (all_bytes_impl _ _ host plain_byte_authority).
    - now apply parseAuthority_plain.
    - now apply path_bytes_rooted_Join.
    - right. reflexivity. }
  set (u := url.mkURL (strings.ToLower scheme) EmptyString None host path EmptyString
              false false EmptyString EmptyString EmptyString) in *.
  assert (Hhost : url.Hostname u = host) by (apply Hostname_plain; exact Hh).
  destruct (clone_layout_of_path u usr ds b eq_refl) as (Ht & _ & Hf & Hc & _).
  { revert Hds. apply Forall_impl. intros e. apply plain_element_real. }
  { now apply plain_element_real. }
  rewrite Hhost in Ht, Hc.
  pose proof (clone_follows_plan url.Parse URL_String fossilURL env u usr Hparse Hin)
    as Hplan.
  cbv zeta in Hplan. unfold clone_plan_dirs, clone_plan_commands in Hplan.
  rewrite Ht, Hc, Hf in Hplan.
  pose proof (clone_run_shape url.Parse URL_String fossilURL env u usr Hparse Hin)
    as Hshape.
  cbv zeta in Hshape. rewrite Ht, Hc, Hf in Hshape.
  exists u. split; [exact Hparse|]. split; [exact Hhost|]. split; [reflexivity|].
  destruct Hplan as (Hp1 & Hp2 & Hp3).
  split; [exact Hp1|]. split; [exact Hp2|]. split; [exact Hp3|].
  exact Hshape.
Qed.


(** The host name of a URL whose host is a plain name and a port of
    digits is the plain name. *)
Lemma Hostname_port (u : url.URL) (host port : string) :
  url.Host u = host ++ ":" ++ port ->
  plain_text host = true ->
  all_bytes url.is_digit port = true ->
  url.Hostname u = host.
Proof.
  intros Hu Hh Hp. unfold url.Hostname, url.splitHostPort. rewrite Hu.
  change (":" ++ port) with (String ":" port).
  rewrite (LastIndex_append host port ":"
             (LastIndex_none port ":"
                (Index_byte_none plain_byte port ":"
                   (all_bytes_impl _ _ port digit_plain Hp) eq_refl))).
  replace (slice_from (len host) (host ++ String ":" port)) with (String ":" port)
    by (symmetry; apply slice_from_append).
  cbn [url.validOptionalPort]. unfold all_bytes in Hp. rewrite Hp.
  cbn [Ascii.eqb Bool.eqb andb].
  rewrite slice_to_append.
  now rewrite (HasPrefix_plain_bracket host Hh).
Qed.

(** X16: a port is no part of the local layout.  When the URL, with a
    trailing [/home] removed, is [scheme://host:port/d1/.../dn/b] with a
    scheme of letters, a plain host name (letters, digits, [-], [.] and
    [_]), a port of digits and plain path elements, it parses with the
    port in its host, and so does the URL without the port; both have the
    host name [host], and the target directory, the checkout directory and
    the repository file are those of the URL without the port.  The run
    for the URL with the port makes its calls in these directories: the
    port appears only in the URL handed to [fossil clone]. *)
Theorem clone_ignores_port (URL_String : url.URL -> string) (env : Env)
  (fossilURL scheme host port : string) (ds : list string) (b : string)
  (usr : user.User) :
  strings.TrimSuffix fossilURL "/home"
  = scheme ++ "://" ++ (host ++ ":" ++ port) ++ "/" ++ strings.Join (ds ++ [b]) "/" ->
  scheme <> EmptyString ->
  all_bytes url.is_alpha scheme = true ->
  plain_text host = true ->
  all_bytes url.is_digit port = true ->
  Forall (fun e => plain_element e = true) ds ->
  plain_element b = true ->
  In (EvUserCurrent (Ok usr))
     (snd (run (cloneCmd_Run url.Parse URL_String [fossilURL]) env)) ->
  let res := run (cloneCmd_Run url.Parse URL_String [fossilURL]) env in
  let targetDir := filepath.Join ([user.HomeDir usr; "fossils"; host] ++ ds) in
  let checkoutDir :=
    filepath.Join ([user.HomeDir usr; "fossils"; host] ++ ds
                   ++ [strings.TrimSuffix b ".fossil"]) in
  exists u u',
    url.Parse (strings.TrimSuffix fossilURL "/home") = Ok u
    /\ url.Parse (scheme ++ "://" ++ host ++ "/" ++ strings.Join (ds ++ [b]) "/")
       = Ok u'
    /\ url.Host u = host ++ ":" ++ port
    /\ url.Host u' = host
    /\ url.Hostname u = host
    /\ url.Hostname u' = host
    /\ clone_targetDir u usr = targetDir
    /\ clone_targetDir u' usr = targetDir
    /\ clone_checkoutDir u usr = checkoutDir
    /\ clone_checkoutDir u' usr = checkoutDir
    /\ clone_fossilFileName u = normalized_name b
    /\ clone_fossilFileName u' = normalized_name b
    /\ In (EvStdout ("ℹ️  Local target directory will be: " ++ targetDir ++ newline))
          (snd res)
    /\ hd_error (calls (snd res)) = Some (CallMkdirAll targetDir)
    /\ prefix_of (calls (snd res))
         (clone_plan targetDir checkoutDir
            (URL_String (url.set_User u (url.UserOf (user.Username usr))))
            (normalized_name b))
    /\ (fst res = Done tt <-> all_calls_succeeded (snd res) = true)
    /\ (fst res = Done tt ->
        calls (snd res)
        = clone_plan targetDir checkoutDir
            (URL_String (url.set_User u (url.UserOf (user.Username usr))))
            (normalized_name b)
        /\ last (snd res) (EvStdout EmptyString)
           = EvStdout ("✅ Success! Repo cloned and opened in: " ++ checkoutDir
                       ++ newline))
    /\ (fst res <> Done tt ->
        exists msg tr e,
          fst res = Exit 1 msg
          /\ snd res = (tr ++ [e])%list
          /\ call_failed e = true
          /\ all_calls_succeeded tr = true).
Proof.
  intros Hurl Hne Hs Hh Hport Hds Hb Hin res targetDir checkoutDir.
  set (path := "/" ++ strings.Join (ds ++ [b]) "/") in *.
  assert (Hall : Forall (fun e => plain_element e = true) (ds ++ [b])).
  { apply Forall_app. split; [exact Hds | now constructor]. }
  assert (Hpath : all_bytes path_byte path = true)
    by now apply path_bytes_rooted_Join.
  assert (Hparse : url.Parse (strings.TrimSuffix fossilURL "/home")
            = Ok (url.mkURL (strings.ToLower scheme) EmptyString None
                    (host ++ ":" ++ port) path EmptyString
                    false false EmptyString EmptyString EmptyString)).
  { rewrite Hurl. apply Parse_authority_URL; try assumption.
    - now apply authority_bytes_port.
    - now apply parseAuthority_port.
    - right. reflexivity. }
  assert (Hparse' : url.Parse (scheme ++ "://" ++ host ++ path)
            = Ok (url.mkURL (strings.ToLower scheme) EmptyString None host path
                    EmptyString false false EmptyString EmptyString EmptyString)).
  { apply Parse_authority_URL; try assumption.
    - now apply (all_bytes_impl _ _ host plain_byte_authority).
    - now apply parseAuthority_plain.
    - right. reflexivity. }
  set (u := url.mkURL (strings.ToLower scheme) EmptyString None (host ++ ":" ++ port)
              path EmptyString false false EmptyString EmptyString EmptyString) in *.
  set (u' := url.mkURL (strings.ToLower scheme) EmptyString None host path EmptyString
               false false EmptyString EmptyString EmptyString) in *.
  assert (Hhost : url.Hostname u = host)
    by (apply (Hostname_port u host port); [reflexivity | exact Hh | exact Hport]).
  assert (Hhost' : url.Hostname u' = host) by (apply Hostname_plain; exact Hh).
  assert (Hreal : Forall (fun e => real_element e = true) ds).
  { revert Hds. apply Forall_impl. intros e. apply plain_element_real. }
  destruct (clone_layout_of_path u usr ds b eq_refl Hreal (plain_element_real b Hb))
    as (Ht & _ & Hf & Hc & _).
  destruct (clone_layout_of_path u' usr ds b eq_refl Hreal (plain_element_real b Hb))
    as (Ht' & _ & Hf' & Hc' & _).
  rewrite Hhost in Ht, Hc. rewrite Hhost' in Ht', Hc'.
  pose proof (clone_run_shape url.Parse URL_String fossilURL env u usr Hparse Hin)
    as Hshape.
  cbv zeta in Hshape. rewrite Ht, Hc, Hf in Hshape.
  exists u, u'.
  split; [exact Hparse|]. split; [exact Hparse'|].
  split; [reflexivity|]. split; [reflexivity|].
  split; [exact Hhost|]. split; [exact Hhost'|].
  split; [exact Ht|]. split; [exact Ht'|].
  split; [exact Hc|]. split; [exact Hc'|].
  split; [exact Hf|]. split; [exact Hf'|].
  exact Hshape.
Qed.


(** ** Announcements *)

Lemma echo_announces (c : exec.Cmd) : announces (echo c) c.
Proof. exists EmptyString. reflexivity. Qed.

Lemma echo_announces_whoami (env : Env) :
  announces (echo (exec.Command (LookPath env) "whoami" [])) (whoami_cmd env).
Proof. exists EmptyString. reflexivity. Qed.

Lemma sftp_echo_announces (sftpCommand : string) (c : exec.Cmd) :
  announces (sftp_echo sftpCommand c) c.
Proof.
  exists ("echo " ++ dquote ++ sftpCommand ++ dquote ++ " | ").
  unfold sftp_echo. rewrite !append_assoc. reflexivity.
Qed.

Ltac solve_announced :=
  cbv beta iota delta [app announced success_banner];
  repeat split;
  first [ apply echo_announces | apply echo_announces_whoami | apply sftp_echo_announces ].

(** X17: in every run of the three workflows, each command comes right
    after the line on standard output that announces it: the marker of
    lines 54, 67 and 196, and the command as [String()] renders it at the
    end of the line.  Nothing is run unannounced. *)
Theorem every_run_is_announced (given : Values) (arg : string) (env : Env)
  (url_Parse : string -> result url.URL) (URL_String : url.URL -> string) :
  announced None (snd (run (initCmd_Run given [arg]) env))
  /\ announced None (snd (run (transferCmd_Run given [arg]) env))
  /\ announced None (snd (run (cloneCmd_Run url_Parse URL_String [arg]) env)).
Proof.
  split; [|split].
  - init_cases given arg env; solve_announced.
  - transfer_cases; cbv beta iota delta [fst snd]; solve_announced.
  - clone_cases url_Parse URL_String arg env; solve_announced.
Qed.

(** ** Joined paths *)

(** X18: [filepath.Join] of elements that are not all empty is not empty
    and is a clean path: cleaning it, or joining it again, changes
    nothing. *)
Theorem Join_result_is_clean (l : list string) :
  some_nonempty l = true ->
  filepath.Join l <> EmptyString
  /\ filepath.Clean (filepath.Join l) = filepath.Join l
  /\ filepath.Join [filepath.Join l] = filepath.Join l.
Proof.
  intros Hl.
  assert (Hclean : filepath.Clean (filepath.Join l) = filepath.Join l).
  { induction l as [|x l IH]; [discriminate|].
    unfold some_nonempty in Hl. cbn [existsb] in Hl. cbn [filepath.Join].
    destruct (x =? ""); [exact (IH Hl) | apply Clean_idempotent]. }
  pose proof (Join_not_empty l Hl) as Hne.
  split; [exact Hne|]. split; [exact Hclean|].
  rewrite Join_head by exact Hne. exact Hclean.
Qed.

(** ** Runs and values for the properties above *)

Lemma init_user_defaults_to_whoami_witness :
  GetString initFlags with_password "password" <> EmptyString
  /\ GetString initFlags with_password "user" = EmptyString
  /\ attempts "whoami" (snd (run (initCmd_Run with_password ["tester"]) env_ok))
     = [EvRun (whoami_cmd env_ok) ("alice" ++ newline) None]
  /\ In (EvStdout ("ℹ️  No --user specified. Defaulting to current user: "
                   ++ "alice" ++ newline))
        (snd (run (initCmd_Run with_password ["tester"]) env_ok))
  /\ commands_of "fossil" (snd (run (initCmd_Run with_password ["tester"]) env_ok))
     = init_plan "tester.fossil" "alice" "pw".
Proof.
  assert (Hpw : GetString initFlags with_password "password" <> EmptyString)
    by discriminate.
  split; [exact Hpw|]. split; [reflexivity|].
  destruct (init_user_defaults_to_whoami with_password "tester" env_ok Hpw) as [_ H].
  destruct (H eq_refl) as (captured & err & Ha & _ & Hrest).
  assert (E : attempts "whoami" (snd (run (initCmd_Run with_password ["tester"]) env_ok))
              = [EvRun (whoami_cmd env_ok) ("alice" ++ newline) None]) by reflexivity.
  rewrite E in Ha. injection Ha as <- <-.
  destruct Hrest as (Hann & _ & _ & Hdone).
  split; [exact E|]. split; [exact Hann|]. exact (Hdone eq_refl).
Defined.

Lemma init_echoes_password_witness :
  fst (run (initCmd_Run with_password ["tester"]) env_ok) = Done tt
  /\ exists head username,
       In (EvStdout ("▶️  Executing: " ++ head ++ " user password " ++ username ++ " "
                     ++ "pw" ++ newline))
          (snd (run (initCmd_Run with_password ["tester"]) env_ok)).
Proof.
  split; [reflexivity|].
  exact (init_echoes_password with_password "tester" env_ok eq_refl).
Defined.

Lemma init_returns_iff_all_calls_succeed_witness :
  GetString initFlags with_password "password" <> EmptyString
  /\ (fst (run (initCmd_Run with_password ["tester"]) env_all_fail) = Done tt <->
      all_calls_succeeded (snd (run (initCmd_Run with_password ["tester"]) env_all_fail))
      = true).
Proof.
  assert (Hpw : GetString initFlags with_password "password" <> EmptyString)
    by discriminate.
  split; [exact Hpw|].
  exact (proj1 (init_returns_iff_all_calls_succeed with_password "tester" env_all_fail Hpw)).
Defined.

Lemma init_opens_the_file_it_created_witness :
  GetString initFlags with_password "password" <> EmptyString
  /\ real_element (strings.TrimSuffix (normalized_name "tester") ".fossil") = true
  /\ fst (run (initCmd_Run with_password ["tester"]) env_ok) = Done tt
  /\ exists before rest,
       calls (snd (run (initCmd_Run with_password ["tester"]) env_ok))
       = (before
          ++ [ CallRun EmptyString ["fossil"; "new"; "tester.fossil"];
               CallMkdirAll "tester";
               CallRun "tester" ["fossil"; "open"; "../tester.fossil"] ]
          ++ rest)%list
       /\ filepath.Join ["tester"; "../tester.fossil"] = "tester.fossil"
       /\ filepath.Join [filepath.Join ["/work"; "tester"]; "../tester.fossil"]
          = filepath.Join ["/work"; "tester.fossil"].
Proof.
  assert (Hpw : GetString initFlags with_password "password" <> EmptyString)
    by discriminate.
  split; [exact Hpw|]. split; [reflexivity|].
  destruct (init_opens_the_file_it_created with_password "tester" "/work" env_ok
              Hpw eq_refl)
    as (Hopen & _ & Hret).
  split; [apply Hret; reflexivity|].
  destruct (Hopen "tester" ["../tester.fossil"])
    as (path & before & rest & Hargs & Hcalls & Hrel & Habs).
  { right. right. right. left. reflexivity. }
  injection Hargs as <-.
  exists before, rest. split; [exact Hcalls|]. split; [exact Hrel|].
  apply Habs. discriminate.
Defined.

Lemma transfer_fallback_command_witness :
  primary_failed (snd (run (transferCmd_Run to_alice ["repo.fossil"]) env_scp_fails)) = true
  /\ strings.Contains (GetString transferFlags to_alice "destination") ":" = true
  /\ exists userHost remotePath,
       GetString transferFlags to_alice "destination" = userHost ++ ":" ++ remotePath
       /\ strings.Contains userHost ":" = false.
Proof.
  split; [reflexivity|]. split; [reflexivity|].
  destruct (transfer_fallback_command to_alice "repo.fossil" env_scp_fails eq_refl eq_refl)
    as (userHost & remotePath & _ & _ & _ & Hd & Hu & _).
  exists userHost, remotePath. split; assumption.
Defined.

Lemma transfer_remediation_splits_at_first_colon_witness :
  GetString transferFlags to_alice "destination" = "alice@example.com" ++ ":" ++ "/srv/fossil"
  /\ strings.Contains "alice@example.com" ":" = false
  /\ fst (run (transferCmd_Run to_alice ["repo.fossil"]) env_ok) = Done tt
  /\ exists tr,
       snd (run (transferCmd_Run to_alice ["repo.fossil"]) env_ok)
       = (tr ++ [ EvStdout (remediation "alice@example.com"
                              (GetString transferFlags to_alice "remote-user")
                              (filepath.Join ["/srv/fossil"; "repo.fossil"]));
                  EvStdout (rule ++ newline) ])%list.
Proof.
  split; [reflexivity|]. split; [reflexivity|]. split; [reflexivity|].
  exact (proj1 (transfer_remediation_splits_at_first_colon to_alice "repo.fossil" env_ok
                  "alice@example.com" "/srv/fossil" eq_refl eq_refl eq_refl)).
Defined.

Lemma clone_returns_iff_all_calls_succeed_witness :
  url.Parse (strings.TrimSuffix "http://example.com/proj/home" "/home")
  = Ok (example_URL "example.com" "/proj")
  /\ fst (run (cloneCmd_Run url.Parse simple_URL_String
                 ["http://example.com/proj/home"]) env_ok) = Done tt
  /\ exists tr,
       snd (run (cloneCmd_Run url.Parse simple_URL_String
                   ["http://example.com/proj/home"]) env_ok)
       = (tr ++ [EvStdout ("✅ Success! Repo cloned and opened in: "
                           ++ "/home/alice/fossils/example.com/proj" ++ newline)])%list.
Proof.
  split; [reflexivity|].
  destruct (clone_returns_iff_all_calls_succeed url.Parse simple_URL_String
              "http://example.com/proj/home" env_ok
              (example_URL "example.com" "/proj") eq_refl)
    as (Hiff & _ & Hdone).
  assert (Hret : fst (run (cloneCmd_Run url.Parse simple_URL_String
                             ["http://example.com/proj/home"]) env_ok) = Done tt)
    by (apply Hiff; reflexivity).
  split; [exact Hret|].
  destruct (Hdone Hret) as (tr & usr & Hlook & _ & Htrace).
  injection Hlook as <-.
  exists tr. exact Htrace.
Defined.

Lemma clone_opens_the_file_it_cloned_witness :
  url.Parse (strings.TrimSuffix "http://example.com/proj/home" "/home")
  = Ok (example_URL "example.com" "/proj")
  /\ real_element (clone_repoBaseName (example_URL "example.com" "/proj")) = true
  /\ fst (run (cloneCmd_Run url.Parse simple_URL_String
                 ["http://example.com/proj/home"]) env_ok) = Done tt
  /\ exists target authURL file,
       calls (snd (run (cloneCmd_Run url.Parse simple_URL_String
                          ["http://example.com/proj/home"]) env_ok))
       = [ CallMkdirAll target;
           CallRun target ["fossil"; "clone"; authURL; file];
           CallMkdirAll "/home/alice/fossils/example.com/proj";
           CallRun "/home/alice/fossils/example.com/proj"
             ["fossil"; "open"; "../proj.fossil"] ]
       /\ filepath.Join ["/home/alice/fossils/example.com/proj"; "../proj.fossil"]
          = filepath.Join [target; file].
Proof.
  split; [reflexivity|]. split; [reflexivity|].
  destruct (clone_opens_the_file_it_cloned url.Parse simple_URL_String
              "http://example.com/proj/home" env_ok
              (example_URL "example.com" "/proj") alice eq_refl
              (or_intror (or_introl eq_refl)) eq_refl)
    as (Hopen & _ & Hret).
  split; [apply Hret; reflexivity|].
  destruct (Hopen "/home/alice/fossils/example.com/proj" ["../proj.fossil"])
    as (target & authURL & file & path & Hargs & Hcalls & Hfile).
  { right. right. right. left. reflexivity. }
  injection Hargs as <-.
  exists target, authURL, file. split; [exact Hcalls | exact Hfile].
Defined.

Lemma clone_ignores_port_witness :
  strings.TrimSuffix "http://example.com:8080/team/proj/home" "/home"
  = "http" ++ "://" ++ ("example.com" ++ ":" ++ "8080") ++ "/"
    ++ strings.Join (["team"] ++ ["proj"]) "/"
  /\ In (EvUserCurrent (Ok alice))
        (snd (run (cloneCmd_Run url.Parse simple_URL_String
                     ["http://example.com:8080/team/proj/home"]) env_ok))
  /\ fst (run (cloneCmd_Run url.Parse simple_URL_String
                 ["http://example.com:8080/team/proj/home"]) env_ok) = Done tt
  /\ calls (snd (run (cloneCmd_Run url.Parse simple_URL_String
                        ["http://example.com:8080/team/proj/home"]) env_ok))
     = [ CallMkdirAll "/home/alice/fossils/example.com/team";
         CallRun "/home/alice/fossils/example.com/team"
           ["fossil"; "clone"; "http://alice@example.com:8080/team/proj";
            "proj.fossil"];
         CallMkdirAll "/home/alice/fossils/example.com/team/proj";
         CallRun "/home/alice/fossils/example.com/team/proj"
           ["fossil"; "open"; "../proj.fossil"] ].
Proof.
  assert (Hin : In (EvUserCurrent (Ok alice))
                  (snd (run (cloneCmd_Run url.Parse simple_URL_String
                               ["http://example.com:8080/team/proj/home"]) env_ok))).
  { right. left. reflexivity. }
  split; [reflexivity|]. split; [exact Hin|].
  destruct (clone_ignores_port simple_URL_String env_ok
              "http://example.com:8080/team/proj/home" "http" "example.com" "8080"
              ["team"] "proj" alice eq_refl
              ltac:(discriminate) eq_refl eq_refl eq_refl
              ltac:(repeat constructor) eq_refl Hin)
    as (u & u' & Hparse & _ & _ & _ & _ & _ & _ & _ & _ & _ & _ & _ & _ & _ & _
        & Hiff & Hdone & _).
  assert (Hret : fst (run (cloneCmd_Run url.Parse simple_URL_String
                             ["http://example.com:8080/team/proj/home"]) env_ok)
                 = Done tt)
    by (apply Hiff; reflexivity).
  assert (Hu : url.Parse (strings.TrimSuffix "http://example.com:8080/team/proj/home"
                            "/home")
               = Ok (example_URL "example.com:8080" "/team/proj")) by reflexivity.
  rewrite Hu in Hparse. injection Hparse as <-.
  split; [exact Hret|]. exact (proj1 (Hdone Hret)).
Defined.

Lemma Join_result_is_clean_witness :
  some_nonempty [""; "/home/alice/"; "fossils"; "."; "example.com"] = true
  /\ filepath.Join [""; "/home/alice/"; "fossils"; "."; "example.com"]
     = "/home/alice/fossils/example.com"
  /\ filepath.Clean (filepath.Join [""; "/home/alice/"; "fossils"; "."; "example.com"])
     = filepath.Join [""; "/home/alice/"; "fossils"; "."; "example.com"].
Proof.
  split; [reflexivity|]. split; [reflexivity|].
  exact (proj1 (proj2 (Join_result_is_clean
                         [""; "/home/alice/"; "fossils"; "."; "example.com"] eq_refl))).
Defined.

Lemma clone_plain_url_layout_witness :
  strings.TrimSuffix "https://example.com/team/tools/proj.fossil/home" "/home"
  = "https" ++ "://" ++ "example.com" ++ "/"
    ++ strings.Join (["team"; "tools"] ++ ["proj.fossil"]) "/"
  /\ In (EvUserCurrent (Ok alice))
        (snd (run (cloneCmd_Run url.Parse simple_URL_String
                     ["https://example.com/team/tools/proj.fossil/home"]) env_ok))
  /\ fst (run (cloneCmd_Run url.Parse simple_URL_String
                 ["https://example.com/team/tools/proj.fossil/home"]) env_ok)
     = Done tt
  /\ calls (snd (run (cloneCmd_Run url.Parse simple_URL_String
                        ["https://example.com/team/tools/proj.fossil/home"]) env_ok))
     = [ CallMkdirAll "/home/alice/fossils/example.com/team/tools";
         CallRun "/home/alice/fossils/example.com/team/tools"
           ["fossil"; "clone"; "https://alice@example.com/team/tools/proj.fossil";
            "proj.fossil"];
         CallMkdirAll "/home/alice/fossils/example.com/team/tools/proj";
         CallRun "/home/alice/fossils/example.com/team/tools/proj"
           ["fossil"; "open"; "../proj.fossil"] ].
Proof.
  assert (Hin : In (EvUserCurrent (Ok alice))
                  (snd (run (cloneCmd_Run url.Parse simple_URL_String
                               ["https://example.com/team/tools/proj.fossil/home"])
                          env_ok))).
  { right. left. reflexivity. }
  split; [reflexivity|]. split; [exact Hin|].
  destruct (clone_plain_url_layout simple_URL_String env_ok
              "https://example.com/team/tools/proj.fossil/home" "https" "example.com"
              ["team"; "tools"] "proj.fossil" alice eq_refl
              ltac:(discriminate) eq_refl eq_refl
              ltac:(repeat constructor) eq_refl Hin)
    as (u & Hparse & _ & _ & _ & _ & _ & _ & _ & _ & Hiff & Hdone & _).
  assert (Hret : fst (run (cloneCmd_Run url.Parse simple_URL_String
                             ["https://example.com/team/tools/proj.fossil/home"])
                        env_ok) = Done tt)
    by (apply Hiff; reflexivity).
  assert (Hu : url.Parse (strings.TrimSuffix
                            "https://example.com/team/tools/proj.fossil/home" "/home")
               = Ok (url.mkURL "https" EmptyString None "example.com"
                       "/team/tools/proj.fossil" EmptyString false false
                       EmptyString EmptyString EmptyString)) by reflexivity.
  rewrite Hu in Hparse. injection Hparse as <-.
  split; [exact Hret|]. exact (proj1 (Hdone Hret)).
Defined.

Lemma Parse_plain_URL_witness :
  all_bytes url.is_alpha "HTTP" = true
  /\ url.Parse ("HTTP" ++ "://" ++ "example.com" ++ "/team/proj")
     = Ok (example_URL "example.com" "/team/proj").
Proof.
  split; [reflexivity|].
  exact (proj1 (Parse_plain_URL "HTTP" "example.com" "/team/proj"
                  ltac:(discriminate) eq_refl eq_refl eq_refl (or_intror eq_refl))).
Defined.
